(** * DataSetByFeature: construction and teardown of the interaction data set

    A shallow embedding of [shared/ebm_native/DataSetInteraction.cpp]:
    [ConstructResidualErrors], [ConstructInputData],
    [DataSetByFeature::Destruct] and [DataSetByFeature::Initialize].

    The C++ code is imperative: it allocates with [EbmMalloc], releases
    with [free], writes through raw pointers and logs.  It is embedded in
    a state-and-fault monad over an explicit heap.  A run either returns a
    value and a final state, or stops in a fault (a failed [EBM_ASSERT], a
    write through a null pointer, a read outside a buffer, an invalid
    [free]). *)

From Stdlib Require Import ZArith Lia String.
From stdpp Require Import base numbers option list.

Local Open Scope Z_scope.

(** ** Machine integers *)

(** [size_t] is taken to be 64 bits wide; its arithmetic wraps around. *)
Definition size_bits : Z := 64.
Definition SIZE_MAX : Z := 2 ^ size_bits - 1.
Definition size_wrap (x : Z) : Z := x mod 2 ^ size_bits.
Definition size_mul (a b : Z) : Z := size_wrap (a * b).

(** ** Pointers, heap blocks and observable events *)

(** An address is a natural number; [nullptr] is 0.  The block of address
    [S i] is the [i]-th entry of the heap. *)
Abbreviation ptr := nat.
Definition nullptr : ptr := 0%nat.
Definition is_null (p : ptr) : bool := Nat.eqb p nullptr.

(** The three instantiations of the residual kernel used by the file:
    [InitializeResiduals<2>], [InitializeResiduals<k_DynamicClassification>]
    and [InitializeResiduals<k_Regression>]. *)
Inductive kernel : Type :=
  | Kernel_2
  | Kernel_DynamicClassification
  | Kernel_Regression.

(** Modelled from the spec: the task descriptor
    [runtimeLearningTypeOrCountTargetClasses], whose encoding
    ([k_Regression], [k_DynamicClassification], declared in EbmInternal.h)
    is not part of the shown source.  The spec describes it as a tagged
    value distinguishing regression, binary classification and multiclass
    classification with [K] classes. *)
Inductive LearningType : Type :=
  | Regression
  | BinaryClassification
  | MulticlassClassification (K : Z).

(** What a heap cell holds.  [EbmMalloc<T, false>] leaves cells
    uninitialised. *)
Inductive cell : Type :=
  | Uninit
  | VPtr (p : ptr)
  | VStorage (v : Z)
  | VResidual.

Abbreviation block := (list cell).

Inductive event : Type :=
  | EvMalloc (cItems : Z) (p : ptr)
  | EvFree (p : ptr)
  | EvKernel (k : kernel) (cInstances : Z) (aResidualErrors : ptr)
             (runtimeLearningType : LearningType) (aTempFloatVector : ptr).

Inductive TraceLevel : Type := TraceLevelWarning | TraceLevelInfo.

Inductive fault : Type :=
  | AssertionFailure
  | NullDereference
  | OutOfBounds
  | UninitialisedRead
  | InvalidFree.

(** The state threaded through the code.
    - [heap]: one entry per block ever allocated, [None] once freed;
      addresses are never reused, so a second [free] is detected.
    - [plan]: the allocator's answers to the coming requests ([false]: the
      request fails).  When the plan is exhausted every request succeeds.
    - [trace]: allocator calls and kernel dispatches, newest first.
    - [log]: messages passed to [LOG_0], newest first. *)
Record State : Type := mkState {
  heap : list (option block);
  plan : list bool;
  trace : list event;
  log : list (TraceLevel * string)
}.

Inductive outcome (A : Type) : Type :=
  | Ret (a : A) (s : State)
  | Fault (f : fault) (s : State).
Arguments Ret {A} a s.
Arguments Fault {A} f s.

Definition M (A : Type) : Type := State -> outcome A.

Definition ret {A : Type} (a : A) : M A := fun s => Ret a s.

Definition bind {A B : Type} (m : M A) (k : A -> M B) : M B :=
  fun s =>
    match m s with
    | Ret a s' => k a s'
    | Fault f s' => Fault f s'
    end.

Definition raise {A : Type} (f : fault) : M A := fun s => Fault f s.

#[global] Instance M_ret : MRet M := @ret.
#[global] Instance M_bind : MBind M := fun A B k m => bind m k.

(** ** Collaborators that are declared outside the file *)

(** [LOG_0(level, message)]. *)
Definition LOG_0 (lvl : TraceLevel) (msg : string) : M unit :=
  fun s => Ret tt (mkState (heap s) (plan s) (trace s) ((lvl, msg) :: log s)).

(** [EBM_ASSERT(cond)], as in a checked build: a violated assertion stops
    the run.  The macro is compiled out of a release build, where the code
    that follows an assertion runs whatever the condition: [EBM_ASSERT_in]
    below is the macro in either build.  The checked reading is used where
    the asserted condition is a precondition of the function. *)
Definition EBM_ASSERT (cond : bool) : M unit :=
  if cond then ret tt else raise AssertionFailure.

(** Whether the allocator grants its next request. *)
Definition grants (plan : list bool) : bool :=
  match plan with
  | false :: _ => false
  | _ => true
  end.

(** Modelled from the spec: [EbmMalloc<T, false>(cItems)] (EbmInternal.h),
    the generic allocation primitive, "a standard heap allocator that may
    fail and returns a null indicator on failure".  A granted request
    yields a fresh block of [cItems] uninitialised cells. *)
Definition EbmMalloc (cItems : Z) : M ptr :=
  fun s =>
    if grants (plan s) then
      let p := S (length (heap s)) in
      Ret p (mkState (heap s ++ [Some (replicate (Z.to_nat cItems) Uninit)])
                     (tail (plan s))
                     (EvMalloc cItems p :: trace s) (log s))
    else
      Ret nullptr
          (mkState (heap s) (tail (plan s))
                   (EvMalloc cItems nullptr :: trace s) (log s)).

(** [free(p)]: nothing happens on [nullptr]; a live block is released;
    anything else is an invalid free. *)
Definition free (p : ptr) : M unit :=
  fun s =>
    match p with
    | O => Ret tt s
    | S i =>
        match heap s !! i with
        | Some (Some _) =>
            Ret tt (mkState (<[i := None]> (heap s)) (plan s)
                            (EvFree p :: trace s) (log s))
        | _ => Fault InvalidFree s
        end
    end.

(** [p[i]], read. *)
Definition load (p : ptr) (i : nat) : M cell :=
  fun s =>
    match p with
    | O => Fault NullDereference s
    | S a =>
        match heap s !! a with
        | Some (Some b) =>
            match b !! i with
            | Some c => Ret c s
            | None => Fault OutOfBounds s
            end
        | _ => Fault NullDereference s
        end
    end.

(** [p[i]], read as a pointer. *)
Definition load_ptr (p : ptr) (i : nat) : M ptr :=
  c ← load p i;
  match c with
  | VPtr q => ret q
  | _ => raise UninitialisedRead
  end.

(** [p[i] = c]. *)
Definition store (p : ptr) (i : nat) (c : cell) : M unit :=
  fun s =>
    match p with
    | O => Fault NullDereference s
    | S a =>
        match heap s !! a with
        | Some (Some b) =>
            if (i <? length b)%nat
            then Ret tt (mkState (<[a := Some (<[i := c]> b)]> (heap s))
                                 (plan s) (trace s) (log s))
            else Fault OutOfBounds s
        | _ => Fault NullDereference s
        end
    end.

(** [a[i]] for a caller-owned, read-only array. *)
Definition read {A : Type} (a : list A) (i : nat) : M A :=
  match a !! i with
  | Some x => ret x
  | None => raise OutOfBounds
  end.

(** Modelled from the spec: [GetVectorLength] (EbmInternal.h): "1 for
    regression and binary classification, K for multiclass". *)
Definition GetVectorLength (t : LearningType) : Z :=
  match t with
  | Regression => 1
  | BinaryClassification => 1
  | MulticlassClassification K => K
  end.

(** Modelled from the spec: the task predicates of EbmInternal.h, over the
    tagged descriptor. *)
Definition IsClassification (t : LearningType) : bool :=
  match t with
  | Regression => false
  | _ => true
  end.

Definition IsBinaryClassification (t : LearningType) : bool :=
  match t with
  | BinaryClassification => true
  | _ => false
  end.

Definition IsRegression (t : LearningType) : bool :=
  match t with
  | Regression => true
  | _ => false
  end.

(** Modelled from the spec: [IsMultiplyError] (EbmInternal.h), the
    [wouldMultiplyOverflow(a, b)] predicate: the product does not fit the
    size type. *)
Definition IsMultiplyError (num1 num2 : Z) : bool := SIZE_MAX <? num1 * num2.

(** Modelled from the spec: [InitializeResiduals<k>::Func]
    (InitializeResiduals.h), the per-task residual kernel.  Only its
    footprint is modelled: it fills the [cInstances * vectorLength] cells
    of the output array, so a null or too short output array is a
    fault. *)
Definition InitializeResiduals_Func (k : kernel) (cInstances : Z)
    (aTargetData aPredictorScores : ptr) (aResidualErrors : ptr)
    (runtimeLearningTypeOrCountTargetClasses : LearningType)
    (aTempFloatVector : ptr) : M unit :=
  fun s =>
    let s1 :=
      mkState (heap s) (plan s)
              (EvKernel k cInstances aResidualErrors
                        runtimeLearningTypeOrCountTargetClasses
                        aTempFloatVector :: trace s)
              (log s) in
    match aResidualErrors with
    | O => Fault NullDereference s1
    | S a =>
        match heap s !! a with
        | Some (Some b) =>
            let n := Z.to_nat
                       (cInstances *
                        GetVectorLength runtimeLearningTypeOrCountTargetClasses) in
            if (n <=? length b)%nat
            then Ret tt (mkState
                           (<[a := Some (replicate n VResidual ++ drop n b)]> (heap s))
                           (plan s) (trace s1) (log s))
            else Fault OutOfBounds s1
        | _ => Fault NullDereference s1
        end
    end.

(** ** ConstructResidualErrors *)

Definition ConstructResidualErrors (cInstances : Z)
    (aTargetData aPredictorScores : ptr)
    (runtimeLearningTypeOrCountTargetClasses : LearningType) : M ptr :=
  LOG_0 TraceLevelInfo "Entered DataSetByFeature::ConstructResidualErrors";;
  EBM_ASSERT (1 <=? cInstances);;
  EBM_ASSERT (negb (is_null aTargetData));;
  EBM_ASSERT (negb (is_null aPredictorScores));;
  let cVectorLength := GetVectorLength runtimeLearningTypeOrCountTargetClasses in
  EBM_ASSERT (1 <=? cVectorLength);;
  if IsMultiplyError cInstances cVectorLength then
    LOG_0 TraceLevelWarning
      "WARNING DataSetByFeature::ConstructResidualErrors IsMultiplyError(cInstances, cVectorLength)";;
    mret nullptr
  else
    let cElements := size_mul cInstances cVectorLength in
    aResidualErrors ← EbmMalloc cElements;
    (* [Some p]: the branch has executed [return p] *)
    returned ←
      (if IsClassification runtimeLearningTypeOrCountTargetClasses then
         if IsBinaryClassification runtimeLearningTypeOrCountTargetClasses then
           InitializeResiduals_Func Kernel_2 cInstances aTargetData
             aPredictorScores aResidualErrors BinaryClassification nullptr;;
           mret None
         else
           aTempFloatVector ← EbmMalloc cVectorLength;
           if is_null aTempFloatVector then
             LOG_0 TraceLevelWarning
               "WARNING DataSetByFeature::ConstructResidualErrors nullptr == aTempFloatVector";;
             free aResidualErrors;;
             mret (Some nullptr)
           else
             InitializeResiduals_Func Kernel_DynamicClassification cInstances
               aTargetData aPredictorScores aResidualErrors
               runtimeLearningTypeOrCountTargetClasses aTempFloatVector;;
             free aTempFloatVector;;
             mret None
       else
         EBM_ASSERT (IsRegression runtimeLearningTypeOrCountTargetClasses);;
         InitializeResiduals_Func Kernel_Regression cInstances aTargetData
           aPredictorScores aResidualErrors Regression nullptr;;
         mret None);
    match returned with
    | Some p => mret p
    | None =>
        LOG_0 TraceLevelInfo "Exited DataSetByFeature::ConstructResidualErrors";;
        mret aResidualErrors
    end.

(** ** ConstructInputData *)

(** The part of [Feature] (Feature.h) the file uses. *)
Record Feature : Type := mkFeature {
  GetIndexFeatureData : Z;
  GetCountBins : Z
}.

Section Storage.

(** [StorageDataType] is declared in EbmInternal.h, which is not part of
    the shown source: it is taken to be an unsigned integer type whose
    width [storage_bits] is a parameter of the development. *)
Variable storage_bits : Z.

Definition static_cast_StorageDataType (data : Z) : Z :=
  data mod 2 ^ storage_bits.


(** Modelled from the spec: [IsNumberConvertable<T, IntEbmType>]
    (EbmInternal.h), the [fitsInType<T>(value)] predicate, at [size_t] and
    at [StorageDataType]. *)
Definition IsNumberConvertable_size_t (data : Z) : bool :=
  (0 <=? data) && (data <=? SIZE_MAX).

Definition IsNumberConvertable_StorageDataType (data : Z) : bool :=
  (0 <=? data) && (data <? 2 ^ storage_bits).

(** The four assertions on a raw code, together. *)
Definition legal_code (pFeature : Feature) (data : Z) : bool :=
  (0 <=? data) && IsNumberConvertable_size_t data
  && (data <? GetCountBins pFeature)
  && IsNumberConvertable_StorageDataType data.

(** One iteration of the inner loop: [pInputDataFrom] is an index into
    [aBinnedData], [pInputDataTo] an address and an offset. *)
Definition copy_body (aBinnedData : list Z) (pFeature : Feature)
    (aInputDataTo : ptr) (pInputDataTo : nat) (pInputDataFrom : nat) : M unit :=
  data ← read aBinnedData pInputDataFrom;
  EBM_ASSERT (0 <=? data);;
  EBM_ASSERT (IsNumberConvertable_size_t data);;
  EBM_ASSERT (data <? GetCountBins pFeature);;
  EBM_ASSERT (IsNumberConvertable_StorageDataType data);;
  store aInputDataTo pInputDataTo (VStorage (static_cast_StorageDataType data)).

(** The inner [do ... while(pInputDataFromEnd != pInputDataFrom)] loop;
    [more] counts the iterations that follow the current one
    ([cInstances - 1] at entry, [cInstances] being positive). *)
Fixpoint copy_loop (more : nat) (aBinnedData : list Z) (pFeature : Feature)
    (aInputDataTo : ptr) (pInputDataTo : nat) (pInputDataFrom : nat) : M unit :=
  copy_body aBinnedData pFeature aInputDataTo pInputDataTo pInputDataFrom;;
  match more with
  | O => mret tt
  | S more' =>
      copy_loop more' aBinnedData pFeature aInputDataTo
                (S pInputDataTo) (S pInputDataFrom)
  end.

(** One iteration of the outer loop.  [pFeature] and [paInputDataTo]
    advance together, so one index stands for both.  The result is [false]
    on [goto free_all]. *)
Definition feature_body (aFeatures : list Feature) (cInstances : Z)
    (aBinnedData : list Z) (aaInputDataTo : ptr) (pFeature : nat) : M bool :=
  pInputDataTo ← EbmMalloc cInstances;
  if is_null pInputDataTo then
    LOG_0 TraceLevelWarning
      "WARNING DataSetByFeature::ConstructInputData nullptr == pInputDataTo";;
    mret false
  else
    store aaInputDataTo pFeature (VPtr pInputDataTo);;
    f ← read aFeatures pFeature;
    copy_loop (Z.to_nat cInstances - 1) aBinnedData f pInputDataTo 0
              (Z.to_nat (size_mul (GetIndexFeatureData f) cInstances));;
    mret true.

(** The outer [do ... while(pFeatureEnd != pFeature)] loop; [more] counts
    the iterations that follow the current one.  The result is
    [(true, _)] when the loop ran to its end and [(false, paInputDataTo)]
    on [goto free_all]. *)
Fixpoint feature_loop (more : nat) (aFeatures : list Feature) (cInstances : Z)
    (aBinnedData : list Z) (aaInputDataTo : ptr) (pFeature : nat)
    : M (bool * nat) :=
  ok ← feature_body aFeatures cInstances aBinnedData aaInputDataTo pFeature;
  if (ok : bool) then
    match more with
    | O => mret (true, S pFeature)
    | S more' =>
        feature_loop more' aFeatures cInstances aBinnedData aaInputDataTo
                     (S pFeature)
    end
  else mret (false, pFeature).

(** [free_all: while(aaInputDataTo != paInputDataTo) { --paInputDataTo;
    free( *paInputDataTo); }] *)
Fixpoint free_all_loop (aaInputDataTo : ptr) (paInputDataTo : nat) : M unit :=
  match paInputDataTo with
  | O => mret tt
  | S paInputDataTo' =>
      p ← load_ptr aaInputDataTo paInputDataTo';
      free p;;
      free_all_loop aaInputDataTo paInputDataTo'
  end.

(** The caller-owned arrays [aFeatures] and [aBinnedData] are lists, so the
    two assertions that they are not null hold by construction. *)
Definition ConstructInputData (cFeatures : Z) (aFeatures : list Feature)
    (cInstances : Z) (aBinnedData : list Z) : M ptr :=
  LOG_0 TraceLevelInfo "Entered DataSetByFeature::ConstructInputData";;
  EBM_ASSERT (0 <? cFeatures);;
  EBM_ASSERT (0 <? cInstances);;
  aaInputDataTo ← EbmMalloc cFeatures;
  if is_null aaInputDataTo then
    LOG_0 TraceLevelWarning
      "WARNING DataSetByFeature::ConstructInputData nullptr == aaInputDataTo";;
    mret nullptr
  else
    r ← feature_loop (Z.to_nat cFeatures - 1) aFeatures cInstances aBinnedData
                     aaInputDataTo 0;
    if (r.1 : bool) then
      LOG_0 TraceLevelInfo "Exited DataSetByFeature::ConstructInputData";;
      mret aaInputDataTo
    else
      free_all_loop aaInputDataTo r.2;;
      free aaInputDataTo;;
      mret nullptr.

(** ** DataSetByFeature *)

Record DataSetByFeature : Type := mkDataSetByFeature {
  m_aResidualErrors : ptr;
  m_aaInputData : ptr;
  m_cInstances : Z;
  m_cFeatures : Z
}.

(** The object as its constructor leaves it. *)
Definition zero_DataSetByFeature : DataSetByFeature :=
  mkDataSetByFeature nullptr nullptr 0 0.

(** Assignments to the members. *)
Definition set_m_aResidualErrors (this : DataSetByFeature) (p : ptr) :=
  mkDataSetByFeature p (m_aaInputData this) (m_cInstances this) (m_cFeatures this).
Definition set_m_aaInputData (this : DataSetByFeature) (p : ptr) :=
  mkDataSetByFeature (m_aResidualErrors this) p (m_cInstances this) (m_cFeatures this).
Definition set_m_cInstances (this : DataSetByFeature) (c : Z) :=
  mkDataSetByFeature (m_aResidualErrors this) (m_aaInputData this) c (m_cFeatures this).
Definition set_m_cFeatures (this : DataSetByFeature) (c : Z) :=
  mkDataSetByFeature (m_aResidualErrors this) (m_aaInputData this) (m_cInstances this) c.

(** The [do ... while(paInputDataEnd != paInputData)] loop of [Destruct]. *)
Fixpoint Destruct_loop (more : nat) (aaInputData : ptr) (paInputData : nat)
    : M unit :=
  p ← load_ptr aaInputData paInputData;
  EBM_ASSERT (negb (is_null p));;
  free p;;
  match more with
  | O => mret tt
  | S more' => Destruct_loop more' aaInputData (S paInputData)
  end.

Definition Destruct (this : DataSetByFeature) : M unit :=
  LOG_0 TraceLevelInfo "Entered DataSetByFeature::Destruct";;
  free (m_aResidualErrors this);;
  (if negb (is_null (m_aaInputData this)) then
     EBM_ASSERT (1 <=? m_cFeatures this);;
     Destruct_loop (Z.to_nat (m_cFeatures this) - 1) (m_aaInputData this) 0;;
     free (m_aaInputData this)
   else mret tt);;
  LOG_0 TraceLevelInfo "Exited DataSetByFeature::Destruct".

(** [Initialize] returns the C++ [bool] together with the object as the
    call leaves it.  In the two inner blocks [None] stands for
    [goto exit_error] and [Some this'] for falling through with the members
    assigned so far. *)
Definition Initialize (this : DataSetByFeature) (cFeatures : Z)
    (aFeatures : list Feature) (cInstances : Z) (aBinnedData : list Z)
    (aTargetData aPredictorScores : ptr)
    (runtimeLearningTypeOrCountTargetClasses : LearningType)
    : M (bool * DataSetByFeature) :=
  EBM_ASSERT (is_null (m_aResidualErrors this));;
  EBM_ASSERT (is_null (m_aaInputData this));;
  EBM_ASSERT (0 =? m_cInstances this);;
  LOG_0 TraceLevelInfo "Entered DataSetByFeature::Initialize";;
  built ←
    (if negb (0 =? cInstances) then
       aResidualErrors ← ConstructResidualErrors cInstances aTargetData
                           aPredictorScores
                           runtimeLearningTypeOrCountTargetClasses;
       if is_null aResidualErrors then mret None
       else
         filled ←
           (if negb (0 =? cFeatures) then
              aaInputData ← ConstructInputData cFeatures aFeatures cInstances
                              aBinnedData;
              if is_null aaInputData then
                free aResidualErrors;;
                mret None
              else mret (Some (set_m_aaInputData this aaInputData))
            else mret (Some this));
         match filled with
         | None => mret None
         | Some this1 =>
             mret (Some (set_m_cInstances
                           (set_m_aResidualErrors this1 aResidualErrors)
                           cInstances))
         end
     else mret (Some this));
  match built with
  | Some this2 =>
      LOG_0 TraceLevelInfo "Exited DataSetByFeature::Initialize";;
      mret (false, set_m_cFeatures this2 cFeatures)
  | None =>
      LOG_0 TraceLevelWarning "WARNING Exited DataSetByFeature::Initialize";;
      mret (true, this)
  end.

End Storage.

(** ** The functions in a checked and in a release build *)

Inductive build : Type := CheckedBuild | ReleaseBuild.

(** [EBM_ASSERT(cond)] in either build: in a release build the macro
    expands to nothing. *)
Definition EBM_ASSERT_in (b : build) (cond : bool) : M unit :=
  match b with
  | CheckedBuild => EBM_ASSERT cond
  | ReleaseBuild => mret tt
  end.

Section EitherBuild.

Variable b : build.
Variable storage_bits : Z.

Definition ConstructResidualErrors_in (cInstances : Z)
    (aTargetData aPredictorScores : ptr)
    (runtimeLearningTypeOrCountTargetClasses : LearningType) : M ptr :=
  LOG_0 TraceLevelInfo "Entered DataSetByFeature::ConstructResidualErrors";;
  EBM_ASSERT_in b (1 <=? cInstances);;
  EBM_ASSERT_in b (negb (is_null aTargetData));;
  EBM_ASSERT_in b (negb (is_null aPredictorScores));;
  let cVectorLength := GetVectorLength runtimeLearningTypeOrCountTargetClasses in
  EBM_ASSERT_in b (1 <=? cVectorLength);;
  if IsMultiplyError cInstances cVectorLength then
    LOG_0 TraceLevelWarning
      "WARNING DataSetByFeature::ConstructResidualErrors IsMultiplyError(cInstances, cVectorLength)";;
    mret nullptr
  else
    let cElements := size_mul cInstances cVectorLength in
    aResidualErrors ← EbmMalloc cElements;
    returned ←
      (if IsClassification runtimeLearningTypeOrCountTargetClasses then
         if IsBinaryClassification runtimeLearningTypeOrCountTargetClasses then
           InitializeResiduals_Func Kernel_2 cInstances aTargetData
             aPredictorScores aResidualErrors BinaryClassification nullptr;;
           mret None
         else
           aTempFloatVector ← EbmMalloc cVectorLength;
           if is_null aTempFloatVector then
             LOG_0 TraceLevelWarning
               "WARNING DataSetByFeature::ConstructResidualErrors nullptr == aTempFloatVector";;
             free aResidualErrors;;
             mret (Some nullptr)
           else
             InitializeResiduals_Func Kernel_DynamicClassification cInstances
               aTargetData aPredictorScores aResidualErrors
               runtimeLearningTypeOrCountTargetClasses aTempFloatVector;;
             free aTempFloatVector;;
             mret None
       else
         EBM_ASSERT_in b (IsRegression runtimeLearningTypeOrCountTargetClasses);;
         InitializeResiduals_Func Kernel_Regression cInstances aTargetData
           aPredictorScores aResidualErrors Regression nullptr;;
         mret None);
    match returned with
    | Some p => mret p
    | None =>
        LOG_0 TraceLevelInfo "Exited DataSetByFeature::ConstructResidualErrors";;
        mret aResidualErrors
    end.

(** One iteration of the inner loop.  The store of line 116 follows the
    four assertions unconditionally. *)
Definition copy_body_in (aBinnedData : list Z) (pFeature : Feature)
    (aInputDataTo : ptr) (pInputDataTo : nat) (pInputDataFrom : nat) : M unit :=
  data ← read aBinnedData pInputDataFrom;
  EBM_ASSERT_in b (0 <=? data);;
  EBM_ASSERT_in b (IsNumberConvertable_size_t data);;
  EBM_ASSERT_in b (data <? GetCountBins pFeature);;
  EBM_ASSERT_in b (IsNumberConvertable_StorageDataType storage_bits data);;
  store aInputDataTo pInputDataTo
        (VStorage (static_cast_StorageDataType storage_bits data)).

(** The inner loop.  With [cInstances = 0], which only a release build lets
    through, the first iteration already stores outside the empty array. *)
Fixpoint copy_loop_in (more : nat) (aBinnedData : list Z) (pFeature : Feature)
    (aInputDataTo : ptr) (pInputDataTo : nat) (pInputDataFrom : nat) : M unit :=
  copy_body_in aBinnedData pFeature aInputDataTo pInputDataTo pInputDataFrom;;
  match more with
  | O => mret tt
  | S more' =>
      copy_loop_in more' aBinnedData pFeature aInputDataTo
                   (S pInputDataTo) (S pInputDataFrom)
  end.

Definition feature_body_in (aFeatures : list Feature) (cInstances : Z)
    (aBinnedData : list Z) (aaInputDataTo : ptr) (pFeature : nat) : M bool :=
  pInputDataTo ← EbmMalloc cInstances;
  if is_null pInputDataTo then
    LOG_0 TraceLevelWarning
      "WARNING DataSetByFeature::ConstructInputData nullptr == pInputDataTo";;
    mret false
  else
    store aaInputDataTo pFeature (VPtr pInputDataTo);;
    f ← read aFeatures pFeature;
    copy_loop_in (Z.to_nat cInstances - 1) aBinnedData f pInputDataTo 0
                 (Z.to_nat (size_mul (GetIndexFeatureData f) cInstances));;
    mret true.

(** The outer loop.  With [cFeatures = 0], which only a release build lets
    through, the first iteration already stores outside the empty outer
    array. *)
Fixpoint feature_loop_in (more : nat) (aFeatures : list Feature)
    (cInstances : Z) (aBinnedData : list Z) (aaInputDataTo : ptr)
    (pFeature : nat) : M (bool * nat) :=
  ok ← feature_body_in aFeatures cInstances aBinnedData aaInputDataTo pFeature;
  if (ok : bool) then
    match more with
    | O => mret (true, S pFeature)
    | S more' =>
        feature_loop_in more' aFeatures cInstances aBinnedData aaInputDataTo
                        (S pFeature)
    end
  else mret (false, pFeature).

Definition ConstructInputData_in (cFeatures : Z) (aFeatures : list Feature)
    (cInstances : Z) (aBinnedData : list Z) : M ptr :=
  LOG_0 TraceLevelInfo "Entered DataSetByFeature::ConstructInputData";;
  EBM_ASSERT_in b (0 <? cFeatures);;
  EBM_ASSERT_in b (0 <? cInstances);;
  aaInputDataTo ← EbmMalloc cFeatures;
  if is_null aaInputDataTo then
    LOG_0 TraceLevelWarning
      "WARNING DataSetByFeature::ConstructInputData nullptr == aaInputDataTo";;
    mret nullptr
  else
    r ← feature_loop_in (Z.to_nat cFeatures - 1) aFeatures cInstances
                        aBinnedData aaInputDataTo 0;
    if (r.1 : bool) then
      LOG_0 TraceLevelInfo "Exited DataSetByFeature::ConstructInputData";;
      mret aaInputDataTo
    else
      free_all_loop aaInputDataTo r.2;;
      free aaInputDataTo;;
      mret nullptr.

(** [Initialize].  The three assertions that the object is in its zero
    state are all that keeps a second call from an object that is already
    built. *)
Definition Initialize_in (this : DataSetByFeature) (cFeatures : Z)
    (aFeatures : list Feature) (cInstances : Z) (aBinnedData : list Z)
    (aTargetData aPredictorScores : ptr)
    (runtimeLearningTypeOrCountTargetClasses : LearningType)
    : M (bool * DataSetByFeature) :=
  EBM_ASSERT_in b (is_null (m_aResidualErrors this));;
  EBM_ASSERT_in b (is_null (m_aaInputData this));;
  EBM_ASSERT_in b (0 =? m_cInstances this);;
  LOG_0 TraceLevelInfo "Entered DataSetByFeature::Initialize";;
  built ←
    (if negb (0 =? cInstances) then
       aResidualErrors ← ConstructResidualErrors_in cInstances aTargetData
                           aPredictorScores
                           runtimeLearningTypeOrCountTargetClasses;
       if is_null aResidualErrors then mret None
       else
         filled ←
           (if negb (0 =? cFeatures) then
              aaInputData ← ConstructInputData_in cFeatures aFeatures cInstances
                              aBinnedData;
              if is_null aaInputData then
                free aResidualErrors;;
                mret None
              else mret (Some (set_m_aaInputData this aaInputData))
            else mret (Some this));
         match filled with
         | None => mret None
         | Some this1 =>
             mret (Some (set_m_cInstances
                           (set_m_aResidualErrors this1 aResidualErrors)
                           cInstances))
         end
     else mret (Some this));
  match built with
  | Some this2 =>
      LOG_0 TraceLevelInfo "Exited DataSetByFeature::Initialize";;
      mret (false, set_m_cFeatures this2 cFeatures)
  | None =>
      LOG_0 TraceLevelWarning "WARNING Exited DataSetByFeature::Initialize";;
      mret (true, this)
  end.

End EitherBuild.

(** ** Running the code on the scenarios of the specification *)

Definition initial_State (plan : list bool) : State := mkState [] plan [] [].

(** Successful allocations and releases recorded in a trace. *)
Fixpoint allocations (tr : list event) : nat :=
  match tr with
  | [] => 0%nat
  | EvMalloc _ p :: tr' =>
      if is_null p then allocations tr' else S (allocations tr')
  | _ :: tr' => allocations tr'
  end.

Fixpoint frees (tr : list event) : nat :=
  match tr with
  | [] => 0%nat
  | EvFree _ :: tr' => S (frees tr')
  | _ :: tr' => frees tr'
  end.

(** Every call of the allocator, refused or not. *)
Fixpoint requests (tr : list event) : nat :=
  match tr with
  | [] => 0%nat
  | EvMalloc _ _ :: tr' => S (requests tr')
  | _ :: tr' => requests tr'
  end.

(** The kernel dispatches recorded in a trace. *)
Fixpoint dispatches (tr : list event) : list event :=
  match tr with
  | [] => []
  | EvKernel k c p t q :: tr' => EvKernel k c p t q :: dispatches tr'
  | _ :: tr' => dispatches tr'
  end.

(** The state a run ends in. *)
Definition final {A : Type} (o : outcome A) : State :=
  match o with
  | Ret _ s => s
  | Fault _ s => s
  end.

(** The block a pointer designates, when it is live. *)
Definition block_at (h : list (option block)) (p : ptr) : option block :=
  match p with
  | O => None
  | S a => mjoin (h !! a)
  end.

Definition deref (s : State) (p : ptr) : option block := block_at (heap s) p.

(** The heap once the blocks of [ps] are released, in that order. *)
Definition release_one (h : list (option block)) (p : ptr) : list (option block) :=
  match p with
  | O => h
  | S a => <[a := None]> h
  end.

Definition release (ps : list ptr) (h : list (option block)) : list (option block) :=
  foldl release_one h ps.

(** A state with one more log entry. *)
Definition logged (e : TraceLevel * string) (s : State) : State :=
  mkState (heap s) (plan s) (trace s) (e :: log s).

(** [columns[i][j]] read from the heap, as a stored bin index. *)
Definition columns_at (s : State) (aaInputData : ptr) (i j : nat) : option Z :=
  match deref s aaInputData with
  | Some outer =>
      match outer !! i with
      | Some (VPtr p) =>
          match deref s p with
          | Some col =>
              match col !! j with
              | Some (VStorage v) => Some v
              | _ => None
              end
          | None => None
          end
      | _ => None
      end
  | None => None
  end.

(** The kernel that matches a task: the fixed 2-class one for binary
    classification, the dynamic one for multiclass classification, the
    single-output one for regression. *)
Definition kernel_of (t : LearningType) : kernel :=
  match t with
  | Regression => Kernel_Regression
  | BinaryClassification => Kernel_2
  | MulticlassClassification _ => Kernel_DynamicClassification
  end.

Definition is_multiclass (t : LearningType) : bool :=
  match t with
  | MulticlassClassification _ => true
  | _ => false
  end.

(** The outer array of [ConstructInputData] once its first [n] slots are
    assigned: the array is the block of heap index [base], and the arrays
    of the features follow it in allocation order. *)
Definition outer_array (base N n : nat) : block :=
  ((fun k => VPtr (S (base + S k))) <$> seq 0 n) ++ replicate (N - n) Uninit.

(** [col] is the column of feature [f]: every cell holds the narrowed raw
    code of its row, and every raw code passed the four assertions. *)
Definition column_of (w : Z) (cInstances : Z) (aBinnedData : list Z)
    (f : Feature) (col : block) : Prop :=
  length col = Z.to_nat cInstances /\
  forall j : nat, (j < Z.to_nat cInstances)%nat ->
    exists d : Z,
      aBinnedData !! (Z.to_nat (size_mul (GetIndexFeatureData f) cInstances) + j)%nat
        = Some d
      /\ legal_code w f d = true
      /\ col !! j = Some (VStorage (static_cast_StorageDataType w d)).

(** [col] holds, cell by cell, the narrowed raw codes of feature [f],
    whatever the codes are. *)
Definition column_raw (w : Z) (cInstances : Z) (aBinnedData : list Z)
    (f : Feature) (col : block) : Prop :=
  length col = Z.to_nat cInstances /\
  forall j : nat, (j < Z.to_nat cInstances)%nat ->
    exists d : Z,
      aBinnedData !! (Z.to_nat (size_mul (GetIndexFeatureData f) cInstances) + j)%nat
        = Some d
      /\ col !! j = Some (VStorage (static_cast_StorageDataType w d)).

(** The raw codes of feature [f] are all present and legal. *)
Definition legal_run (w : Z) (cInstances : Z) (aBinnedData : list Z)
    (f : Feature) : bool :=
  forallb
    (fun j : nat =>
       match aBinnedData !! (Z.to_nat (size_mul (GetIndexFeatureData f) cInstances) + j)%nat with
       | Some d => legal_code w f d
       | None => false
       end)
    (seq 0 (Z.to_nat cInstances)).

(** The caller's side of the contract of [ConstructInputData]: [aFeatures]
    has [cFeatures] entries and every raw code of every feature is legal. *)
Definition legal_inputs (w : Z) (cFeatures : Z) (aFeatures : list Feature)
    (cInstances : Z) (aBinnedData : list Z) : bool :=
  forallb
    (fun i : nat =>
       match aFeatures !! i with
       | Some f => legal_run w cInstances aBinnedData f
       | None => false
       end)
    (seq 0 (Z.to_nat cFeatures)).

(** The raw codes of feature [f] all lie inside [aBinnedData], whatever
    their values. *)
Definition present_run (cInstances : Z) (aBinnedData : list Z)
    (f : Feature) : bool :=
  forallb
    (fun j : nat =>
       match aBinnedData !! (Z.to_nat (size_mul (GetIndexFeatureData f) cInstances) + j)%nat with
       | Some _ => true
       | None => false
       end)
    (seq 0 (Z.to_nat cInstances)).

(** [aFeatures] has [cFeatures] entries and the run of every feature lies
    inside [aBinnedData]. *)
Definition present_inputs (cFeatures : Z) (aFeatures : list Feature)
    (cInstances : Z) (aBinnedData : list Z) : bool :=
  forallb
    (fun i : nat =>
       match aFeatures !! i with
       | Some f => present_run cInstances aBinnedData f
       | None => false
       end)
    (seq 0 (Z.to_nat cFeatures)).

(** The object is as its constructor left it, [m_cFeatures] apart. *)
Definition zero_state (this : DataSetByFeature) : Prop :=
  m_aResidualErrors this = nullptr /\ m_aaInputData this = nullptr
  /\ m_cInstances this = 0.

(** The addresses of the arrays of the features, when the outer array is
    the block of heap index [base]. *)
Definition column_addresses (base N : nat) : list ptr :=
  (fun k => S (base + S k)) <$> seq 0 N.

(** The allocator refuses none of the coming requests. *)
Definition no_refusal (plan : list bool) : bool := forallb (fun b => b) plan.

(** * Properties *)

(** ** Running the primitives *)

Lemma run_bind {A B : Type} (m : M A) (k : A -> M B) (s : State) :
  (m ≫= k) s =
  match m s with
  | Ret a s' => k a s'
  | Fault f s' => Fault f s'
  end.
Proof. reflexivity. Qed.

Lemma run_mret {A : Type} (a : A) (s : State) : (mret a : M A) s = Ret a s.
Proof. reflexivity. Qed.

Lemma run_assert_true (s : State) : EBM_ASSERT true s = Ret tt s.
Proof. reflexivity. Qed.

Lemma run_assert_false (s : State) :
  EBM_ASSERT false s = Fault AssertionFailure s.
Proof. reflexivity. Qed.

Lemma run_LOG_0 lvl msg h pl tr lg :
  LOG_0 lvl msg (mkState h pl tr lg) = Ret tt (mkState h pl tr ((lvl, msg) :: lg)).
Proof. reflexivity. Qed.

Lemma run_LOG_0_logged lvl msg s : LOG_0 lvl msg s = Ret tt (logged (lvl, msg) s).
Proof. reflexivity. Qed.

Lemma run_EbmMalloc_granted n h pl tr lg :
  grants pl = true ->
  EbmMalloc n (mkState h pl tr lg) =
  Ret (S (length h))
      (mkState (h ++ [Some (replicate (Z.to_nat n) Uninit)]) (tail pl)
               (EvMalloc n (S (length h)) :: tr) lg).
Proof. intros H. unfold EbmMalloc. cbn [heap plan trace log]. by rewrite H. Qed.

Lemma run_EbmMalloc_refused n h pl tr lg :
  grants pl = false ->
  EbmMalloc n (mkState h pl tr lg) =
  Ret nullptr (mkState h (tail pl) (EvMalloc n nullptr :: tr) lg).
Proof. intros H. unfold EbmMalloc. cbn [heap plan trace log]. by rewrite H. Qed.

Lemma run_free_null h pl tr lg :
  free nullptr (mkState h pl tr lg) = Ret tt (mkState h pl tr lg).
Proof. reflexivity. Qed.

Lemma run_free_live a b h pl tr lg :
  h !! a = Some (Some b) ->
  free (S a) (mkState h pl tr lg) =
  Ret tt (mkState (<[a := None]> h) pl (EvFree (S a) :: tr) lg).
Proof. intros H. unfold free. cbn [heap plan trace log]. by rewrite H. Qed.

Lemma run_store a b i c h pl tr lg :
  h !! a = Some (Some b) -> (i < length b)%nat ->
  store (S a) i c (mkState h pl tr lg) =
  Ret tt (mkState (<[a := Some (<[i := c]> b)]> h) pl tr lg).
Proof.
  intros H Hi. unfold store. cbn [heap plan trace log]. rewrite H.
  apply Nat.ltb_lt in Hi. by rewrite Hi.
Qed.

Lemma run_load_ptr a b i q h pl tr lg :
  h !! a = Some (Some b) -> b !! i = Some (VPtr q) ->
  load_ptr (S a) i (mkState h pl tr lg) = Ret q (mkState h pl tr lg).
Proof.
  intros H Hi. unfold load_ptr. rewrite run_bind. unfold load.
  cbn [heap]. by rewrite H, Hi.
Qed.

Lemma run_kernel k cI tgt sc a b t tmp h pl tr lg :
  h !! a = Some (Some b) ->
  (Z.to_nat (cI * GetVectorLength t) <= length b)%nat ->
  InitializeResiduals_Func k cI tgt sc (S a) t tmp (mkState h pl tr lg) =
  Ret tt
    (mkState
       (<[a := Some (replicate (Z.to_nat (cI * GetVectorLength t)) VResidual
                     ++ drop (Z.to_nat (cI * GetVectorLength t)) b)]> h)
       pl (EvKernel k cI (S a) t tmp :: tr) lg).
Proof.
  intros H Hn. unfold InitializeResiduals_Func. cbn [heap plan trace log].
  rewrite H. apply Nat.leb_le in Hn. by rewrite Hn.
Qed.

Lemma run_kernel_null k cI tgt sc t tmp h pl tr lg :
  InitializeResiduals_Func k cI tgt sc nullptr t tmp (mkState h pl tr lg) =
  Fault NullDereference (mkState h pl (EvKernel k cI nullptr t tmp :: tr) lg).
Proof. reflexivity. Qed.

Lemma size_mul_exact a b :
  0 <= a * b <= SIZE_MAX -> size_mul a b = a * b.
Proof.
  intros H. unfold size_mul, size_wrap. apply Z.mod_small.
  unfold SIZE_MAX in H. lia.
Qed.

(** Blocks appended to a heap [h] sit at the indices from [length h] on. *)
Lemma heap_lookup_new {A : Type} (h l : list A) (i : nat) :
  (h ++ l) !! (length h + i)%nat = l !! i.
Proof. by rewrite lookup_app_r, Nat.add_comm, Nat.add_sub by lia. Qed.

Lemma heap_insert_new {A : Type} (h l : list A) (i : nat) (x : A) :
  <[(length h + i)%nat := x]> (h ++ l) = h ++ <[i := x]> l.
Proof. apply insert_app_r. Qed.

Lemma heap_lookup_0 {A : Type} (h l : list A) (x : A) :
  (h ++ x :: l) !! length h = Some x.
Proof. by rewrite <- (Nat.add_0_r (length h)), heap_lookup_new. Qed.

Lemma heap_lookup_1 {A : Type} (h l : list A) (x y : A) :
  (h ++ x :: y :: l) !! S (length h) = Some y.
Proof. by rewrite <- (Nat.add_1_r (length h)), heap_lookup_new. Qed.

Lemma heap_insert_0 {A : Type} (h l : list A) (x y : A) :
  <[length h := y]> (h ++ x :: l) = h ++ y :: l.
Proof. by rewrite <- (Nat.add_0_r (length h)), heap_insert_new. Qed.

Lemma heap_insert_1 {A : Type} (h l : list A) (x y z : A) :
  <[S (length h) := z]> (h ++ x :: y :: l) = h ++ x :: z :: l.
Proof. by rewrite <- (Nat.add_1_r (length h)), heap_insert_new. Qed.

Lemma length_snoc {A : Type} (h : list A) (x : A) :
  length (h ++ [x]) = S (length h).
Proof. rewrite length_app. simpl. lia. Qed.

Lemma snoc_snoc {A : Type} (h : list A) (x y : A) :
  (h ++ [x]) ++ [y] = h ++ [x; y].
Proof. by rewrite <- app_assoc. Qed.

Lemma fill_whole (n : nat) :
  replicate n VResidual ++ drop n (replicate n Uninit) = replicate n VResidual.
Proof.
  rewrite drop_ge by (rewrite length_replicate; lia). apply app_nil_r.
Qed.

Lemma not_null_true (p : ptr) : p <> nullptr -> negb (is_null p) = true.
Proof. intros H. unfold is_null. by destruct p. Qed.

Lemma is_null_S (a : nat) : is_null (S a) = false.
Proof. reflexivity. Qed.

(** Steps through the straight-line prefix of a run. *)
Ltac mstep :=
  rewrite ?run_bind;
  first [ rewrite run_LOG_0 | rewrite run_assert_true | rewrite run_mret
        | rewrite run_free_null | rewrite run_kernel_null ];
  cbv beta iota.

Ltac msteps := repeat mstep; rewrite ?run_mret, ?run_LOG_0.

(** Inversion of a run that returns. *)
Lemma bind_Ret_inv {A B : Type} (m : M A) (k : A -> M B) s b s2 :
  (m ≫= k) s = Ret b s2 ->
  exists a s1, m s = Ret a s1 /\ k a s1 = Ret b s2.
Proof.
  rewrite run_bind. destruct (m s) as [a s1|f s1]; [eauto | discriminate].
Qed.

Lemma mret_Ret_inv {A : Type} (a b : A) s s' :
  (mret a : M A) s = Ret b s' -> b = a /\ s' = s.
Proof. rewrite run_mret. by intros [= -> ->]. Qed.

Lemma assert_Ret_inv c s u s' :
  EBM_ASSERT c s = Ret u s' -> c = true /\ s' = s.
Proof. destruct c; [by intros [= _ ->] | discriminate]. Qed.

Lemma read_Ret_inv {A : Type} (l : list A) i s x s' :
  read l i s = Ret x s' -> l !! i = Some x /\ s' = s.
Proof.
  unfold read. destruct (l !! i); [by intros [= -> ->] | discriminate].
Qed.

Lemma store_Ret_inv p i c h pl tr lg u s' :
  store p i c (mkState h pl tr lg) = Ret u s' ->
  exists a b, p = S a /\ h !! a = Some (Some b) /\ (i < length b)%nat
    /\ s' = mkState (<[a := Some (<[i := c]> b)]> h) pl tr lg.
Proof.
  unfold store. cbn [heap plan trace log].
  destruct p as [|a]; [discriminate |].
  destruct (h !! a) as [[b|]|] eqn:Hb; try discriminate.
  destruct (i <? length b)%nat eqn:Hi; [| discriminate].
  intros [= _ <-]. apply Nat.ltb_lt in Hi. eauto 10.
Qed.

Lemma free_Ret_inv p h pl tr lg u s' :
  free p (mkState h pl tr lg) = Ret u s' ->
  (p = nullptr /\ s' = mkState h pl tr lg)
  \/ exists a b, p = S a /\ h !! a = Some (Some b)
       /\ s' = mkState (<[a := None]> h) pl (EvFree p :: tr) lg.
Proof.
  unfold free. cbn [heap plan trace log].
  destruct p as [|a]; [intros [= _ <-]; by left |].
  destruct (h !! a) as [[b|]|] eqn:Hb; try discriminate.
  intros [= _ <-]. right. eauto.
Qed.

Ltac inv_bind H a s1 H1 :=
  apply bind_Ret_inv in H as (a & s1 & H1 & H).

Ltac inv_assert H Hc :=
  let u := fresh "u" in let s1 := fresh "s" in let Ha := fresh "Ha" in
  apply bind_Ret_inv in H as (u & s1 & Ha & H);
  apply assert_Ret_inv in Ha as [Hc ->]; clear u.

(** ** ConstructResidualErrors, case by case *)

Section ResidualCases.

Variables (cI : Z) (tgt sc : ptr) (t : LearningType).
Variables (h : list (option block)) (pl : list bool) (tr : list event)
          (lg : list (TraceLevel * string)).
Hypothesis HcI : 1 <= cI.
Hypothesis Htgt : tgt <> nullptr.
Hypothesis Hsc : sc <> nullptr.

Local Abbreviation entered :=
  (TraceLevelInfo, "Entered DataSetByFeature::ConstructResidualErrors"%string).
Local Abbreviation exited :=
  (TraceLevelInfo, "Exited DataSetByFeature::ConstructResidualErrors"%string).

Lemma ConstructResidualErrors_prefix :
  1 <= GetVectorLength t ->
  ConstructResidualErrors cI tgt sc t (mkState h pl tr lg) =
  (if IsMultiplyError cI (GetVectorLength t) then
     LOG_0 TraceLevelWarning
       "WARNING DataSetByFeature::ConstructResidualErrors IsMultiplyError(cInstances, cVectorLength)";;
     mret nullptr
   else
     aResidualErrors ← EbmMalloc (size_mul cI (GetVectorLength t));
     returned ←
       (if IsClassification t then
          if IsBinaryClassification t then
            InitializeResiduals_Func Kernel_2 cI tgt sc aResidualErrors
              BinaryClassification nullptr;;
            mret None
          else
            aTempFloatVector ← EbmMalloc (GetVectorLength t);
            if is_null aTempFloatVector then
              LOG_0 TraceLevelWarning
                "WARNING DataSetByFeature::ConstructResidualErrors nullptr == aTempFloatVector";;
              free aResidualErrors;;
              mret (Some nullptr)
            else
              InitializeResiduals_Func Kernel_DynamicClassification cI tgt sc
                aResidualErrors t aTempFloatVector;;
              free aTempFloatVector;;
              mret None
        else
          EBM_ASSERT (IsRegression t);;
          InitializeResiduals_Func Kernel_Regression cI tgt sc aResidualErrors
            Regression nullptr;;
          mret None);
     match returned with
     | Some p => mret p
     | None =>
         LOG_0 TraceLevelInfo "Exited DataSetByFeature::ConstructResidualErrors";;
         mret aResidualErrors
     end) (mkState h pl tr (entered :: lg)).
Proof.
  intros Hv. unfold ConstructResidualErrors.
  assert (H1 : (1 <=? cI) = true) by (apply Z.leb_le; lia).
  assert (H2 : (1 <=? GetVectorLength t) = true) by (apply Z.leb_le; lia).
  rewrite H1, H2, (not_null_true tgt Htgt), (not_null_true sc Hsc).
  by msteps.
Qed.

Lemma ConstructResidualErrors_overflow :
  SIZE_MAX < cI * GetVectorLength t ->
  ConstructResidualErrors cI tgt sc t (mkState h pl tr lg) =
  Ret nullptr
    (mkState h pl tr
       ((TraceLevelWarning,
         "WARNING DataSetByFeature::ConstructResidualErrors IsMultiplyError(cInstances, cVectorLength)"%string)
        :: entered :: lg)).
Proof.
  intros Hov.
  assert (Hv : 1 <= GetVectorLength t) by (unfold SIZE_MAX, size_bits in Hov; nia).
  rewrite (ConstructResidualErrors_prefix Hv).
  assert (H : IsMultiplyError cI (GetVectorLength t) = true)
    by (apply Z.ltb_lt; lia).
  rewrite H. by msteps.
Qed.

Hypothesis Hfit : cI * GetVectorLength t <= SIZE_MAX.
Hypothesis Hv : 1 <= GetVectorLength t.

Local Abbreviation warned :=
  (TraceLevelWarning,
   "WARNING DataSetByFeature::ConstructResidualErrors nullptr == aTempFloatVector"%string).
Local Abbreviation n := (Z.to_nat (cI * GetVectorLength t)).
Local Abbreviation p1 := (S (length h)).
Local Abbreviation p2 := (S (S (length h))).

Lemma ConstructResidualErrors_fits :
  IsMultiplyError cI (GetVectorLength t) = false
  /\ size_mul cI (GetVectorLength t) = cI * GetVectorLength t.
Proof.
  split; [apply Z.ltb_ge; lia | apply size_mul_exact; nia].
Qed.

(** Regression and binary classification, output array granted. *)
Lemma ConstructResidualErrors_single_granted :
  is_multiclass t = false -> grants pl = true ->
  ConstructResidualErrors cI tgt sc t (mkState h pl tr lg) =
  Ret p1
    (mkState (h ++ [Some (replicate n VResidual)]) (tail pl)
       (EvKernel (kernel_of t) cI p1 t nullptr
        :: EvMalloc (cI * GetVectorLength t) p1 :: tr)
       (exited :: entered :: lg)).
Proof.
  intros Ht Hg. rewrite (ConstructResidualErrors_prefix Hv).
  destruct ConstructResidualErrors_fits as [-> ->].
  rewrite run_bind, (run_EbmMalloc_granted _ _ _ _ _ Hg). cbv beta iota.
  destruct t; try discriminate; cbn [IsClassification IsBinaryClassification IsRegression kernel_of].
  - mstep. rewrite ?run_bind.
    erewrite run_kernel; [| apply heap_lookup_0 |]; cbn [GetVectorLength];
      [| rewrite length_replicate; cbn [GetVectorLength]; lia ].
    cbv beta iota. rewrite run_mret. cbv beta iota. msteps.
    rewrite heap_insert_0. cbn [GetVectorLength].
    by rewrite fill_whole.
  - rewrite !run_bind.
    erewrite run_kernel; [| apply heap_lookup_0 |]; cbn [GetVectorLength];
      [| rewrite length_replicate; cbn [GetVectorLength]; lia ].
    cbv beta iota. rewrite run_mret. cbv beta iota. msteps.
    rewrite heap_insert_0. cbn [GetVectorLength].
    by rewrite fill_whole.
Qed.

(** Regression and binary classification, output array refused: the
    kernel is dispatched on the null pointer. *)
Lemma ConstructResidualErrors_single_refused :
  is_multiclass t = false -> grants pl = false ->
  ConstructResidualErrors cI tgt sc t (mkState h pl tr lg) =
  Fault NullDereference
    (mkState h (tail pl)
       (EvKernel (kernel_of t) cI nullptr t nullptr
        :: EvMalloc (cI * GetVectorLength t) nullptr :: tr)
       (entered :: lg)).
Proof.
  intros Ht Hg. rewrite (ConstructResidualErrors_prefix Hv).
  destruct ConstructResidualErrors_fits as [-> ->].
  rewrite run_bind, (run_EbmMalloc_refused _ _ _ _ _ Hg). cbv beta iota.
  destruct t; try discriminate; cbn [IsClassification IsBinaryClassification IsRegression kernel_of].
  - mstep. by rewrite !run_bind, run_kernel_null.
  - by rewrite !run_bind, run_kernel_null.
Qed.

(** Multiclass classification, both arrays granted. *)
Lemma ConstructResidualErrors_multi_granted :
  is_multiclass t = true -> grants pl = true -> grants (tail pl) = true ->
  ConstructResidualErrors cI tgt sc t (mkState h pl tr lg) =
  Ret p1
    (mkState (h ++ [Some (replicate n VResidual); None]) (tail (tail pl))
       (EvFree p2
        :: EvKernel Kernel_DynamicClassification cI p1 t p2
        :: EvMalloc (GetVectorLength t) p2
        :: EvMalloc (cI * GetVectorLength t) p1 :: tr)
       (exited :: entered :: lg)).
Proof.
  intros Ht Hg Hg2. rewrite (ConstructResidualErrors_prefix Hv).
  destruct ConstructResidualErrors_fits as [-> ->].
  rewrite run_bind, (run_EbmMalloc_granted _ _ _ _ _ Hg). cbv beta iota.
  destruct t as [| |K]; try discriminate.
  cbn [IsClassification IsBinaryClassification].
  rewrite !run_bind, (run_EbmMalloc_granted _ _ _ _ _ Hg2). cbv beta iota.
  rewrite length_snoc, snoc_snoc, is_null_S.
  rewrite !run_bind.
  erewrite run_kernel; [| apply heap_lookup_0 |];
    [| rewrite length_replicate; lia ].
  cbv beta iota. rewrite heap_insert_0, ?run_bind.
  erewrite run_free_live by apply heap_lookup_1.
  cbv beta iota. rewrite run_mret. cbv beta iota. msteps.
  rewrite heap_insert_1. by rewrite fill_whole.
Qed.

(** Multiclass classification, output array granted, scratch refused. *)
Lemma ConstructResidualErrors_multi_scratch_refused :
  is_multiclass t = true -> grants pl = true -> grants (tail pl) = false ->
  ConstructResidualErrors cI tgt sc t (mkState h pl tr lg) =
  Ret nullptr
    (mkState (h ++ [None]) (tail (tail pl))
       (EvFree p1
        :: EvMalloc (GetVectorLength t) nullptr
        :: EvMalloc (cI * GetVectorLength t) p1 :: tr)
       (warned :: entered :: lg)).
Proof.
  intros Ht Hg Hg2. rewrite (ConstructResidualErrors_prefix Hv).
  destruct ConstructResidualErrors_fits as [-> ->].
  rewrite run_bind, (run_EbmMalloc_granted _ _ _ _ _ Hg). cbv beta iota.
  destruct t as [| |K]; try discriminate.
  cbn [IsClassification IsBinaryClassification].
  rewrite !run_bind, (run_EbmMalloc_refused _ _ _ _ _ Hg2). cbv beta iota.
  change (is_null nullptr) with true. cbv beta iota.
  rewrite run_bind, run_LOG_0. cbv beta iota.
  rewrite run_bind. erewrite run_free_live by apply heap_lookup_0.
  cbv beta iota. rewrite !run_mret. by rewrite heap_insert_0.
Qed.

(** Multiclass classification, both arrays refused. *)
Lemma ConstructResidualErrors_multi_both_refused :
  is_multiclass t = true -> grants pl = false -> grants (tail pl) = false ->
  ConstructResidualErrors cI tgt sc t (mkState h pl tr lg) =
  Ret nullptr
    (mkState h (tail (tail pl))
       (EvMalloc (GetVectorLength t) nullptr
        :: EvMalloc (cI * GetVectorLength t) nullptr :: tr)
       (warned :: entered :: lg)).
Proof.
  intros Ht Hg Hg2. rewrite (ConstructResidualErrors_prefix Hv).
  destruct ConstructResidualErrors_fits as [-> ->].
  rewrite run_bind, (run_EbmMalloc_refused _ _ _ _ _ Hg). cbv beta iota.
  destruct t as [| |K]; try discriminate.
  cbn [IsClassification IsBinaryClassification].
  rewrite !run_bind, (run_EbmMalloc_refused _ _ _ _ _ Hg2). cbv beta iota.
  change (is_null nullptr) with true. cbv beta iota.
  rewrite run_bind, run_LOG_0. cbv beta iota.
  rewrite run_bind, run_free_null. cbv beta iota. by rewrite !run_mret.
Qed.

(** Multiclass classification, output array refused, scratch granted: the
    kernel is dispatched on the null pointer while the scratch is live. *)
Lemma ConstructResidualErrors_multi_output_refused :
  is_multiclass t = true -> grants pl = false -> grants (tail pl) = true ->
  ConstructResidualErrors cI tgt sc t (mkState h pl tr lg) =
  Fault NullDereference
    (mkState (h ++ [Some (replicate (Z.to_nat (GetVectorLength t)) Uninit)])
       (tail (tail pl))
       (EvKernel Kernel_DynamicClassification cI nullptr t p1
        :: EvMalloc (GetVectorLength t) p1
        :: EvMalloc (cI * GetVectorLength t) nullptr :: tr)
       (entered :: lg)).
Proof.
  intros Ht Hg Hg2. rewrite (ConstructResidualErrors_prefix Hv).
  destruct ConstructResidualErrors_fits as [-> ->].
  rewrite run_bind, (run_EbmMalloc_refused _ _ _ _ _ Hg). cbv beta iota.
  destruct t as [| |K]; try discriminate.
  cbn [IsClassification IsBinaryClassification].
  rewrite !run_bind, (run_EbmMalloc_granted _ _ _ _ _ Hg2). cbv beta iota.
  rewrite is_null_S. by rewrite !run_bind, run_kernel_null.
Qed.

End ResidualCases.

Local Abbreviation residuals_entered :=
  (TraceLevelInfo, "Entered DataSetByFeature::ConstructResidualErrors"%string).
Local Abbreviation residuals_exited :=
  (TraceLevelInfo, "Exited DataSetByFeature::ConstructResidualErrors"%string).
Local Abbreviation residuals_overflow :=
  (TraceLevelWarning,
   "WARNING DataSetByFeature::ConstructResidualErrors IsMultiplyError(cInstances, cVectorLength)"%string).
Local Abbreviation residuals_no_scratch :=
  (TraceLevelWarning,
   "WARNING DataSetByFeature::ConstructResidualErrors nullptr == aTempFloatVector"%string).

(** A returning run has passed the assertions at the head of the
    function. *)
Lemma ConstructResidualErrors_asserted cI tgt sc t s p s' :
  ConstructResidualErrors cI tgt sc t s = Ret p s' ->
  1 <= cI /\ tgt <> nullptr /\ sc <> nullptr /\ 1 <= GetVectorLength t.
Proof.
  unfold ConstructResidualErrors. intros H.
  rewrite run_bind, run_LOG_0_logged in H. cbv beta iota in H.
  inv_assert H H1. inv_assert H H2. inv_assert H H3. inv_assert H H4.
  apply Z.leb_le in H1, H4.
  split_and!; try done.
  - intros ->. discriminate H2.
  - intros ->. discriminate H3.
Qed.

(** The five ways in which [ConstructResidualErrors] returns. *)
Lemma ConstructResidualErrors_inv cI tgt sc t h pl tr lg p s' :
  ConstructResidualErrors cI tgt sc t (mkState h pl tr lg) = Ret p s' ->
  (SIZE_MAX < cI * GetVectorLength t /\ p = nullptr
   /\ s' = mkState h pl tr (residuals_overflow :: residuals_entered :: lg))
  \/ (cI * GetVectorLength t <= SIZE_MAX /\
      ((is_multiclass t = false /\ grants pl = true /\ p = S (length h)
        /\ s' = mkState
                  (h ++ [Some (replicate (Z.to_nat (cI * GetVectorLength t)) VResidual)])
                  (tail pl)
                  (EvKernel (kernel_of t) cI (S (length h)) t nullptr
                   :: EvMalloc (cI * GetVectorLength t) (S (length h)) :: tr)
                  (residuals_exited :: residuals_entered :: lg))
       \/ (is_multiclass t = true /\ grants pl = true
           /\ grants (tail pl) = true /\ p = S (length h)
           /\ s' = mkState
                     (h ++ [Some (replicate (Z.to_nat (cI * GetVectorLength t)) VResidual);
                            None])
                     (tail (tail pl))
                     (EvFree (S (S (length h)))
                      :: EvKernel Kernel_DynamicClassification cI (S (length h)) t
                           (S (S (length h)))
                      :: EvMalloc (GetVectorLength t) (S (S (length h)))
                      :: EvMalloc (cI * GetVectorLength t) (S (length h)) :: tr)
                     (residuals_exited :: residuals_entered :: lg))
       \/ (is_multiclass t = true /\ grants pl = true
           /\ grants (tail pl) = false /\ p = nullptr
           /\ s' = mkState (h ++ [None]) (tail (tail pl))
                     (EvFree (S (length h))
                      :: EvMalloc (GetVectorLength t) nullptr
                      :: EvMalloc (cI * GetVectorLength t) (S (length h)) :: tr)
                     (residuals_no_scratch :: residuals_entered :: lg))
       \/ (is_multiclass t = true /\ grants pl = false
           /\ grants (tail pl) = false /\ p = nullptr
           /\ s' = mkState h (tail (tail pl))
                     (EvMalloc (GetVectorLength t) nullptr
                      :: EvMalloc (cI * GetVectorLength t) nullptr :: tr)
                     (residuals_no_scratch :: residuals_entered :: lg)))).
Proof.
  intros H.
  destruct (ConstructResidualErrors_asserted _ _ _ _ _ _ _ H)
    as (HcI & Htgt & Hsc & Hv).
  destruct (Z.lt_ge_cases SIZE_MAX (cI * GetVectorLength t)) as [Hov | Hfit].
  { rewrite ConstructResidualErrors_overflow in H by done.
    injection H as <- <-. by left. }
  right. split; [done |].
  destruct (is_multiclass t) eqn:Ht, (grants pl) eqn:Hg.
  - destruct (grants (tail pl)) eqn:Hg2.
    + rewrite ConstructResidualErrors_multi_granted in H by done.
      injection H as <- <-. right. left. done.
    + rewrite ConstructResidualErrors_multi_scratch_refused in H by done.
      injection H as <- <-. right. right. left. done.
  - destruct (grants (tail pl)) eqn:Hg2.
    + rewrite ConstructResidualErrors_multi_output_refused in H by done.
      discriminate H.
    + rewrite ConstructResidualErrors_multi_both_refused in H by done.
      injection H as <- <-. right. right. right. done.
  - rewrite ConstructResidualErrors_single_granted in H by done.
    injection H as <- <-. left. done.
  - rewrite ConstructResidualErrors_single_refused in H by done.
    discriminate H.
Qed.

(** ** ConstructInputData *)

Lemma outer_array_length base N n :
  (n <= N)%nat -> length (outer_array base N n) = N.
Proof.
  intros H. unfold outer_array.
  rewrite length_app, length_fmap, length_seq, length_replicate. lia.
Qed.

Lemma outer_array_lookup base N n k :
  (k < n)%nat -> outer_array base N n !! k = Some (VPtr (S (base + S k))).
Proof.
  intros H. unfold outer_array.
  rewrite lookup_app_l by (rewrite length_fmap, length_seq; lia).
  rewrite list_lookup_fmap, lookup_seq_lt by lia. reflexivity.
Qed.

Lemma outer_array_S base N n :
  (n < N)%nat ->
  <[n := VPtr (S (base + S n))]> (outer_array base N n) = outer_array base N (S n).
Proof.
  intros H. unfold outer_array.
  replace (N - n)%nat with (S (N - S n)) by lia.
  rewrite seq_S, fmap_app, <- app_assoc. cbn [fmap list_fmap app replicate].
  set (l := (fun k => VPtr (S (base + S k))) <$> seq 0 n).
  assert (Hl : length l = n) by (subst l; rewrite length_fmap, length_seq; lia).
  rewrite <- Hl at 1. rewrite heap_insert_0. by rewrite Nat.add_0_l.
Qed.

Lemma drop_tail {A : Type} (k : nat) (l : list A) :
  drop k (tail l) = drop (S k) l.
Proof. destruct l; cbn [tail]; [by destruct k | reflexivity]. Qed.

Lemma tail_drop {A : Type} (l : list A) : tail l = drop 1 l.
Proof. by destruct l. Qed.

Ltac count_events :=
  try first
    [ done
    | cbn [allocations requests frees dispatches is_null Nat.eqb nullptr] in *;
      first [ lia | congruence ]
    | intros; lia ].

Section InputCases.

Variable w : Z.
Variables (aFeatures : list Feature) (cI : Z) (aBinnedData : list Z).

Local Abbreviation narrow := (static_cast_StorageDataType w).
Local Abbreviation warned :=
  (TraceLevelWarning,
   "WARNING DataSetByFeature::ConstructInputData nullptr == pInputDataTo"%string).

Lemma copy_body_inv f a j from h pl tr lg s' :
  copy_body w aBinnedData f (S a) j from (mkState h pl tr lg) = Ret tt s' ->
  exists d col,
    aBinnedData !! from = Some d /\ legal_code w f d = true
    /\ h !! a = Some (Some col) /\ (j < length col)%nat
    /\ s' = mkState (<[a := Some (<[j := VStorage (narrow d)]> col)]> h) pl tr lg.
Proof.
  unfold copy_body. intros H.
  inv_bind H d s1 Hr. apply read_Ret_inv in Hr as [Hd ->].
  inv_assert H H1. inv_assert H H2. inv_assert H H3. inv_assert H H4.
  apply store_Ret_inv in H as (a' & col & [= <-] & Hcol & Hj & ->).
  exists d, col. unfold legal_code. rewrite H1, H2, H3, H4. auto.
Qed.

Lemma run_copy_body f a j from d col h pl tr lg :
  aBinnedData !! from = Some d -> legal_code w f d = true ->
  h !! a = Some (Some col) -> (j < length col)%nat ->
  copy_body w aBinnedData f (S a) j from (mkState h pl tr lg) =
  Ret tt (mkState (<[a := Some (<[j := VStorage (narrow d)]> col)]> h) pl tr lg).
Proof.
  intros Hd Hl Hcol Hj. unfold copy_body, read. rewrite Hd.
  unfold legal_code in Hl. apply andb_true_iff in Hl as [Hl H4].
  apply andb_true_iff in Hl as [Hl H3]. apply andb_true_iff in Hl as [H1 H2].
  rewrite run_bind. change (ret d ?s) with (Ret d s).
  cbv beta iota. rewrite H1, H2, H3, H4. msteps. by apply run_store.
Qed.

(** The inner loop, when it returns, has filled the cells [j .. j + more]
    with narrowed legal codes and has touched nothing else. *)
Lemma copy_loop_inv f a more : forall j from h col pl tr lg s',
  h !! a = Some (Some col) ->
  copy_loop w more aBinnedData f (S a) j from (mkState h pl tr lg) = Ret tt s' ->
  exists col',
    s' = mkState (<[a := Some col']> h) pl tr lg
    /\ length col' = length col
    /\ (j + more < length col)%nat
    /\ (forall jj, (jj < j)%nat -> col' !! jj = col !! jj)
    /\ (forall k, (k <= more)%nat -> exists d,
          aBinnedData !! (from + k)%nat = Some d /\ legal_code w f d = true
          /\ col' !! (j + k)%nat = Some (VStorage (narrow d))).
Proof.
  induction more as [|more IH]; intros j from h col pl tr lg s' Hcol H;
    cbn [copy_loop] in H; inv_bind H u s1 Hb; destruct u;
    apply copy_body_inv in Hb as (d & col0 & Hd & Hl & Hcol0 & Hj & ->);
    rewrite Hcol in Hcol0; injection Hcol0 as <-.
  - apply mret_Ret_inv in H as [_ ->].
    exists (<[j := VStorage (narrow d)]> col). rewrite length_insert.
    repeat split; [lia | |].
    + intros jj Hjj. apply list_lookup_insert_ne. lia.
    + intros k Hk. assert (k = 0%nat) as -> by lia. exists d.
      rewrite !Nat.add_0_r. by rewrite list_lookup_insert_eq.
  - assert (Ha : (a < length h)%nat) by (eapply lookup_lt_Some; eauto).
    eapply IH in H; [| by apply list_lookup_insert_eq].
    destruct H as (col' & -> & Hlen & Hbound & Hlow & Hnew).
    rewrite length_insert in Hlen, Hbound. rewrite list_insert_insert_eq.
    exists col'. repeat split; [done | lia | |].
    + intros jj Hjj. rewrite Hlow by lia. apply list_lookup_insert_ne. lia.
    + intros [|k] Hk.
      * exists d. rewrite !Nat.add_0_r, Hlow by lia.
        by rewrite list_lookup_insert_eq.
      * destruct (Hnew k ltac:(lia)) as (d' & Hd' & Hl' & Hc').
        exists d'. by rewrite <- !Nat.add_succ_comm.
Qed.

(** The inner loop returns when the raw codes are present and legal. *)
Lemma copy_loop_progress f a more : forall j from h col pl tr lg,
  h !! a = Some (Some col) -> (j + more < length col)%nat ->
  (forall k, (k <= more)%nat -> exists d,
      aBinnedData !! (from + k)%nat = Some d /\ legal_code w f d = true) ->
  exists s', copy_loop w more aBinnedData f (S a) j from (mkState h pl tr lg)
             = Ret tt s'.
Proof.
  induction more as [|more IH]; intros j from h col pl tr lg Hcol Hj Hlegal;
    cbn [copy_loop]; rewrite run_bind;
    destruct (Hlegal 0%nat ltac:(lia)) as (d & Hd & Hl);
    rewrite Nat.add_0_r in Hd;
    rewrite (run_copy_body _ _ _ _ _ _ _ _ _ _ Hd Hl Hcol) by lia;
    cbv beta iota.
  - eauto.
  - assert (Ha : (a < length h)%nat) by (eapply lookup_lt_Some; eauto).
    eapply IH; [by apply list_lookup_insert_eq | rewrite length_insert; lia |].
    intros k Hk. destruct (Hlegal (S k) ltac:(lia)) as (d' & Hd' & Hl').
    exists d'. by rewrite Nat.add_succ_comm.
Qed.

Lemma heap_col_lookup {A : Type} (h0 cols rest : list A) (o c : A) i :
  length cols = i ->
  (h0 ++ o :: cols ++ c :: rest) !! (length h0 + S i)%nat = Some c.
Proof.
  intros <-. rewrite heap_lookup_new. cbn [lookup list_lookup].
  apply heap_lookup_0.
Qed.

Lemma heap_col_insert {A : Type} (h0 cols rest : list A) (o c c' : A) i :
  length cols = i ->
  <[(length h0 + S i)%nat := c']> (h0 ++ o :: cols ++ c :: rest)
  = h0 ++ o :: cols ++ c' :: rest.
Proof.
  intros <-. rewrite heap_insert_new.
  change (<[S (length cols) := c']> (o :: cols ++ c :: rest))
    with (o :: <[length cols := c']> (cols ++ c :: rest)).
  by rewrite heap_insert_0.
Qed.

Lemma heap_building_length {A : Type} (h0 cols : list A) (o : A) i :
  length cols = i -> length (h0 ++ o :: cols) = (length h0 + S i)%nat.
Proof. intros <-. rewrite length_app. reflexivity. Qed.

Variable h0 : list (option block).
Local Abbreviation base := (length h0).
Local Abbreviation aa := (S (length h0)).

(** One iteration of the outer loop, when it returns. *)
Lemma feature_body_inv i outer cols pl tr lg ok s' :
  length cols = i ->
  feature_body w aFeatures cI aBinnedData aa i
    (mkState (h0 ++ Some outer :: (Some <$> cols)) pl tr lg) = Ret ok s' ->
  (ok = false /\ grants pl = false
   /\ s' = mkState (h0 ++ Some outer :: (Some <$> cols)) (tail pl)
               (EvMalloc cI nullptr :: tr) (warned :: lg))
  \/ (ok = true /\ grants pl = true /\ (i < length outer)%nat
      /\ exists f col,
           aFeatures !! i = Some f /\ column_of w cI aBinnedData f col
           /\ s' = mkState
                     (h0 ++ Some (<[i := VPtr (S (base + S i))]> outer)
                         :: (Some <$> (cols ++ [col])))
                     (tail pl) (EvMalloc cI (S (base + S i)) :: tr) lg).
Proof.
  intros Hlen H. unfold feature_body in H.
  assert (Hlen' : length (Some <$> cols) = i) by by rewrite length_fmap.
  destruct (grants pl) eqn:Hg.
  - right. rewrite run_bind, (run_EbmMalloc_granted _ _ _ _ _ Hg) in H.
    cbv beta iota in H.
    rewrite (heap_building_length _ _ _ _ Hlen'), is_null_S in H.
    rewrite <- app_assoc in H. cbn [app] in H.
    inv_bind H u s1 Hs.
    apply store_Ret_inv in Hs as (a' & b & [= <-] & Hb & Hi & ->).
    rewrite heap_lookup_0 in Hb. injection Hb as <-.
    rewrite heap_insert_0 in H.
    inv_bind H f s1 Hr. apply read_Ret_inv in Hr as [Hf ->].
    inv_bind H u' s1 Hc. destruct u'.
    apply mret_Ret_inv in H as [-> ->].
    eapply copy_loop_inv in Hc; [| by apply heap_col_lookup].
    destruct Hc as (col & -> & Hcl & Hbound & _ & Hnew).
    rewrite length_replicate in Hcl, Hbound.
    rewrite (heap_col_insert _ _ _ _ _ _ _ Hlen').
    repeat split; [done |]. exists f, col. repeat split; [done | done | |].
    + intros j Hj. destruct (Hnew j ltac:(lia)) as (d & Hd & Hl & Hcd).
      exists d. by rewrite Nat.add_0_l in Hcd.
    + by rewrite fmap_app.
  - left. rewrite run_bind, (run_EbmMalloc_refused _ _ _ _ _ Hg) in H.
    cbv beta iota in H. change (is_null nullptr) with true in H.
    cbv beta iota in H. rewrite run_bind, run_LOG_0 in H.
    cbv beta iota in H. apply mret_Ret_inv in H as [-> ->]. done.
Qed.

(** One iteration of the outer loop returns when the allocator refuses,
    and when it grants and the feature's raw codes are legal. *)
Lemma feature_body_progress i outer cols pl tr lg :
  length cols = i -> (i < length outer)%nat -> 0 < cI ->
  (exists f, aFeatures !! i = Some f /\ legal_run w cI aBinnedData f = true) ->
  exists ok s',
    feature_body w aFeatures cI aBinnedData aa i
      (mkState (h0 ++ Some outer :: (Some <$> cols)) pl tr lg) = Ret ok s'.
Proof.
  intros Hlen Hi HcI (f & Hf & Hlegal). unfold feature_body.
  assert (Hlen' : length (Some <$> cols) = i) by by rewrite length_fmap.
  destruct (grants pl) eqn:Hg.
  - rewrite run_bind, (run_EbmMalloc_granted _ _ _ _ _ Hg). cbv beta iota.
    rewrite (heap_building_length _ _ _ _ Hlen'), is_null_S.
    rewrite <- app_assoc. cbn [app].
    rewrite run_bind, (run_store _ _ _ _ _ _ _ _ (heap_lookup_0 _ _ _) Hi).
    cbv beta iota. rewrite heap_insert_0.
    rewrite run_bind. unfold read. rewrite Hf.
    change (ret f ?s) with (Ret f s). cbv beta iota.
    rewrite run_bind.
    edestruct (copy_loop_progress f (base + S i) (Z.to_nat cI - 1) 0%nat)
      as [s' Hs']; [by apply heap_col_lookup | | | rewrite Hs'; eauto].
    + rewrite length_replicate. lia.
    + intros k Hk. unfold legal_run in Hlegal.
      rewrite forallb_forall in Hlegal.
      specialize (Hlegal k). rewrite in_seq in Hlegal.
      specialize (Hlegal ltac:(lia)).
      destruct (aBinnedData !! _) as [d|]; [eauto | discriminate].
  - rewrite run_bind, (run_EbmMalloc_refused _ _ _ _ _ Hg). cbv beta iota.
    change (is_null nullptr) with true. cbv beta iota.
    rewrite run_bind, run_LOG_0. eauto.
Qed.

(** The outer loop, when it returns: [cols'] are the columns it built. *)
Lemma feature_loop_inv N more : forall i cols pl tr lg r s',
  length cols = i -> (i + more < N)%nat ->
  feature_loop w more aFeatures cI aBinnedData aa i
    (mkState (h0 ++ Some (outer_array base N i) :: (Some <$> cols)) pl tr lg)
  = Ret r s' ->
  exists cols' tr',
    r.2 = (i + length cols')%nat
    /\ s' = mkState
              (h0 ++ Some (outer_array base N (i + length cols'))
                  :: (Some <$> (cols ++ cols')))
              (drop (if r.1 then length cols' else S (length cols')) pl)
              tr' (if r.1 then lg else warned :: lg)
    /\ (if r.1 then length cols' = S more
        else (length cols' <= more)%nat /\ grants (drop (length cols') pl) = false)
    /\ (forall k, (k < length cols')%nat -> grants (drop k pl) = true)
    /\ (forall k, (k < length cols')%nat -> exists f col,
          aFeatures !! (i + k)%nat = Some f /\ cols' !! k = Some col
          /\ column_of w cI aBinnedData f col)
    /\ allocations tr' = (allocations tr + length cols')%nat
    /\ frees tr' = frees tr
    /\ dispatches tr' = dispatches tr
    /\ requests tr' =
       (requests tr + (if r.1 then length cols' else S (length cols')))%nat.
Proof.
  induction more as [|more IH]; intros i cols pl tr lg r s' Hlen Hi H;
    cbn [feature_loop] in H; inv_bind H ok s1 Hb;
    apply feature_body_inv in Hb
      as [(-> & Hg & ->) | (-> & Hg & _ & f & col & Hf & Hcol & ->)];
    try done; cbv iota in H.
  - apply mret_Ret_inv in H as [-> ->].
    exists [], (EvMalloc cI nullptr :: tr). cbn [fst snd length].
    rewrite Nat.add_0_r, app_nil_r, tail_drop.
    repeat split; count_events.
  - apply mret_Ret_inv in H as [-> ->].
    rewrite outer_array_S by lia.
    exists [col], (EvMalloc cI (S (base + S i)) :: tr). cbn [fst snd length].
    rewrite Nat.add_1_r, tail_drop.
    repeat split; count_events.
    + intros k Hk. by assert (k = 0%nat) as -> by lia.
    + intros k Hk. assert (k = 0%nat) as -> by lia.
      exists f, col. by rewrite Nat.add_0_r.
  - apply mret_Ret_inv in H as [-> ->].
    exists [], (EvMalloc cI nullptr :: tr). cbn [fst snd length].
    rewrite Nat.add_0_r, app_nil_r, tail_drop.
    repeat split; count_events.
  - rewrite outer_array_S in H by lia.
    apply IH in H; [| rewrite length_app; cbn [length]; lia | lia].
    destruct H as (cols' & tr' & Hr & -> & Hcnt & Hgr & Hcols & Ha & Hfr & Hd & Hrq).
    exists (col :: cols'), tr'. cbn [length].
    rewrite <- !Nat.add_succ_comm, <- app_assoc. cbn [app].
    repeat split; try done.
    + f_equal. destruct r.1; by rewrite drop_tail.
    + destruct r.1; [lia |]. destruct Hcnt as [Hle Hgf].
      split; [lia | by rewrite drop_tail in Hgf].
    + intros [|k] Hk; [done |]. rewrite <- drop_tail. apply Hgr. lia.
    + intros [|k] Hk.
      * exists f, col. by rewrite Nat.add_0_r.
      * destruct (Hcols k ltac:(lia)) as (f' & col' & Hf' & Hc' & Hok).
        exists f', col'. by rewrite <- Nat.add_succ_comm.
    + rewrite Hrq. cbn [requests]. destruct r.1; lia.
Qed.

(** The outer loop returns when the inputs are legal. *)
Lemma feature_loop_progress N more : forall i cols pl tr lg,
  length cols = i -> (i + more < N)%nat -> 0 < cI ->
  (forall k, (i <= k <= i + more)%nat -> exists f,
      aFeatures !! k = Some f /\ legal_run w cI aBinnedData f = true) ->
  exists r s',
    feature_loop w more aFeatures cI aBinnedData aa i
      (mkState (h0 ++ Some (outer_array base N i) :: (Some <$> cols)) pl tr lg)
    = Ret r s'.
Proof.
  induction more as [|more IH]; intros i cols pl tr lg Hlen Hi HcI Hlegal;
    cbn [feature_loop]; rewrite run_bind;
    (destruct (feature_body_progress i (outer_array base N i) cols pl tr lg)
       as (ok & s1 & Hb);
     [done | rewrite outer_array_length; lia | done | apply Hlegal; lia |]);
    rewrite Hb; cbv beta iota;
    apply feature_body_inv in Hb
      as [(-> & Hg & ->) | (-> & Hg & _ & f & col & Hf & Hcol & ->)];
    try done; cbv iota; eauto.
  rewrite outer_array_S by lia.
  apply IH; [rewrite length_app; cbn [length]; lia | lia | done |].
  intros k Hk. apply Hlegal. lia.
Qed.

Lemma snoc_of_length {A : Type} (l : list A) (k : nat) :
  length l = S k -> exists l0 x, l = l0 ++ [x] /\ length l0 = k.
Proof.
  destruct l as [|y l] using rev_ind; [discriminate |].
  rewrite length_snoc. intros [= H]. eauto.
Qed.

(** The unwinding loop releases the [k] arrays of the features allocated
    so far, last first. *)
Lemma run_free_all_loop outer pl lg k : forall cols rest tr,
  length cols = k ->
  (forall k', (k' < k)%nat -> outer !! k' = Some (VPtr (S (base + S k')))) ->
  exists tr',
    free_all_loop aa k
      (mkState (h0 ++ Some outer :: (Some <$> cols) ++ rest) pl tr lg)
    = Ret tt (mkState (h0 ++ Some outer :: replicate k None ++ rest) pl tr' lg)
    /\ frees tr' = (frees tr + k)%nat
    /\ allocations tr' = allocations tr
    /\ dispatches tr' = dispatches tr
    /\ requests tr' = requests tr.
Proof.
  induction k as [|k IH]; intros cols rest tr Hlen Hptr.
  - destruct cols; [| discriminate]. exists tr. cbn. repeat split; lia.
  - apply snoc_of_length in Hlen as (cols0 & c & -> & Hlen).
    assert (Hlen' : length (Some <$> cols0) = k) by by rewrite length_fmap.
    cbn [free_all_loop]. rewrite run_bind.
    rewrite (run_load_ptr _ outer k (S (base + S k)))
      by (first [apply heap_lookup_0 | apply Hptr; lia]).
    cbv beta iota. rewrite run_bind.
    rewrite fmap_app, <- app_assoc. cbn [fmap list_fmap app].
    erewrite run_free_live by (by apply heap_col_lookup).
    cbv beta iota. rewrite (heap_col_insert _ _ _ _ _ _ _ Hlen').
    destruct (IH cols0 (None :: rest) (EvFree (S (base + S k)) :: tr) Hlen)
      as (tr' & -> & Hf & Ha & Hd & Hr); [intros; apply Hptr; lia |].
    exists tr'. rewrite replicate_S_end, <- app_assoc. cbn [app].
    repeat split; [rewrite Hf; cbn [frees]; lia | done | done | done].
Qed.

Local Abbreviation entered :=
  (TraceLevelInfo, "Entered DataSetByFeature::ConstructInputData"%string).
Local Abbreviation exited :=
  (TraceLevelInfo, "Exited DataSetByFeature::ConstructInputData"%string).
Local Abbreviation warned_outer :=
  (TraceLevelWarning,
   "WARNING DataSetByFeature::ConstructInputData nullptr == aaInputDataTo"%string).

(** What a returning run of [ConstructInputData] has done, starting from
    the heap [h0]: either it returns [nullptr], the request number [n] was
    the first one refused and the [n] blocks allocated before it are all
    released; or every request was granted and it returns the outer array,
    followed in the heap by one column per feature. *)
Lemma ConstructInputData_inv cF pl tr lg p s' :
  ConstructInputData w cF aFeatures cI aBinnedData (mkState h0 pl tr lg)
  = Ret p s' ->
  0 < cF /\ 0 < cI /\
  ((p = nullptr /\ exists n tr',
      (n <= Z.to_nat cF)%nat
      /\ s' = mkState (h0 ++ replicate n None) (drop (S n) pl) tr'
                 ((if n is O then warned_outer else warned) :: entered :: lg)
      /\ (forall k, (k < n)%nat -> grants (drop k pl) = true)
      /\ grants (drop n pl) = false
      /\ allocations tr' = (allocations tr + n)%nat
      /\ frees tr' = (frees tr + n)%nat
      /\ dispatches tr' = dispatches tr
      /\ requests tr' = (requests tr + S n)%nat)
   \/ (p = aa /\ exists cols tr',
        length cols = Z.to_nat cF
        /\ s' = mkState
                  (h0 ++ Some (outer_array base (Z.to_nat cF) (Z.to_nat cF))
                      :: (Some <$> cols))
                  (drop (S (Z.to_nat cF)) pl) tr' (exited :: entered :: lg)
        /\ (forall k, (k <= Z.to_nat cF)%nat -> grants (drop k pl) = true)
        /\ (forall k, (k < Z.to_nat cF)%nat -> exists f col,
              aFeatures !! k = Some f /\ cols !! k = Some col
              /\ column_of w cI aBinnedData f col)
        /\ allocations tr' = (allocations tr + S (Z.to_nat cF))%nat
        /\ frees tr' = frees tr
        /\ dispatches tr' = dispatches tr
        /\ requests tr' = (requests tr + S (Z.to_nat cF))%nat)).
Proof.
  unfold ConstructInputData. intros H.
  rewrite run_bind, run_LOG_0 in H. cbv beta iota in H.
  inv_assert H HcF. inv_assert H HcI.
  apply Z.ltb_lt in HcF, HcI. split; [done |]. split; [done |].
  destruct (grants pl) eqn:Hg.
  - rewrite run_bind, (run_EbmMalloc_granted _ _ _ _ _ Hg) in H.
    cbv beta iota in H. rewrite is_null_S in H.
    inv_bind H r s1 Hloop.
    change (h0 ++ [Some (replicate (Z.to_nat cF) Uninit)])
      with (h0 ++ Some (replicate (Z.to_nat cF) Uninit) :: (Some <$> []))
      in Hloop.
    replace (replicate (Z.to_nat cF) Uninit)
      with (outer_array base (Z.to_nat cF) 0) in Hloop
      by (unfold outer_array; cbn; by rewrite Nat.sub_0_r).
    apply (feature_loop_inv (Z.to_nat cF)) in Hloop; [| done | lia].
    destruct Hloop
      as (cols & tr' & Hr & -> & Hcnt & Hgr & Hcols & Ha & Hf & Hd & Hq).
    cbn [app] in *. rewrite Nat.add_0_l in *.
    destruct r as [[] n]; cbn [fst snd] in *.
    + right. rewrite run_bind, run_LOG_0 in H. cbv beta iota in H.
      apply mret_Ret_inv in H as [-> ->]. split; [done |].
      assert (HN : length cols = Z.to_nat cF) by lia.
      exists cols, tr'. rewrite HN in *. rewrite drop_tail.
      repeat split; try done; count_events.
      intros [|k] Hk; [done |]. rewrite <- drop_tail. apply Hgr. lia.
    + left. destruct Hcnt as [Hle Hgf]. subst n.
      inv_bind H uf sf Hfree. destruct uf.
      destruct (run_free_all_loop
                  (outer_array base (Z.to_nat cF) (length cols))
                  (drop (S (length cols)) (tail pl)) (warned :: entered :: lg)
                  (length cols) cols [] tr' eq_refl)
        as (tr'' & Hrun & Hf' & Ha' & Hd' & Hq');
        [intros; by apply outer_array_lookup |].
      rewrite !app_nil_r in Hrun. rewrite Hrun in Hfree.
      injection Hfree as <-.
      rewrite run_bind in H. erewrite run_free_live in H by apply heap_lookup_0.
      cbv beta iota in H. apply mret_Ret_inv in H as [-> ->].
      rewrite heap_insert_0. split; [done |].
      exists (S (length cols)), (EvFree aa :: tr''). rewrite !drop_tail.
      repeat split; try done; count_events.
      * intros [|k] Hk; [done |]. rewrite <- drop_tail. apply Hgr. lia.
      * by rewrite <- drop_tail.
  - left. rewrite run_bind, (run_EbmMalloc_refused _ _ _ _ _ Hg) in H.
    cbv beta iota in H. change (is_null nullptr) with true in H.
    cbv beta iota in H. rewrite run_bind, run_LOG_0 in H. cbv beta iota in H.
    apply mret_Ret_inv in H as [-> ->]. split; [done |].
    exists 0%nat, (EvMalloc cF nullptr :: tr).
    rewrite app_nil_r, tail_drop. repeat split; count_events.
Qed.

(** [ConstructInputData] returns when its inputs are legal. *)
Lemma ConstructInputData_progress cF pl tr lg :
  0 < cF -> 0 < cI ->
  legal_inputs w cF aFeatures cI aBinnedData = true ->
  exists p s',
    ConstructInputData w cF aFeatures cI aBinnedData (mkState h0 pl tr lg)
    = Ret p s'.
Proof.
  intros HcF HcI Hlegal. unfold ConstructInputData.
  rewrite run_bind, run_LOG_0. cbv beta iota.
  assert (H1 : (0 <? cF) = true) by by apply Z.ltb_lt.
  assert (H2 : (0 <? cI) = true) by by apply Z.ltb_lt.
  rewrite H1, H2. mstep. mstep.
  destruct (grants pl) eqn:Hg.
  - rewrite run_bind, (run_EbmMalloc_granted _ _ _ _ _ Hg).
    cbv beta iota. rewrite is_null_S.
    change (h0 ++ [Some (replicate (Z.to_nat cF) Uninit)])
      with (h0 ++ Some (replicate (Z.to_nat cF) Uninit) :: (Some <$> [])).
    replace (replicate (Z.to_nat cF) Uninit)
      with (outer_array base (Z.to_nat cF) 0)
      by (unfold outer_array; cbn; by rewrite Nat.sub_0_r).
    rewrite run_bind.
    destruct (feature_loop_progress (Z.to_nat cF) (Z.to_nat cF - 1) 0%nat []
                (tail pl) (EvMalloc cF aa :: tr) (entered :: lg))
      as (r & s1 & Hloop); [done | lia | done | |].
    { intros k Hk. unfold legal_inputs in Hlegal.
      rewrite forallb_forall in Hlegal. specialize (Hlegal k).
      rewrite in_seq in Hlegal. specialize (Hlegal ltac:(lia)).
      destruct (aFeatures !! k) as [f|]; [eauto | discriminate]. }
    rewrite Hloop. cbv beta iota.
    apply (feature_loop_inv (Z.to_nat cF)) in Hloop; [| done | lia].
    destruct Hloop
      as (cols & tr' & Hr & -> & Hcnt & Hgr & Hcols & Ha & Hf & Hd & Hq).
    cbn [app] in *. rewrite Nat.add_0_l in *.
    destruct r as [[] n]; cbn [fst snd] in *.
    + rewrite run_bind, run_LOG_0. eauto.
    + subst n. rewrite run_bind.
      destruct (run_free_all_loop
                  (outer_array base (Z.to_nat cF) (length cols))
                  (drop (S (length cols)) (tail pl)) (warned :: entered :: lg)
                  (length cols) cols [] tr' eq_refl)
        as (tr'' & Hrun & _); [intros; by apply outer_array_lookup |].
      rewrite !app_nil_r in Hrun. rewrite Hrun. cbv beta iota.
      rewrite run_bind. erewrite run_free_live by apply heap_lookup_0.
      eauto.
  - rewrite run_bind, (run_EbmMalloc_refused _ _ _ _ _ Hg). cbv beta iota.
    change (is_null nullptr) with true. cbv beta iota.
    rewrite run_bind, run_LOG_0. eauto.
Qed.

End InputCases.

(** ** Destruct *)

Lemma block_at_live h p :
  is_Some (block_at h p) -> exists a b, p = S a /\ h !! a = Some (Some b).
Proof.
  destruct p as [|a]; cbn; [by intros [? ?] |].
  destruct (h !! a) as [[b|]|] eqn:E; intros [x Hx]; try discriminate Hx.
  by exists a, b.
Qed.

Lemma release_one_lookup_ne h p a :
  p <> S a -> release_one h p !! a = h !! a.
Proof.
  destruct p as [|a']; [done |]. intros Hne. cbn.
  apply list_lookup_insert_ne. congruence.
Qed.

Lemma release_one_block_at_ne h p q :
  p <> q -> block_at (release_one h p) q = block_at h q.
Proof.
  destruct q as [|a]; [done |]. intros Hne. cbn.
  by rewrite release_one_lookup_ne.
Qed.

Lemma release_lookup_notin ps : forall h a,
  S a ∉ ps -> release ps h !! a = h !! a.
Proof.
  induction ps as [|p ps IH]; intros h a Hnotin; [done |].
  apply not_elem_of_cons in Hnotin as [Hne Hnotin]. cbn.
  unfold release in IH. rewrite IH by done.
  by apply release_one_lookup_ne.
Qed.

Lemma run_free_owned p h pl tr lg :
  p = nullptr \/ is_Some (block_at h p) ->
  free p (mkState h pl tr lg) =
  Ret tt (mkState (release_one h p) pl
            ((if is_null p then [] else [EvFree p]) ++ tr) lg).
Proof.
  intros [-> | Hlive]; [done |].
  apply block_at_live in Hlive as (a & b & -> & Hb).
  by rewrite (run_free_live _ _ _ _ _ _ Hb).
Qed.

(** The loop of [Destruct] releases the sub-arrays from index [i] on, in
    order, when they are live and distinct. *)
Lemma run_Destruct_loop a subs pl lg more : forall i h tr,
  (i + S more = length subs)%nat ->
  h !! a = Some (Some (VPtr <$> subs)) ->
  (forall k p, (i <= k)%nat -> subs !! k = Some p -> is_Some (block_at h p)) ->
  NoDup (S a :: drop i subs) ->
  Destruct_loop more (S a) i (mkState h pl tr lg) =
  Ret tt (mkState (release (drop i subs) h) pl
            (rev (EvFree <$> drop i subs) ++ tr) lg).
Proof.
  induction more as [|more IH]; intros i h tr Hlen Hout Hlive Hdup;
    (destruct (lookup_lt_is_Some_2 subs i) as [p Hp]; [lia |]);
    rewrite (drop_S _ _ _ Hp) in Hdup |- *;
    destruct (block_at_live h p (Hlive i p ltac:(lia) Hp)) as (a' & b & -> & Hb);
    cbn [Destruct_loop]; rewrite run_bind;
    rewrite (run_load_ptr a (VPtr <$> subs) i (S a'))
      by (first [done | by rewrite list_lookup_fmap, Hp]);
    cbv beta iota; rewrite is_null_S; cbn [negb]; mstep;
    rewrite run_bind, (run_free_live _ _ _ _ _ _ Hb); cbv beta iota.
  - rewrite drop_ge by lia. by rewrite run_mret.
  - apply NoDup_cons in Hdup as [Hnotin Hdup].
    apply not_elem_of_cons in Hnotin as [Hne Hnotin].
    apply NoDup_cons in Hdup as [Hp_notin Hdup].
    rewrite IH.
    + cbn [fmap list_fmap rev]. by rewrite <- app_assoc.
    + lia.
    + rewrite list_lookup_insert_ne by congruence. done.
    + intros k q Hk Hq.
      change (<[a' := None]> h) with (release_one h (S a')).
      rewrite (release_one_block_at_ne h (S a') q); [apply (Hlive k q); [lia | done] |].
      intros <-. apply Hp_notin.
      apply list_elem_of_lookup. exists (k - S i)%nat.
      rewrite lookup_drop. by replace (S i + (k - S i))%nat with k by lia.
    + apply NoDup_cons. done.
Qed.

Local Abbreviation Destruct_entered :=
  (TraceLevelInfo, "Entered DataSetByFeature::Destruct"%string).
Local Abbreviation Destruct_exited :=
  (TraceLevelInfo, "Exited DataSetByFeature::Destruct"%string).

(** C9.  [Destruct] releases [m_aResidualErrors] when it is not null and,
    when [m_aaInputData] is not null, every one of the [m_cFeatures]
    sub-arrays, in order, and then the outer array; when both pointers are
    null it releases nothing.  The object is assumed to own what it points
    to: a non-null residual array is live, and a non-null [m_aaInputData]
    designates a live array of [m_cFeatures >= 1] pointers to live
    (hence non-null) sub-arrays, all blocks being distinct. *)
Theorem Destruct_releases (this : DataSetByFeature) (subs : list ptr) (s : State)
    (Hres : m_aResidualErrors this = nullptr
            \/ is_Some (deref s (m_aResidualErrors this)))
    (Hcols : m_aaInputData this <> nullptr ->
             deref s (m_aaInputData this) = Some (VPtr <$> subs)
             /\ Z.of_nat (length subs) = m_cFeatures this
             /\ 1 <= m_cFeatures this
             /\ (forall p, p ∈ subs -> is_Some (deref s p))
             /\ NoDup (m_aResidualErrors this :: m_aaInputData this :: subs)) :
  exists s',
    Destruct this s = Ret tt s'
    /\ plan s' = plan s
    /\ log s' = Destruct_exited :: Destruct_entered :: log s
    /\ (if is_null (m_aaInputData this) then
          heap s' = release [m_aResidualErrors this] (heap s)
          /\ trace s' =
             (if is_null (m_aResidualErrors this) then []
              else [EvFree (m_aResidualErrors this)]) ++ trace s
        else
          heap s' =
            release (m_aResidualErrors this :: subs ++ [m_aaInputData this])
                    (heap s)
          /\ trace s' =
             EvFree (m_aaInputData this) :: rev (EvFree <$> subs)
             ++ (if is_null (m_aResidualErrors this) then []
                 else [EvFree (m_aResidualErrors this)]) ++ trace s)
    /\ (m_aResidualErrors this = nullptr -> m_aaInputData this = nullptr ->
        heap s' = heap s /\ trace s' = trace s).
Proof.
  destruct this as [r aa cI cF], s as [h pl tr lg].
  cbn [m_aResidualErrors m_aaInputData m_cFeatures deref heap] in *.
  unfold Destruct. cbn [m_aResidualErrors m_aaInputData m_cFeatures].
  rewrite run_bind, run_LOG_0. cbv beta iota.
  rewrite run_bind, (run_free_owned r _ _ _ _ Hres). cbv beta iota.
  destruct aa as [|a].
  - cbn [is_null Nat.eqb nullptr negb]. msteps. eexists. split; [done |].
    cbn [heap plan trace log]. split_and!; try done.
    by intros -> _.
  - destruct (Hcols ltac:(done)) as (Hout & Hlen & HcF & Hlive & Hdup).
    rewrite is_null_S. cbn [negb].
    assert (H1 : (1 <=? cF) = true) by by apply Z.leb_le.
    rewrite H1. mstep.
    apply NoDup_cons in Hdup as [Hr_notin Hdup].
    apply not_elem_of_cons in Hr_notin as [Hr_aa Hr_subs].
    assert (Hout' : release_one h r !! a = Some (Some (VPtr <$> subs))).
    { rewrite release_one_lookup_ne by done. cbn in Hout.
      destruct (h !! a) as [[b|]|]; cbn in Hout; congruence. }
    rewrite !run_bind.
    rewrite (run_Destruct_loop a subs pl _ (Z.to_nat cF - 1) 0%nat); try done;
      [| lia |].
    + cbv beta iota. rewrite drop_0.
      erewrite run_free_live
        by (rewrite release_lookup_notin;
            [exact Hout' | by apply NoDup_cons in Hdup as [? _]]).
      cbv beta iota. rewrite run_LOG_0. eexists. split; [done |].
      cbn [heap plan trace log]. split_and!; try done.
      unfold release. cbn [foldl]. rewrite foldl_app. reflexivity.
    + intros k p _ Hp. rewrite release_one_block_at_ne.
      * apply Hlive. by eapply list_elem_of_lookup_2.
      * intros ->. apply Hr_subs. by eapply list_elem_of_lookup_2.
Qed.

(** ** Initialize *)

Local Abbreviation Initialize_entered :=
  (TraceLevelInfo, "Entered DataSetByFeature::Initialize"%string).
Local Abbreviation Initialize_exited :=
  (TraceLevelInfo, "Exited DataSetByFeature::Initialize"%string).
Local Abbreviation Initialize_failed :=
  (TraceLevelWarning, "WARNING Exited DataSetByFeature::Initialize"%string).

Section InitializeCases.

Variable w : Z.
Variables (this : DataSetByFeature) (cF : Z) (aFeatures : list Feature)
          (cI : Z) (aBinnedData : list Z) (tgt sc : ptr) (t : LearningType).

Local Abbreviation run_Initialize :=
  (Initialize w this cF aFeatures cI aBinnedData tgt sc t).
Local Abbreviation run_residuals := (ConstructResidualErrors cI tgt sc t).
Local Abbreviation run_columns :=
  (ConstructInputData w cF aFeatures cI aBinnedData).

(** The five ways in which [Initialize] returns. *)
Lemma Initialize_inv s b this' s' :
  run_Initialize s = Ret (b, this') s' ->
  zero_state this /\
  ((cI = 0 /\ b = false /\ this' = set_m_cFeatures this cF
    /\ s' = logged Initialize_exited (logged Initialize_entered s))
   \/ (cI <> 0 /\ exists s1,
        run_residuals (logged Initialize_entered s) = Ret nullptr s1
        /\ b = true /\ this' = this /\ s' = logged Initialize_failed s1)
   \/ (cI <> 0 /\ cF = 0 /\ exists p s1,
        run_residuals (logged Initialize_entered s) = Ret p s1
        /\ p <> nullptr /\ b = false
        /\ this' = mkDataSetByFeature p (m_aaInputData this) cI cF
        /\ s' = logged Initialize_exited s1)
   \/ (cI <> 0 /\ cF <> 0 /\ exists p s1 s2 s3,
        run_residuals (logged Initialize_entered s) = Ret p s1
        /\ p <> nullptr /\ run_columns s1 = Ret nullptr s2
        /\ free p s2 = Ret tt s3
        /\ b = true /\ this' = this /\ s' = logged Initialize_failed s3)
   \/ (cI <> 0 /\ cF <> 0 /\ exists p s1 aa s2,
        run_residuals (logged Initialize_entered s) = Ret p s1
        /\ p <> nullptr /\ run_columns s1 = Ret aa s2 /\ aa <> nullptr
        /\ b = false /\ this' = mkDataSetByFeature p aa cI cF
        /\ s' = logged Initialize_exited s2)).
Proof.
  unfold Initialize. intros H.
  inv_assert H H1. inv_assert H H2. inv_assert H H3.
  rewrite run_bind, run_LOG_0_logged in H. cbv beta iota in H.
  split.
  { unfold zero_state. apply Nat.eqb_eq in H1, H2. apply Z.eqb_eq in H3. done. }
  inv_bind H built s1 Hbuilt.
  destruct (0 =? cI) eqn:HcI; cbn [negb] in Hbuilt.
  { apply Z.eqb_eq in HcI. apply mret_Ret_inv in Hbuilt as [-> ->].
    rewrite run_bind, run_LOG_0_logged in H. cbv beta iota in H.
    apply mret_Ret_inv in H as [[= -> ->] ->]. left. done. }
  apply Z.eqb_neq in HcI. right.
  inv_bind Hbuilt p s2 Hcre.
  destruct p as [|a].
  { change (is_null 0) with true in Hbuilt. cbv iota in Hbuilt.
    apply mret_Ret_inv in Hbuilt as [-> ->].
    rewrite run_bind, run_LOG_0_logged in H. cbv beta iota in H.
    apply mret_Ret_inv in H as [[= -> ->] ->]. left.
    split; [done |]. eexists. split_and!; [eassumption | done..]. }
  right. rewrite is_null_S in Hbuilt.
  inv_bind Hbuilt filled s3 Hfill.
  destruct (0 =? cF) eqn:HcF; cbn [negb] in Hfill.
  { apply Z.eqb_eq in HcF. apply mret_Ret_inv in Hfill as [-> ->].
    apply mret_Ret_inv in Hbuilt as [-> ->].
    rewrite run_bind, run_LOG_0_logged in H. cbv beta iota in H.
    apply mret_Ret_inv in H as [[= -> ->] ->]. left.
    split; [done |]. split; [done |]. do 2 eexists.
    split_and!; [eassumption | done..]. }
  apply Z.eqb_neq in HcF. right.
  inv_bind Hfill aa s4 Hcid.
  destruct aa as [|a'].
  { change (is_null 0) with true in Hfill. cbv iota in Hfill.
    inv_bind Hfill u s5 Hfree. destruct u.
    apply mret_Ret_inv in Hfill as [-> ->].
    apply mret_Ret_inv in Hbuilt as [-> ->].
    rewrite run_bind, run_LOG_0_logged in H. cbv beta iota in H.
    apply mret_Ret_inv in H as [[= -> ->] ->]. left.
    split; [lia |]. split; [lia |]. do 4 eexists.
    split_and!; [eassumption | done | eassumption | eassumption | done..]. }
  rewrite is_null_S in Hfill.
  apply mret_Ret_inv in Hfill as [-> ->].
  apply mret_Ret_inv in Hbuilt as [-> ->].
  rewrite run_bind, run_LOG_0_logged in H. cbv beta iota in H.
  apply mret_Ret_inv in H as [[= -> ->] ->]. right.
  split; [lia |]. split; [lia |]. do 4 eexists.
  split_and!; [eassumption | done | eassumption | done..].
Qed.

Hypothesis Hzero : zero_state this.

Lemma Initialize_start s :
  run_Initialize s =
  (built ←
    (if negb (0 =? cI) then
       aResidualErrors ← run_residuals;
       if is_null aResidualErrors then mret None
       else
         filled ←
           (if negb (0 =? cF) then
              aaInputData ← run_columns;
              if is_null aaInputData then
                free aResidualErrors;;
                mret None
              else mret (Some (set_m_aaInputData this aaInputData))
            else mret (Some this));
         match filled with
         | None => mret None
         | Some this1 =>
             mret (Some (set_m_cInstances
                           (set_m_aResidualErrors this1 aResidualErrors)
                           cI))
         end
     else mret (Some this));
  match built with
  | Some this2 =>
      LOG_0 TraceLevelInfo "Exited DataSetByFeature::Initialize";;
      mret (false, set_m_cFeatures this2 cF)
  | None =>
      LOG_0 TraceLevelWarning "WARNING Exited DataSetByFeature::Initialize";;
      mret (true, this)
  end) (logged Initialize_entered s).
Proof.
  destruct Hzero as (H1 & H2 & H3). unfold Initialize.
  rewrite H1, H2, H3. change (is_null nullptr) with true.
  change (0 =? 0) with true. by msteps.
Qed.

(** No instance: nothing is built. *)
Lemma Initialize_empty s :
  cI = 0 ->
  run_Initialize s =
  Ret (false, set_m_cFeatures this cF)
      (logged Initialize_exited (logged Initialize_entered s)).
Proof.
  intros HcI. rewrite Initialize_start. subst cI.
  change (0 =? 0) with true. cbn [negb]. by msteps.
Qed.

(** The residual array is not built. *)
Lemma Initialize_residuals_fail s s1 :
  cI <> 0 ->
  run_residuals (logged Initialize_entered s) = Ret nullptr s1 ->
  run_Initialize s = Ret (true, this) (logged Initialize_failed s1).
Proof.
  intros HcI Hres. rewrite Initialize_start.
  apply Z.eqb_neq in HcI. rewrite Z.eqb_sym in HcI. rewrite HcI. cbn [negb].
  rewrite !run_bind, Hres. cbv beta iota.
  change (is_null nullptr) with true. cbv iota. by msteps.
Qed.

(** The residual array is built, the columns are not. *)
Lemma Initialize_columns_fail s p s1 s2 s3 :
  cI <> 0 -> cF <> 0 ->
  run_residuals (logged Initialize_entered s) = Ret p s1 -> p <> nullptr ->
  run_columns s1 = Ret nullptr s2 ->
  free p s2 = Ret tt s3 ->
  run_Initialize s = Ret (true, this) (logged Initialize_failed s3).
Proof.
  intros HcI HcF Hres Hp Hcols Hfree. rewrite Initialize_start.
  apply Z.eqb_neq in HcI, HcF. rewrite Z.eqb_sym in HcI, HcF.
  rewrite HcI, HcF. cbn [negb].
  rewrite !run_bind, Hres. cbv beta iota.
  destruct p as [|a]; [done |]. rewrite is_null_S.
  rewrite !run_bind, Hcols. cbv beta iota.
  change (is_null nullptr) with true. cbv iota.
  rewrite !run_bind, Hfree. cbv beta iota. by msteps.
Qed.

End InitializeCases.

(** ** Allocation plans with a first refusal *)

Lemma grants_before k n l :
  (n < k)%nat -> grants (drop n (replicate k true ++ l)) = true.
Proof.
  intros H. rewrite drop_app_le by (rewrite length_replicate; lia).
  rewrite drop_replicate. by replace (k - n)%nat with (S (k - S n)) by lia.
Qed.

Lemma grants_at k l : grants (drop k (replicate k true ++ false :: l)) = false.
Proof. by rewrite drop_app_length' by by rewrite length_replicate. Qed.

Lemma drop_after k (l : list bool) :
  drop (S k) (replicate k true ++ false :: l) = l.
Proof.
  change (false :: l) with ([false] ++ l). rewrite app_assoc.
  apply drop_app_length'. rewrite length_app, length_replicate. cbn. lia.
Qed.

(** * The properties of the specification *)

(** ** The residual array *)

(** C1.  When the allocator refuses the residual array, the code does not
    return [nullptr]: no test follows the allocation, and the kernel is
    dispatched on the null pointer.  Here with one instance and a
    regression task, called directly and through [Initialize]. *)
Theorem ConstructResidualErrors_refused_output_dispatches :
  ConstructResidualErrors 1 1%nat 2%nat Regression (initial_State [false])
  = Fault NullDereference
      (mkState [] []
         [EvKernel Kernel_Regression 1 nullptr Regression nullptr;
          EvMalloc 1 nullptr]
         [residuals_entered])
  /\ Initialize 64 zero_DataSetByFeature 0 [] 1 [] 1%nat 2%nat Regression
       (initial_State [false])
     = Fault NullDereference
         (mkState [] []
            [EvKernel Kernel_Regression 1 nullptr Regression nullptr;
             EvMalloc 1 nullptr]
            [residuals_entered; Initialize_entered]).
Proof. split; reflexivity. Qed.

(** C3.  With at least one instance, when [cInstances * cVectorLength]
    overflows [size_t], [ConstructResidualErrors] logs the overflow and
    returns [nullptr] without any call of the allocator, and so
    [Initialize] returns [true] and leaves the object as it was; when the
    product fits, the overflow test is false and the run goes on to
    request exactly [cInstances * cVectorLength] cells. *)
Theorem capacity_guard (cI : Z) (tgt sc : ptr) (t : LearningType) (s : State)
    (HcI : 1 <= cI) (Htgt : tgt <> nullptr) (Hsc : sc <> nullptr) :
  (SIZE_MAX < cI * GetVectorLength t ->
     let s' := logged residuals_overflow (logged residuals_entered s) in
     ConstructResidualErrors cI tgt sc t s = Ret nullptr s'
     /\ heap s' = heap s /\ plan s' = plan s /\ trace s' = trace s
     /\ forall w this cF aFeatures aBinnedData,
          zero_state this ->
          Initialize w this cF aFeatures cI aBinnedData tgt sc t s
          = Ret (true, this)
              (logged Initialize_failed
                 (logged residuals_overflow
                    (logged residuals_entered (logged Initialize_entered s)))))
  /\ (1 <= GetVectorLength t -> cI * GetVectorLength t <= SIZE_MAX ->
      IsMultiplyError cI (GetVectorLength t) = false
      /\ exists evs p,
           trace (final (ConstructResidualErrors cI tgt sc t s))
           = evs ++ EvMalloc (cI * GetVectorLength t) p :: trace s).
Proof.
  split.
  - intros Hov s'. subst s'. split_and!; try done.
    + destruct s as [h pl tr lg]. by apply ConstructResidualErrors_overflow.
    + intros w this cF aFeatures aBinnedData Hzero.
      apply Initialize_residuals_fail; [done | lia |].
      by apply ConstructResidualErrors_overflow.
  - intros Hv Hfit. split; [apply Z.ltb_ge; lia |].
    destruct s as [h pl tr lg].
    destruct (is_multiclass t) eqn:Ht, (grants pl) eqn:Hg;
      [destruct (grants (tail pl)) eqn:Hg2
      | destruct (grants (tail pl)) eqn:Hg2 | |].
    + rewrite ConstructResidualErrors_multi_granted by done.
      by eexists [_; _; _], _.
    + rewrite ConstructResidualErrors_multi_scratch_refused by done.
      by eexists [_; _], _.
    + rewrite ConstructResidualErrors_multi_output_refused by done.
      by eexists [_; _], _.
    + rewrite ConstructResidualErrors_multi_both_refused by done.
      by eexists [_], _.
    + rewrite ConstructResidualErrors_single_granted by done.
      by eexists [_], _.
    + rewrite ConstructResidualErrors_single_refused by done.
      by eexists [_], _.
Qed.

Lemma capacity_guard_witness :
  ConstructResidualErrors (2 ^ 62) 1%nat 2%nat (MulticlassClassification 4)
    (initial_State [])
  = Ret nullptr
      (logged residuals_overflow (logged residuals_entered (initial_State []))).
Proof.
  apply (capacity_guard (2 ^ 62) 1%nat 2%nat (MulticlassClassification 4)
           (initial_State []));
    [lia | done | done | vm_compute; reflexivity].
Defined.

(** C7.  When [ConstructResidualErrors] returns an array, the array has
    [cInstances * cVectorLength] cells, [cVectorLength] being 1 for
    regression and binary classification and the number of classes for
    multiclass classification; that many cells were requested; and the one
    kernel dispatched on it is the one of the task: [InitializeResiduals<2>]
    for binary classification, the dynamic one for multiclass
    classification, the regression one for regression. *)
Theorem residual_array_length (cI : Z) (tgt sc : ptr) (t : LearningType)
    (s : State) (p : ptr) (s' : State)
    (Hrun : ConstructResidualErrors cI tgt sc t s = Ret p s')
    (Hp : p <> nullptr) :
  exists b tmp,
    deref s' p = Some b
    /\ Z.of_nat (length b) = cI * GetVectorLength t
    /\ GetVectorLength t =
       match t with
       | MulticlassClassification K => K
       | Regression | BinaryClassification => 1
       end
    /\ EvMalloc (cI * GetVectorLength t) p ∈ trace s'
    /\ dispatches (trace s')
       = EvKernel (kernel_of t) cI p t tmp :: dispatches (trace s)
    /\ kernel_of t =
       match t with
       | Regression => Kernel_Regression
       | BinaryClassification => Kernel_2
       | MulticlassClassification _ => Kernel_DynamicClassification
       end.
Proof.
  destruct (ConstructResidualErrors_asserted _ _ _ _ _ _ _ Hrun)
    as (HcI & _ & _ & Hv).
  destruct s as [h pl tr lg].
  apply ConstructResidualErrors_inv in Hrun
    as [(_ & -> & _) | (Hfit & [H | [H | [H | H]]])]; try done.
  - destruct H as (Ht & _ & -> & ->).
    eexists _, nullptr. unfold deref. cbn [heap trace block_at dispatches].
    rewrite heap_lookup_0. cbn [mjoin option_join].
    split_and!; try done.
    + rewrite length_replicate. nia.
    + apply elem_of_cons. right. apply elem_of_cons. by left.
  - destruct H as (Ht & _ & _ & -> & ->).
    eexists _, (S (S (length h))). unfold deref.
    cbn [heap trace block_at dispatches].
    rewrite heap_lookup_0. cbn [mjoin option_join].
    split_and!; try done.
    + rewrite length_replicate. nia.
    + do 3 (apply elem_of_cons; right). apply elem_of_cons. by left.
    + by destruct t.
  - by destruct H as (_ & _ & _ & -> & _).
  - by destruct H as (_ & _ & _ & -> & _).
Qed.

Lemma residual_array_length_witness :
  exists s',
    ConstructResidualErrors 2 1%nat 2%nat (MulticlassClassification 3)
      (initial_State []) = Ret 1%nat s'
    /\ exists b, deref s' 1%nat = Some b /\ Z.of_nat (length b) = 2 * 3.
Proof.
  set (o := ConstructResidualErrors 2 1%nat 2%nat (MulticlassClassification 3)
              (initial_State [])).
  assert (Ho : o = Ret 1%nat (final o)) by (vm_compute; reflexivity).
  exists (final o). split; [exact Ho |].
  destruct (residual_array_length 2 1%nat 2%nat (MulticlassClassification 3)
              (initial_State []) 1%nat (final o) Ho ltac:(done))
    as (b & tmp & Hb & Hlen & _).
  exists b. split; [exact Hb | exact Hlen].
Defined.

(** C8.  In the multiclass path, with the assertions of the function
    satisfied and a product that fits [size_t]:
    - when both arrays are granted, the scratch is released after the
      kernel and before the output array is returned;
    - when the output array is granted and the scratch is refused, the
      output array is released, the refusal is logged and [nullptr] is
      returned;
    - whenever the call returns, no block allocated during the call is
      live except the array that is returned, and the allocations of the
      call exceed its releases by exactly that array. *)
Theorem scratch_released (cI : Z) (tgt sc : ptr) (K : Z) (s : State)
    (HcI : 1 <= cI) (Htgt : tgt <> nullptr) (Hsc : sc <> nullptr)
    (HK : 1 <= K) (Hfit : cI * K <= SIZE_MAX) :
  let t := MulticlassClassification K in
  let p1 := S (length (heap s)) in
  let p2 := S (S (length (heap s))) in
  (grants (plan s) = true -> grants (tail (plan s)) = true ->
   exists s',
     ConstructResidualErrors cI tgt sc t s = Ret p1 s'
     /\ heap s' = heap s ++ [Some (replicate (Z.to_nat (cI * K)) VResidual); None]
     /\ trace s' =
        EvFree p2 :: EvKernel Kernel_DynamicClassification cI p1 t p2
        :: EvMalloc K p2 :: EvMalloc (cI * K) p1 :: trace s)
  /\ (grants (plan s) = true -> grants (tail (plan s)) = false ->
      exists s',
        ConstructResidualErrors cI tgt sc t s = Ret nullptr s'
        /\ heap s' = heap s ++ [None]
        /\ trace s' =
           EvFree p1 :: EvMalloc K nullptr :: EvMalloc (cI * K) p1 :: trace s
        /\ log s' = residuals_no_scratch :: residuals_entered :: log s)
  /\ (forall p s',
        ConstructResidualErrors cI tgt sc t s = Ret p s' ->
        (forall q, (length (heap s) < q)%nat -> q <> p -> deref s' q = None)
        /\ (allocations (trace s') + frees (trace s)
            = allocations (trace s) + frees (trace s')
              + (if is_null p then 0 else 1))%nat).
Proof.
  intros t p1 p2. subst t p1 p2. destruct s as [h pl tr lg].
  cbn [heap plan trace log]. split_and!.
  - intros Hg Hg2. eexists. split.
    + by apply ConstructResidualErrors_multi_granted.
    + done.
  - intros Hg Hg2. eexists. split.
    + by apply ConstructResidualErrors_multi_scratch_refused.
    + done.
  - intros p s' Hrun.
    apply ConstructResidualErrors_inv in Hrun
      as [(Hov & _) | (_ & [H | [H | [H | H]]])].
    + cbn [GetVectorLength] in Hov. lia.
    + by destruct H as (Ht & _).
    + destruct H as (_ & _ & _ & -> & ->). unfold deref.
      cbn [heap trace allocations frees is_null Nat.eqb nullptr].
      split; [| lia]. intros [|a] Hq Hne; [done |]. cbn [block_at].
      destruct (decide (a = S (length h))) as [-> | Ha].
      * by rewrite heap_lookup_1.
      * rewrite lookup_ge_None_2; [done |]. rewrite length_app. cbn. lia.
    + destruct H as (_ & _ & _ & -> & ->). unfold deref.
      cbn [heap trace allocations frees is_null Nat.eqb nullptr].
      split; [| lia]. intros [|a] Hq Hne; [done |]. cbn [block_at].
      destruct (decide (a = length h)) as [-> | Ha].
      * by rewrite heap_lookup_0.
      * rewrite lookup_ge_None_2; [done |]. rewrite length_app. cbn. lia.
    + destruct H as (_ & _ & _ & -> & ->). unfold deref.
      cbn [heap trace allocations frees is_null Nat.eqb nullptr].
      split; [| lia]. intros [|a] Hq Hne; [done |]. cbn [block_at].
      rewrite lookup_ge_None_2; [done | lia].
Qed.

Lemma scratch_released_witness :
  exists s',
    ConstructResidualErrors 2 1%nat 2%nat (MulticlassClassification 3)
      (initial_State [true; false]) = Ret nullptr s'
    /\ heap s' = [None]
    /\ trace s' = [EvFree 1%nat; EvMalloc 3 nullptr; EvMalloc 6 1%nat]
    /\ log s' = [residuals_no_scratch; residuals_entered].
Proof.
  apply (scratch_released 2 1%nat 2%nat 3 (initial_State [true; false]));
    [lia | done | done | lia | vm_compute; discriminate | reflexivity
    | reflexivity].
Defined.

(** ** The empty data set *)

(** C6.  [Initialize] with no instance, on an object whose pointers are
    null and whose instance count is zero, returns [false] (success) for
    every number of features and every task; it calls neither the
    allocator nor [free], leaves both pointers null and the instance count
    zero, and records [cFeatures].  [Destruct] on the result releases
    nothing. *)
Theorem Initialize_empty_dataset (w c0 cF : Z) (aFeatures : list Feature)
    (aBinnedData : list Z) (tgt sc : ptr) (t : LearningType) (s : State) :
  let this' := mkDataSetByFeature nullptr nullptr 0 cF in
  let s1 := logged Initialize_exited (logged Initialize_entered s) in
  let s2 := logged Destruct_exited (logged Destruct_entered s1) in
  Initialize w (mkDataSetByFeature nullptr nullptr 0 c0) cF aFeatures 0
    aBinnedData tgt sc t s = Ret (false, this') s1
  /\ heap s1 = heap s /\ plan s1 = plan s /\ trace s1 = trace s
  /\ Destruct this' s1 = Ret tt s2
  /\ heap s2 = heap s /\ plan s2 = plan s /\ trace s2 = trace s.
Proof.
  intros this' s1 s2. split_and!; [by apply Initialize_empty | reflexivity..].
Qed.

(** ** The columns *)

Local Abbreviation columns_entered :=
  (TraceLevelInfo, "Entered DataSetByFeature::ConstructInputData"%string).
Local Abbreviation columns_no_outer :=
  (TraceLevelWarning,
   "WARNING DataSetByFeature::ConstructInputData nullptr == aaInputDataTo"%string).
Local Abbreviation columns_no_feature :=
  (TraceLevelWarning,
   "WARNING DataSetByFeature::ConstructInputData nullptr == pInputDataTo"%string).

(** C5.  On legal inputs, whichever request of [ConstructInputData] is the
    first one the allocator refuses - request 0 is the outer array, request
    [k >= 1] the array of the [k]-th feature - the function returns
    [nullptr] after logging the refusal: the [k] blocks it had been granted
    (the outer array and the arrays of the features before) are all
    released, nothing else is, and successful allocations and releases
    both number [k]. *)
Theorem ConstructInputData_rollback (w cF : Z) (aFeatures : list Feature)
    (cI : Z) (aBinnedData : list Z) (s : State) (k : nat) (rest : list bool)
    (HcF : 0 < cF) (HcI : 0 < cI)
    (Hlegal : legal_inputs w cF aFeatures cI aBinnedData = true)
    (Hplan : plan s = replicate k true ++ false :: rest)
    (Hk : (k <= Z.to_nat cF)%nat) :
  exists s',
    ConstructInputData w cF aFeatures cI aBinnedData s = Ret nullptr s'
    /\ heap s' = heap s ++ replicate k None
    /\ plan s' = rest
    /\ allocations (trace s') = (allocations (trace s) + k)%nat
    /\ frees (trace s') = (frees (trace s) + k)%nat
    /\ requests (trace s') = (requests (trace s) + S k)%nat
    /\ dispatches (trace s') = dispatches (trace s)
    /\ log s' =
       (if k is O then columns_no_outer else columns_no_feature)
       :: columns_entered :: log s.
Proof.
  destruct s as [h pl tr lg]. cbn [heap plan trace log] in *. subst pl.
  destruct (ConstructInputData_progress w aFeatures cI aBinnedData h cF
              (replicate k true ++ false :: rest) tr lg HcF HcI Hlegal)
    as (p & s' & Hrun).
  exists s'. rewrite Hrun.
  apply ConstructInputData_inv in Hrun
    as (_ & _ & [(-> & n & tr' & Hn & -> & Hgr & Hgf & Ha & Hf & Hd & Hq)
                | (-> & cols & tr' & _ & _ & Hgr & _)]).
  - assert (n = k) as ->.
    { destruct (Nat.lt_trichotomy n k) as [Hlt | [Heq | Hgt]]; [| done |].
      - by rewrite grants_before in Hgf.
      - specialize (Hgr k Hgt). by rewrite grants_at in Hgr. }
    cbn [heap plan trace log]. rewrite drop_after. done.
  - specialize (Hgr k Hk). by rewrite grants_at in Hgr.
Qed.

Lemma ConstructInputData_rollback_witness :
  exists s',
    ConstructInputData 8 3 [mkFeature 0 4; mkFeature 1 4; mkFeature 2 4] 2
      [0; 3; 1; 2; 3; 0] (initial_State [true; true; false]) = Ret nullptr s'
    /\ heap s' = [None; None]
    /\ plan s' = []
    /\ allocations (trace s') = 2%nat
    /\ frees (trace s') = 2%nat
    /\ requests (trace s') = 3%nat
    /\ dispatches (trace s') = []
    /\ log s' = [columns_no_feature; columns_entered].
Proof.
  apply (ConstructInputData_rollback 8 3
           [mkFeature 0 4; mkFeature 1 4; mkFeature 2 4] 2 [0; 3; 1; 2; 3; 0]
           (initial_State [true; true; false]) 2 []);
    [lia | lia | reflexivity | reflexivity | vm_compute; lia].
Defined.

(** *** ConstructInputData in either build *)

Lemma assert_in_Ret_inv b c s u s' :
  EBM_ASSERT_in b c s = Ret u s' -> s' = s.
Proof.
  destruct b; cbn [EBM_ASSERT_in]; intros H.
  - by apply assert_Ret_inv in H as [_ ->].
  - by apply mret_Ret_inv in H as [_ ->].
Qed.

Ltac inv_assert_in H :=
  let u := fresh "u" in let s1 := fresh "s" in let Ha := fresh "Ha" in
  apply bind_Ret_inv in H as (u & s1 & Ha & H);
  apply assert_in_Ret_inv in Ha as ->; clear u.

(** In the checked build the function is [ConstructInputData]. *)
Lemma copy_loop_in_checked w more : forall aBinnedData f p j from s,
  copy_loop_in CheckedBuild w more aBinnedData f p j from s
  = copy_loop w more aBinnedData f p j from s.
Proof.
  induction more as [|more IH]; intros; cbn [copy_loop_in copy_loop];
    rewrite !run_bind;
    change (copy_body_in CheckedBuild w aBinnedData f p j from s)
      with (copy_body w aBinnedData f p j from s);
    destruct (copy_body w aBinnedData f p j from s); try done; apply IH.
Qed.

Lemma feature_body_in_checked w aFeatures cI aBinnedData aa i s :
  feature_body_in CheckedBuild w aFeatures cI aBinnedData aa i s
  = feature_body w aFeatures cI aBinnedData aa i s.
Proof.
  unfold feature_body_in, feature_body. rewrite !run_bind.
  destruct (EbmMalloc cI s) as [p s1|]; [| done].
  destruct (is_null p); [done |]. rewrite !run_bind.
  destruct (store aa i (VPtr p) s1) as [u s2|]; [| done].
  rewrite !run_bind. destruct (read aFeatures i s2) as [f s3|]; [| done].
  by rewrite !run_bind, copy_loop_in_checked.
Qed.

Lemma feature_loop_in_checked w aFeatures cI aBinnedData aa more : forall i s,
  feature_loop_in CheckedBuild w more aFeatures cI aBinnedData aa i s
  = feature_loop w more aFeatures cI aBinnedData aa i s.
Proof.
  induction more as [|more IH]; intros; cbn [feature_loop_in feature_loop];
    rewrite !run_bind, feature_body_in_checked;
    destruct (feature_body w aFeatures cI aBinnedData aa i s) as [[] s1|];
    try done; apply IH.
Qed.

Lemma ConstructInputData_in_checked w cF aFeatures cI aBinnedData s :
  ConstructInputData_in CheckedBuild w cF aFeatures cI aBinnedData s
  = ConstructInputData w cF aFeatures cI aBinnedData s.
Proof.
  unfold ConstructInputData_in, ConstructInputData. cbn [EBM_ASSERT_in].
  rewrite !run_bind. destruct (LOG_0 _ _ s) as [u s1|]; [| done].
  rewrite !run_bind. destruct (EBM_ASSERT (0 <? cF) s1) as [u1 s2|]; [| done].
  rewrite !run_bind. destruct (EBM_ASSERT (0 <? cI) s2) as [u2 s3|]; [| done].
  rewrite !run_bind. destruct (EbmMalloc cF s3) as [p s4|]; [| done].
  destruct (is_null p); [done |].
  by rewrite !run_bind, feature_loop_in_checked.
Qed.

Lemma ConstructResidualErrors_in_checked cI tgt sc t :
  ConstructResidualErrors_in CheckedBuild cI tgt sc t
  = ConstructResidualErrors cI tgt sc t.
Proof. reflexivity. Qed.

Lemma Initialize_in_checked w this cF aFeatures cI aBinnedData tgt sc t s :
  Initialize_in CheckedBuild w this cF aFeatures cI aBinnedData tgt sc t s
  = Initialize w this cF aFeatures cI aBinnedData tgt sc t s.
Proof.
  unfold Initialize_in, Initialize. cbn [EBM_ASSERT_in].
  rewrite ConstructResidualErrors_in_checked.
  rewrite !run_bind. destruct (EBM_ASSERT _ s) as [u1 s1|]; [| done].
  rewrite !run_bind. destruct (EBM_ASSERT _ s1) as [u2 s2|]; [| done].
  rewrite !run_bind. destruct (EBM_ASSERT _ s2) as [u3 s3|]; [| done].
  rewrite !run_bind. destruct (LOG_0 _ _ s3) as [u4 s4|]; [| done].
  destruct (negb (0 =? cI)); [| done].
  rewrite !run_bind.
  destruct (ConstructResidualErrors cI tgt sc t s4) as [p s5|]; [| done].
  destruct (is_null p); [done |].
  destruct (negb (0 =? cF)); [| done].
  by rewrite !run_bind, ConstructInputData_in_checked.
Qed.

(** With its assertions satisfied, [ConstructResidualErrors] is the same
    in both builds. *)
Lemma ConstructResidualErrors_in_asserted b cI tgt sc t s :
  1 <= cI -> tgt <> nullptr -> sc <> nullptr -> 1 <= GetVectorLength t ->
  ConstructResidualErrors_in b cI tgt sc t s
  = ConstructResidualErrors cI tgt sc t s.
Proof.
  intros HcI Htgt Hsc Hv. destruct b; [reflexivity |].
  unfold ConstructResidualErrors_in, ConstructResidualErrors.
  cbn [EBM_ASSERT_in].
  replace (1 <=? cI) with true by (symmetry; by apply Z.leb_le).
  replace (negb (is_null tgt)) with true by by destruct tgt.
  replace (negb (is_null sc)) with true by by destruct sc.
  replace (1 <=? GetVectorLength t) with true by (symmetry; by apply Z.leb_le).
  by destruct t.
Qed.

Section InputEitherBuild.

Variable b : build.
Variable w : Z.
Variables (aFeatures : list Feature) (cI : Z) (aBinnedData : list Z).

Local Abbreviation narrow := (static_cast_StorageDataType w).

Lemma copy_body_in_inv f a j from h pl tr lg s' :
  copy_body_in b w aBinnedData f (S a) j from (mkState h pl tr lg) = Ret tt s' ->
  exists d col,
    aBinnedData !! from = Some d
    /\ h !! a = Some (Some col) /\ (j < length col)%nat
    /\ s' = mkState (<[a := Some (<[j := VStorage (narrow d)]> col)]> h) pl tr lg.
Proof.
  unfold copy_body_in. intros H.
  inv_bind H d s1 Hr. apply read_Ret_inv in Hr as [Hd ->].
  inv_assert_in H. inv_assert_in H. inv_assert_in H. inv_assert_in H.
  apply store_Ret_inv in H as (a' & col & [= <-] & Hcol & Hj & ->).
  by exists d, col.
Qed.

(** The inner loop, when it returns, has filled the cells [j .. j + more]
    with the narrowed codes, legal or not. *)
Lemma copy_loop_in_inv f a more : forall j from h col pl tr lg s',
  h !! a = Some (Some col) ->
  copy_loop_in b w more aBinnedData f (S a) j from (mkState h pl tr lg)
  = Ret tt s' ->
  exists col',
    s' = mkState (<[a := Some col']> h) pl tr lg
    /\ length col' = length col
    /\ (j + more < length col)%nat
    /\ (forall jj, (jj < j)%nat -> col' !! jj = col !! jj)
    /\ (forall k, (k <= more)%nat -> exists d,
          aBinnedData !! (from + k)%nat = Some d
          /\ col' !! (j + k)%nat = Some (VStorage (narrow d))).
Proof.
  induction more as [|more IH]; intros j from h col pl tr lg s' Hcol H;
    cbn [copy_loop_in] in H; inv_bind H u s1 Hb; destruct u;
    apply copy_body_in_inv in Hb as (d & col0 & Hd & Hcol0 & Hj & ->);
    rewrite Hcol in Hcol0; injection Hcol0 as <-.
  - apply mret_Ret_inv in H as [_ ->].
    exists (<[j := VStorage (narrow d)]> col). rewrite length_insert.
    split_and!; [done | done | lia | |].
    + intros jj Hjj. apply list_lookup_insert_ne. lia.
    + intros k Hk. assert (k = 0%nat) as -> by lia. exists d.
      rewrite !Nat.add_0_r. by rewrite list_lookup_insert_eq.
  - assert (Ha : (a < length h)%nat) by (eapply lookup_lt_Some; eauto).
    eapply IH in H; [| by apply list_lookup_insert_eq].
    destruct H as (col' & -> & Hlen & Hbound & Hlow & Hnew).
    rewrite length_insert in Hlen, Hbound. rewrite list_insert_insert_eq.
    exists col'. split_and!; [done | done | lia | |].
    + intros jj Hjj. rewrite Hlow by lia. apply list_lookup_insert_ne. lia.
    + intros [|k] Hk.
      * exists d. rewrite !Nat.add_0_r, Hlow by lia.
        by rewrite list_lookup_insert_eq.
      * destruct (Hnew k ltac:(lia)) as (d' & Hd' & Hc').
        exists d'. by rewrite <- !Nat.add_succ_comm.
Qed.

Variable h0 : list (option block).
Local Abbreviation base := (length h0).
Local Abbreviation aa := (S (length h0)).

Lemma feature_body_in_inv i outer cols pl tr lg s' :
  length cols = i ->
  feature_body_in b w aFeatures cI aBinnedData aa i
    (mkState (h0 ++ Some outer :: (Some <$> cols)) pl tr lg) = Ret true s' ->
  (i < length outer)%nat /\ grants pl = true
  /\ exists f col,
       aFeatures !! i = Some f /\ column_raw w cI aBinnedData f col
       /\ s' = mkState
                 (h0 ++ Some (<[i := VPtr (S (base + S i))]> outer)
                     :: (Some <$> (cols ++ [col])))
                 (tail pl) (EvMalloc cI (S (base + S i)) :: tr) lg.
Proof.
  intros Hlen H. unfold feature_body_in in H.
  assert (Hlen' : length (Some <$> cols) = i) by by rewrite length_fmap.
  destruct (grants pl) eqn:Hg.
  - rewrite run_bind, (run_EbmMalloc_granted _ _ _ _ _ Hg) in H.
    cbv beta iota in H.
    rewrite (heap_building_length _ _ _ _ Hlen'), is_null_S in H.
    rewrite <- app_assoc in H. cbn [app] in H.
    inv_bind H u s1 Hs.
    apply store_Ret_inv in Hs as (a' & b0 & [= <-] & Hb & Hi & ->).
    rewrite heap_lookup_0 in Hb. injection Hb as <-.
    rewrite heap_insert_0 in H.
    inv_bind H f s1 Hr. apply read_Ret_inv in Hr as [Hf ->].
    inv_bind H u' s1 Hc. destruct u'.
    apply mret_Ret_inv in H as [_ ->].
    eapply copy_loop_in_inv in Hc; [| by apply heap_col_lookup].
    destruct Hc as (col & -> & Hcl & Hbound & _ & Hnew).
    rewrite length_replicate in Hcl, Hbound.
    rewrite (heap_col_insert _ _ _ _ _ _ _ Hlen').
    split_and!; [done | done |]. exists f, col. split_and!; [done | | ].
    + split; [done |]. intros j Hj.
      destruct (Hnew j ltac:(lia)) as (d & Hd & Hcd).
      exists d. by rewrite Nat.add_0_l in Hcd.
    + by rewrite fmap_app.
  - rewrite run_bind, (run_EbmMalloc_refused _ _ _ _ _ Hg) in H.
    cbv beta iota in H. change (is_null nullptr) with true in H.
    cbv beta iota in H. rewrite run_bind, run_LOG_0 in H. cbv beta iota in H.
    apply mret_Ret_inv in H as [[=] _].
Qed.

Lemma feature_loop_in_inv N more : forall i cols pl tr lg n s',
  length cols = i -> (i + more < N)%nat ->
  feature_loop_in b w more aFeatures cI aBinnedData aa i
    (mkState (h0 ++ Some (outer_array base N i) :: (Some <$> cols)) pl tr lg)
  = Ret (true, n) s' ->
  exists cols' pl' tr',
    s' = mkState
           (h0 ++ Some (outer_array base N (i + length cols'))
               :: (Some <$> (cols ++ cols')))
           pl' tr' lg
    /\ length cols' = S more
    /\ (forall k, (k < length cols')%nat -> exists f col,
          aFeatures !! (i + k)%nat = Some f /\ cols' !! k = Some col
          /\ column_raw w cI aBinnedData f col).
Proof.
  induction more as [|more IH]; intros i cols pl tr lg n s' Hlen Hi H;
    cbn [feature_loop_in] in H; inv_bind H ok s1 Hb;
    (destruct ok; [| by apply mret_Ret_inv in H as [[=] _]]);
    apply feature_body_in_inv in Hb
      as (_ & _ & f & col & Hf & Hcol & ->); try done;
    rewrite outer_array_S in H by lia.
  - apply mret_Ret_inv in H as [_ ->].
    eexists [col], _, _. cbn [length]. rewrite Nat.add_1_r.
    split_and!; try done.
    intros k Hk. assert (k = 0%nat) as -> by lia.
    exists f, col. by rewrite Nat.add_0_r.
  - apply IH in H; [| rewrite length_app; cbn [length]; lia | lia].
    destruct H as (cols' & pl'' & tr'' & -> & Hcnt & Hcols).
    exists (col :: cols'), pl'', tr''. cbn [length].
    rewrite <- !Nat.add_succ_comm, <- app_assoc. cbn [app].
    split_and!; [done | lia |].
    intros [|k] Hk.
    + exists f, col. by rewrite Nat.add_0_r.
    + destruct (Hcols k ltac:(lia)) as (f' & col' & Hf' & Hc' & Hok).
      exists f', col'. by rewrite <- Nat.add_succ_comm.
Qed.

(** A run of the function that returns the outer array, in either build. *)
Lemma ConstructInputData_in_inv cF pl tr lg p s' :
  (0 < Z.to_nat cF)%nat ->
  ConstructInputData_in b w cF aFeatures cI aBinnedData (mkState h0 pl tr lg)
  = Ret p s' ->
  p <> nullptr ->
  p = aa /\ exists cols pl' tr' lg',
    length cols = Z.to_nat cF
    /\ s' = mkState
              (h0 ++ Some (outer_array base (Z.to_nat cF) (Z.to_nat cF))
                  :: (Some <$> cols))
              pl' tr' lg'
    /\ (forall k, (k < Z.to_nat cF)%nat -> exists f col,
          aFeatures !! k = Some f /\ cols !! k = Some col
          /\ column_raw w cI aBinnedData f col).
Proof.
  unfold ConstructInputData_in. intros HN H Hp.
  rewrite run_bind, run_LOG_0 in H. cbv beta iota in H.
  inv_assert_in H. inv_assert_in H.
  destruct (grants pl) eqn:Hg.
  - rewrite run_bind, (run_EbmMalloc_granted _ _ _ _ _ Hg) in H.
    cbv beta iota in H. rewrite is_null_S in H.
    inv_bind H r s1 Hloop. destruct r as [[] n]; cbn [fst snd] in H.
    + change (h0 ++ [Some (replicate (Z.to_nat cF) Uninit)])
        with (h0 ++ Some (replicate (Z.to_nat cF) Uninit) :: (Some <$> []))
        in Hloop.
      replace (replicate (Z.to_nat cF) Uninit)
        with (outer_array base (Z.to_nat cF) 0) in Hloop
        by (unfold outer_array; cbn; by rewrite Nat.sub_0_r).
      apply (feature_loop_in_inv (Z.to_nat cF)) in Hloop; [| done | lia].
      destruct Hloop as (cols & pl' & tr' & -> & Hcnt & Hcols).
      cbn [app] in *. rewrite Nat.add_0_l in *.
      rewrite run_bind, run_LOG_0 in H. cbv beta iota in H.
      apply mret_Ret_inv in H as [-> ->]. split; [done |].
      assert (HN' : length cols = Z.to_nat cF) by lia.
      exists cols. eexists _, _, _. rewrite HN' in *. done.
    + inv_bind H u1 s2 H1. inv_bind H u2 s3 H2.
      by apply mret_Ret_inv in H as [-> _].
  - rewrite run_bind, (run_EbmMalloc_refused _ _ _ _ _ Hg) in H.
    cbv beta iota in H. change (is_null nullptr) with true in H.
    cbv beta iota in H. rewrite run_bind, run_LOG_0 in H. cbv beta iota in H.
    by apply mret_Ret_inv in H as [-> _].
Qed.

End InputEitherBuild.

(** A cell of a built column, read through the outer array. *)
Lemma columns_at_built h N cols pl tr lg i j col v :
  (i < N)%nat -> cols !! i = Some col -> col !! j = Some (VStorage v) ->
  columns_at
    (mkState (h ++ Some (outer_array (length h) N N) :: (Some <$> cols))
             pl tr lg)
    (S (length h)) i j
  = Some v.
Proof.
  intros Hi Hcol Hcell. unfold columns_at, deref. cbn [heap block_at].
  rewrite heap_lookup_0. cbn [mjoin option_join].
  rewrite outer_array_lookup by done. cbn [block_at].
  rewrite heap_lookup_new.
  change ((Some (outer_array (length h) N N) :: (Some <$> cols)) !! S i)
    with ((Some <$> cols) !! i).
  rewrite list_lookup_fmap, Hcol.
  cbn [fmap option_fmap option_map mjoin option_join].
  by rewrite Hcell.
Qed.




(** ** Initialize: all or nothing *)

Lemma Destruct_zero_state this s :
  zero_state this ->
  Destruct this s = Ret tt (logged Destruct_exited (logged Destruct_entered s)).
Proof.
  destruct this as [r aa cI cF]. intros (Hr & Haa & _). cbn in Hr, Haa.
  by subst r aa.
Qed.

(** A failed [Initialize] leaves the object as it was. *)
Lemma Initialize_failure_keeps_object w this cF aFeatures cI aBinnedData tgt sc
    t s this' s' :
  Initialize w this cF aFeatures cI aBinnedData tgt sc t s = Ret (true, this') s' ->
  this' = this /\ zero_state this'.
Proof.
  intros H. apply Initialize_inv in H as (Hzero & H).
  destruct H as [(_ & [=] & _) | [(_ & s1 & _ & _ & -> & _)
    | [(_ & _ & p & s1 & _ & _ & [=] & _)
      | [(_ & _ & p & s1 & s2 & s3 & _ & _ & _ & _ & _ & -> & _)
        | (_ & _ & p & s1 & aa & s2 & _ & _ & _ & _ & [=] & _)]]]]; done.
Qed.

(** C2.  Starting from an object in its zero state, with instances and
    features, when [ConstructResidualErrors] returns an array and
    [ConstructInputData] then returns [nullptr], [Initialize] releases the
    residual array and returns [true] (failure) with the object unchanged:
    every block allocated since the call began is released, allocations
    and releases balance, and [Destruct] on the object then releases
    nothing.  Moreover every run of [Initialize] that returns [true], on
    any input, leaves the object equal to what it was, in its zero state
    (pointers null, instance count zero, [m_cFeatures] unchanged): members
    are assigned only on the path that returns [false]. *)
Theorem Initialize_rolls_back (w : Z) (this : DataSetByFeature) (cF : Z)
    (aFeatures : list Feature) (cI : Z) (aBinnedData : list Z) (tgt sc : ptr)
    (t : LearningType) (s : State) (p : ptr) (s1 s2 : State)
    (Hzero : zero_state this) (HcI : cI <> 0) (HcF : cF <> 0)
    (Hres : ConstructResidualErrors cI tgt sc t (logged Initialize_entered s)
            = Ret p s1)
    (Hp : p <> nullptr)
    (Hcols : ConstructInputData w cF aFeatures cI aBinnedData s1
             = Ret nullptr s2) :
  (exists s3,
     Initialize w this cF aFeatures cI aBinnedData tgt sc t s
     = Ret (true, this) s3
     /\ trace s3 = EvFree p :: trace s2
     /\ deref s3 p = None
     /\ (exists m, heap s3 = heap s ++ replicate m None)
     /\ (allocations (trace s3) + frees (trace s)
         = allocations (trace s) + frees (trace s3))%nat
     /\ exists s4, Destruct this s3 = Ret tt s4
                   /\ heap s4 = heap s3 /\ trace s4 = trace s3)
  /\ (forall w' cF' aFeatures' cI' aBinnedData' tgt' sc' t' s0 this' s',
        Initialize w' this cF' aFeatures' cI' aBinnedData' tgt' sc' t' s0
        = Ret (true, this') s' ->
        this' = this /\ zero_state this').
Proof.
  split; [| intros; by eapply Initialize_failure_keeps_object].
  destruct s as [h pl tr lg].
  pose proof Hres as Hres0. pose proof Hcols as Hcols0.
  unfold logged in Hres. cbn [heap plan trace log] in Hres.
  assert (Hshape : exists b l tr1 pl1 lg1,
             p = S (length h)
             /\ s1 = mkState (h ++ Some b :: replicate l None) pl1 tr1 lg1
             /\ (allocations tr1 + frees tr
                 = allocations tr + frees tr1 + 1)%nat).
  { apply ConstructResidualErrors_inv in Hres
      as [(_ & -> & _) | (_ & [H | [H | [H | H]]])]; [done | | | |].
    - destruct H as (_ & _ & -> & ->). eexists _, 0%nat, _, _, _.
      split_and!; [done | reflexivity |]. cbn. lia.
    - destruct H as (_ & _ & _ & -> & ->). eexists _, 1%nat, _, _, _.
      split_and!; [done | reflexivity |]. cbn. lia.
    - by destruct H as (_ & _ & _ & -> & _).
    - by destruct H as (_ & _ & _ & -> & _). }
  destruct Hshape as (b & l & tr1 & pl1 & lg1 & -> & -> & Hcount).
  apply ConstructInputData_inv in Hcols
    as (_ & _ & [(_ & n & tr2 & _ & -> & _ & _ & Ha & Hf & _)
                | ([=] & _)]).
  assert (Hfree :
    free (S (length h))
      (mkState ((h ++ Some b :: replicate l None) ++ replicate n None)
         (drop (S n) pl1) tr2
         ((if n is O then columns_no_outer else columns_no_feature)
          :: columns_entered :: lg1))
    = Ret tt
        (mkState (h ++ replicate (S (l + n)) None) (drop (S n) pl1)
           (EvFree (S (length h)) :: tr2)
           ((if n is O then columns_no_outer else columns_no_feature)
            :: columns_entered :: lg1))).
  { rewrite <- app_assoc. cbn [app].
    erewrite run_free_live by apply heap_lookup_0.
    rewrite heap_insert_0, <- replicate_add. done. }
  eexists. split.
  { exact (Initialize_columns_fail w this cF aFeatures cI aBinnedData tgt sc t
             Hzero _ _ _ _ _ HcI HcF Hres0 Hp Hcols0 Hfree). }
  unfold logged, deref. cbn [heap plan trace log]. split_and!.
  - done.
  - cbn [block_at replicate]. by rewrite heap_lookup_0.
  - by eexists.
  - cbn [allocations frees]. lia.
  - eexists. split; [by apply Destruct_zero_state | done].
Qed.

Lemma Initialize_rolls_back_witness :
  exists s3,
    Initialize 8 zero_DataSetByFeature 2 [mkFeature 0 4; mkFeature 1 4] 3
      [0; 3; 1; 2; 2; 0] 1%nat 2%nat Regression
      (initial_State [true; true; true; false])
    = Ret (true, zero_DataSetByFeature) s3
    /\ deref s3 1%nat = None
    /\ (exists m, heap s3 = [] ++ replicate m None)
    /\ (allocations (trace s3) + 0 = 0 + frees (trace s3))%nat.
Proof.
  set (s := initial_State [true; true; true; false]).
  set (s1 := final (ConstructResidualErrors 3 1%nat 2%nat Regression
                      (logged Initialize_entered s))).
  set (s2 := final (ConstructInputData 8 2 [mkFeature 0 4; mkFeature 1 4] 3
                      [0; 3; 1; 2; 2; 0] s1)).
  destruct (Initialize_rolls_back 8 zero_DataSetByFeature 2
              [mkFeature 0 4; mkFeature 1 4] 3 [0; 3; 1; 2; 2; 0] 1%nat 2%nat
              Regression s 1%nat s1 s2)
    as [(s3 & Hrun & _ & Hfreed & Hheap & Hcount & _) _];
    [done | lia | lia | vm_compute; reflexivity | done
    | vm_compute; reflexivity |].
  exists s3. split; [exact Hrun |]. split; [exact Hfreed |].
  split; [exact Hheap | exact Hcount].
Defined.

(** C10.  [Initialize] returns [false] exactly on the paths on which it
    has succeeded and [true] exactly on those on which it has failed.
    Whenever it returns [false], it has logged its normal exit, has
    recorded [cFeatures] and, unless there is no instance, holds the array
    that [ConstructResidualErrors] returned and, unless there is no
    feature, the one that [ConstructInputData] returned; whenever it
    returns [true], it has logged its warning exit, has left the object
    unchanged, and one of the two builders had returned [nullptr]. *)
Theorem Initialize_status_polarity (w : Z) (this : DataSetByFeature) (cF : Z)
    (aFeatures : list Feature) (cI : Z) (aBinnedData : list Z) (tgt sc : ptr)
    (t : LearningType) (s : State) (b : bool) (this' : DataSetByFeature)
    (s' : State)
    (Hrun : Initialize w this cF aFeatures cI aBinnedData tgt sc t s
            = Ret (b, this') s') :
  let s0 := logged Initialize_entered s in
  (b = false
   /\ head (log s') = Some Initialize_exited
   /\ m_cFeatures this' = cF
   /\ (cI = 0
       \/ exists p s1,
            ConstructResidualErrors cI tgt sc t s0 = Ret p s1
            /\ p <> nullptr
            /\ m_aResidualErrors this' = p /\ m_cInstances this' = cI
            /\ (cF = 0
                \/ exists aa s2,
                     ConstructInputData w cF aFeatures cI aBinnedData s1
                     = Ret aa s2
                     /\ aa <> nullptr /\ m_aaInputData this' = aa)))
  \/ (b = true
      /\ head (log s') = Some Initialize_failed
      /\ this' = this
      /\ cI <> 0
      /\ ((exists s1, ConstructResidualErrors cI tgt sc t s0 = Ret nullptr s1)
          \/ (exists p s1 s2,
                ConstructResidualErrors cI tgt sc t s0 = Ret p s1
                /\ p <> nullptr /\ cF <> 0
                /\ ConstructInputData w cF aFeatures cI aBinnedData s1
                   = Ret nullptr s2))).
Proof.
  intros s0. subst s0. apply Initialize_inv in Hrun as (Hzero & H).
  destruct H as [(-> & -> & -> & ->) | [(HcI & s1 & Hres & -> & -> & ->)
    | [(HcI & -> & p & s1 & Hres & Hp & -> & -> & ->)
      | [(HcI & HcF & p & s1 & s2 & s3 & Hres & Hp & Hcols & _ & -> & -> & ->)
        | (HcI & HcF & p & s1 & aa & s2 & Hres & Hp & Hcols & Haa & -> & -> & ->)]]]].
  - left. split_and!; try done. by left.
  - right. split_and!; try done. left. by exists s1.
  - left. split_and!; try done. right. exists p, s1. split_and!; try done.
    by left.
  - right. split_and!; try done. right. by exists p, s1, s2.
  - left. split_and!; try done. right. exists p, s1. split_and!; try done.
    right. by exists aa, s2.
Qed.

Lemma Initialize_status_polarity_witness :
  exists s',
    Initialize 8 zero_DataSetByFeature 1 [mkFeature 0 4] 3 [0; 3; 1] 1%nat
      2%nat Regression (initial_State [])
    = Ret (false, mkDataSetByFeature 1 2 3 1) s'
    /\ head (log s') = Some Initialize_exited.
Proof.
  set (o := Initialize 8 zero_DataSetByFeature 1 [mkFeature 0 4] 3 [0; 3; 1]
              1%nat 2%nat Regression (initial_State [])).
  assert (Ho : o = Ret (false, mkDataSetByFeature 1 2 3 1) (final o))
    by (vm_compute; reflexivity).
  exists (final o). split; [exact Ho |].
  destruct (Initialize_status_polarity 8 zero_DataSetByFeature 1
              [mkFeature 0 4] 3 [0; 3; 1] 1%nat 2%nat Regression
              (initial_State []) false (mkDataSetByFeature 1 2 3 1) (final o)
              Ho)
    as [(_ & Hlog & _) | (Hb & _)]; [exact Hlog | discriminate Hb].
Defined.

Lemma Destruct_releases_witness :
  exists s',
    Destruct (mkDataSetByFeature 1 2 3 1)
      (mkState [Some [VResidual; VResidual; VResidual]; Some [VPtr 3%nat];
                Some [VStorage 0; VStorage 3; VStorage 1]] [] [] [])
    = Ret tt s'
    /\ heap s' = [None; None; None]
    /\ trace s' = [EvFree 2%nat; EvFree 3%nat; EvFree 1%nat].
Proof.
  destruct (Destruct_releases (mkDataSetByFeature 1 2 3 1) [3%nat]
              (mkState [Some [VResidual; VResidual; VResidual];
                        Some [VPtr 3%nat];
                        Some [VStorage 0; VStorage 3; VStorage 1]] [] [] []))
    as (s' & Hrun & _ & _ & Hrel & _).
  - right. by eexists.
  - intros _. split_and!; [reflexivity | reflexivity | cbn; lia | |].
    + intros p Hp. apply list_elem_of_singleton in Hp as ->. by eexists.
    + cbn [m_aResidualErrors m_aaInputData].
      repeat (apply NoDup_cons; split;
                [ let H := fresh in
                  intros H;
                  repeat (apply elem_of_cons in H as [H | H]; [discriminate H |]);
                  by apply elem_of_nil in H | ]).
      apply NoDup_nil_2.
  - exists s'. split; [exact Hrun |]. exact Hrel.
Defined.

(** * Further properties of the four functions *)

(** ** Heaps, traces and plans *)

Lemma outer_array_full base N :
  outer_array base N N = VPtr <$> column_addresses base N.
Proof.
  unfold outer_array, column_addresses.
  rewrite Nat.sub_diag, app_nil_r. by rewrite <- list_fmap_compose.
Qed.

Lemma column_addresses_length base N : length (column_addresses base N) = N.
Proof. unfold column_addresses. by rewrite length_fmap, length_seq. Qed.

Lemma elem_of_column_addresses base N p :
  p ∈ column_addresses base N <-> exists k, (k < N)%nat /\ p = S (base + S k).
Proof.
  unfold column_addresses. rewrite list_elem_of_fmap. split.
  - intros (k & -> & Hk). apply elem_of_seq in Hk. exists k. split; [lia | done].
  - intros (k & Hk & ->). exists k. split; [done |]. apply elem_of_seq. lia.
Qed.


Lemma NoDup_column_addresses base N : NoDup (column_addresses base N).
Proof.
  unfold column_addresses. apply NoDup_fmap_2_strong; [| apply NoDup_seq].
  intros x y _ _ H. lia.
Qed.


Lemma release_lookup_in ps : forall h a,
  S a ∈ ps -> is_Some (h !! a) -> release ps h !! a = Some None.
Proof.
  induction ps as [|p ps IH]; intros h a Hin Hsome.
  - by apply elem_of_nil in Hin.
  - change (release (p :: ps) h) with (release ps (release_one h p)).
    assert (Hlen : (a < length h)%nat) by by apply lookup_lt_is_Some.
    destruct (decide (p = S a)) as [-> | Hne].
    + destruct (decide (S a ∈ ps)) as [Hin' | Hnotin].
      * apply IH; [done |]. cbn. rewrite list_lookup_insert_eq by done. by eexists.
      * rewrite release_lookup_notin by done. cbn.
        by rewrite list_lookup_insert_eq.
    + apply elem_of_cons in Hin as [Heq | Hin]; [congruence |].
      apply IH; [done |]. by rewrite release_one_lookup_ne.
Qed.






Lemma no_refusal_grants pl k : no_refusal pl = true -> grants (drop k pl) = true.
Proof.
  unfold no_refusal. revert k. induction pl as [|b pl IH]; intros k H.
  - by rewrite drop_nil.
  - cbn in H. apply andb_true_iff in H as [-> H].
    destruct k as [|k]; [done |]. by apply IH.
Qed.

Lemma block_at_prefix h l q :
  (q <= length h)%nat -> block_at (h ++ l) q = block_at h q.
Proof.
  destruct q as [|a]; [done |]. intros H. cbn.
  by rewrite lookup_app_l by lia.
Qed.

(** ** Destruct on an object that owns its arrays *)

Lemma run_Destruct_residuals_only r cI cF h pl tr lg :
  r = nullptr \/ is_Some (block_at h r) ->
  Destruct (mkDataSetByFeature r nullptr cI cF) (mkState h pl tr lg)
  = Ret tt
      (mkState (release_one h r) pl
         ((if is_null r then [] else [EvFree r]) ++ tr)
         (Destruct_exited :: Destruct_entered :: lg)).
Proof.
  intros Hres. unfold Destruct. cbn [m_aResidualErrors m_aaInputData m_cFeatures].
  rewrite run_bind, run_LOG_0. cbv beta iota.
  rewrite run_bind, (run_free_owned r _ _ _ _ Hres). cbv beta iota.
  cbn [is_null Nat.eqb nullptr negb]. by msteps.
Qed.

Lemma run_Destruct_owned r a cI cF subs h pl tr lg :
  r = nullptr \/ is_Some (block_at h r) ->
  h !! a = Some (Some (VPtr <$> subs)) ->
  Z.of_nat (length subs) = cF -> 1 <= cF ->
  (forall p, p ∈ subs -> is_Some (block_at h p)) ->
  NoDup (r :: S a :: subs) ->
  Destruct (mkDataSetByFeature r (S a) cI cF) (mkState h pl tr lg)
  = Ret tt
      (mkState (release (r :: subs ++ [S a]) h) pl
         (EvFree (S a) :: rev (EvFree <$> subs)
          ++ (if is_null r then [] else [EvFree r]) ++ tr)
         (Destruct_exited :: Destruct_entered :: lg)).
Proof.
  intros Hres Hout Hlen HcF Hlive Hdup. unfold Destruct.
  cbn [m_aResidualErrors m_aaInputData m_cFeatures].
  rewrite run_bind, run_LOG_0. cbv beta iota.
  rewrite run_bind, (run_free_owned r _ _ _ _ Hres). cbv beta iota.
  rewrite is_null_S. cbn [negb].
  assert (H1 : (1 <=? cF) = true) by by apply Z.leb_le.
  rewrite H1. mstep.
  apply NoDup_cons in Hdup as [Hr_notin Hdup].
  apply not_elem_of_cons in Hr_notin as [Hr_aa Hr_subs].
  assert (Hout' : release_one h r !! a = Some (Some (VPtr <$> subs)))
    by by rewrite release_one_lookup_ne.
  rewrite !run_bind.
  rewrite (run_Destruct_loop a subs pl _ (Z.to_nat cF - 1) 0%nat); try done;
    [| lia |].
  - cbv beta iota. rewrite drop_0.
    erewrite run_free_live
      by (rewrite release_lookup_notin;
          [exact Hout' | by apply NoDup_cons in Hdup as [? _]]).
    cbv beta iota. rewrite run_LOG_0. unfold release. cbn [foldl].
    by rewrite foldl_app.
  - intros k p _ Hp. rewrite release_one_block_at_ne.
    + apply Hlive. by eapply list_elem_of_lookup_2.
    + intros ->. apply Hr_subs. by eapply list_elem_of_lookup_2.
Qed.

(** ** ConstructInputData with every request granted *)

Lemma ConstructInputData_success w aFeatures cI aBinnedData h cF pl tr lg :
  0 < cF -> 0 < cI ->
  legal_inputs w cF aFeatures cI aBinnedData = true ->
  (forall k, (k <= Z.to_nat cF)%nat -> grants (drop k pl) = true) ->
  exists cols tr',
    ConstructInputData w cF aFeatures cI aBinnedData (mkState h pl tr lg)
    = Ret (S (length h))
        (mkState
           (h ++ Some (VPtr <$> column_addresses (length h) (Z.to_nat cF))
              :: (Some <$> cols))
           (drop (S (Z.to_nat cF)) pl) tr'
           ((TraceLevelInfo, "Exited DataSetByFeature::ConstructInputData"%string)
            :: columns_entered :: lg))
    /\ length cols = Z.to_nat cF
    /\ (forall k, (k < Z.to_nat cF)%nat -> exists f col,
          aFeatures !! k = Some f /\ cols !! k = Some col
          /\ column_of w cI aBinnedData f col)
    /\ allocations tr' = (allocations tr + S (Z.to_nat cF))%nat
    /\ frees tr' = frees tr
    /\ dispatches tr' = dispatches tr
    /\ requests tr' = (requests tr + S (Z.to_nat cF))%nat.
Proof.
  intros HcF HcI Hlegal Hgrants.
  destruct (ConstructInputData_progress w aFeatures cI aBinnedData h cF pl tr lg
              HcF HcI Hlegal) as (p & s' & Hrun).
  rewrite Hrun.
  apply ConstructInputData_inv in Hrun
    as (_ & _ & [(_ & n & tr' & Hn & _ & _ & Hgf & _)
                | (-> & cols & tr' & Hlen & -> & _ & Hcols & Ha & Hf & Hd & Hq)]).
  - rewrite Hgrants in Hgf by done. discriminate Hgf.
  - exists cols, tr'. rewrite outer_array_full. done.
Qed.

Lemma built_columns_live (h0 : list (option block)) (o : option block)
    (cols : list block) N p :
  length cols = N -> p ∈ column_addresses (length h0) N ->
  exists k col,
    p = S (length h0 + S k) /\ cols !! k = Some col
    /\ block_at (h0 ++ o :: (Some <$> cols)) p = Some col.
Proof.
  intros Hlen Hp. apply elem_of_column_addresses in Hp as (k & Hk & ->).
  destruct (lookup_lt_is_Some_2 cols k) as [col Hcol]; [lia |].
  exists k, col. split_and!; try done. cbn [block_at].
  rewrite heap_lookup_new.
  change ((o :: (Some <$> cols)) !! S k) with ((Some <$> cols) !! k).
  by rewrite list_lookup_fmap, Hcol.
Qed.

(** X1.  On legal inputs and with no request refused, [ConstructInputData]
    returns a fresh outer array of [cFeatures] pointers to distinct live
    arrays of [cInstances] cells each.  The heap it was given is kept as a
    prefix and grows by [cFeatures + 1] blocks; as many allocations are
    recorded and no release. *)
Theorem ConstructInputData_builds (w cF : Z) (aFeatures : list Feature)
    (cI : Z) (aBinnedData : list Z) (s : State)
    (HcF : 0 < cF) (HcI : 0 < cI)
    (Hlegal : legal_inputs w cF aFeatures cI aBinnedData = true)
    (Hplan : no_refusal (plan s) = true) :
  exists s' subs,
    ConstructInputData w cF aFeatures cI aBinnedData s
    = Ret (S (length (heap s))) s'
    /\ deref s' (S (length (heap s))) = Some (VPtr <$> subs)
    /\ length subs = Z.to_nat cF
    /\ NoDup (S (length (heap s)) :: subs)
    /\ (forall p, p ∈ subs ->
          (length (heap s) < p)%nat
          /\ exists col, deref s' p = Some col /\ length col = Z.to_nat cI)
    /\ (exists l, heap s' = heap s ++ l /\ length l = S (Z.to_nat cF))
    /\ allocations (trace s') = (allocations (trace s) + S (Z.to_nat cF))%nat
    /\ frees (trace s') = frees (trace s).
Proof.
  destruct s as [h pl tr lg]. cbn [heap plan trace] in *.
  destruct (ConstructInputData_success w aFeatures cI aBinnedData h cF pl tr lg
              HcF HcI Hlegal) as (cols & tr' & -> & Hlen & Hcols & Ha & Hf & _).
  { intros k _. by apply no_refusal_grants. }
  eexists _, (column_addresses (length h) (Z.to_nat cF)).
  split; [reflexivity |]. unfold deref. cbn [heap trace].
  split_and!; try done.
  - cbn [block_at]. by rewrite heap_lookup_0.
  - apply column_addresses_length.
  - apply NoDup_cons. split; [| apply NoDup_column_addresses].
    intros Hin. apply elem_of_column_addresses in Hin as (k & _ & Hk). lia.
  - intros p Hp.
    destruct (built_columns_live h
                (Some (VPtr <$> column_addresses (length h) (Z.to_nat cF)))
                cols _ p Hlen Hp) as (k & col & -> & Hk & Hb).
    split; [lia |]. exists col. split; [done |].
    destruct (Hcols k) as (f & col' & _ & Hk' & Hcol & _).
    { apply lookup_lt_Some in Hk. lia. }
    congruence.
  - eexists. split; [reflexivity |]. cbn [length]. by rewrite length_fmap, Hlen.
Qed.

Lemma ConstructInputData_builds_witness :
  exists s' subs,
    ConstructInputData 8 2 [mkFeature 1 4; mkFeature 0 4] 2 [0; 3; 1; 2]
      (initial_State []) = Ret 1%nat s'
    /\ deref s' 1%nat = Some (VPtr <$> subs)
    /\ length subs = 2%nat.
Proof.
  destruct (ConstructInputData_builds 8 2 [mkFeature 1 4; mkFeature 0 4] 2
              [0; 3; 1; 2] (initial_State []))
    as (s' & subs & Hrun & Hout & Hlen & _);
    [lia | lia | reflexivity | reflexivity |].
  exists s', subs. split; [exact Hrun |]. split; [exact Hout | exact Hlen].
Defined.

(** ** ConstructInputData in a release build *)

Section InputReleaseBuild.

Variable w : Z.
Variables (aFeatures : list Feature) (cI : Z) (aBinnedData : list Z).

Lemma run_copy_body_release f a j from d col h pl tr lg :
  aBinnedData !! from = Some d ->
  h !! a = Some (Some col) -> (j < length col)%nat ->
  copy_body_in ReleaseBuild w aBinnedData f (S a) j from (mkState h pl tr lg) =
  Ret tt (mkState
            (<[a := Some (<[j := VStorage (static_cast_StorageDataType w d)]> col)]> h)
            pl tr lg).
Proof.
  intros Hd Hcol Hj. unfold copy_body_in, read. rewrite Hd.
  rewrite run_bind. change (ret d ?s) with (Ret d s). cbv beta iota.
  cbn [EBM_ASSERT_in]. msteps. by apply run_store.
Qed.

(** The inner loop returns as soon as the raw codes are there to read. *)
Lemma copy_loop_release_progress f a more : forall j from h col pl tr lg,
  h !! a = Some (Some col) -> (j + more < length col)%nat ->
  (forall k, (k <= more)%nat -> is_Some (aBinnedData !! (from + k)%nat)) ->
  exists s',
    copy_loop_in ReleaseBuild w more aBinnedData f (S a) j from
      (mkState h pl tr lg) = Ret tt s'.
Proof.
  induction more as [|more IH]; intros j from h col pl tr lg Hcol Hj Hpresent;
    cbn [copy_loop_in]; rewrite run_bind;
    destruct (Hpresent 0%nat ltac:(lia)) as (d & Hd);
    rewrite Nat.add_0_r in Hd;
    rewrite (run_copy_body_release _ _ _ _ _ _ _ _ _ _ Hd Hcol) by lia;
    cbv beta iota.
  - eauto.
  - assert (Ha : (a < length h)%nat) by (eapply lookup_lt_Some; eauto).
    eapply IH; [by apply list_lookup_insert_eq | rewrite length_insert; lia |].
    intros k Hk. rewrite Nat.add_succ_comm. apply Hpresent. lia.
Qed.

Variable h0 : list (option block).

Lemma feature_body_release_progress i outer cols pl tr lg :
  length cols = i -> (i < length outer)%nat -> 0 < cI -> grants pl = true ->
  (exists f, aFeatures !! i = Some f /\ present_run cI aBinnedData f = true) ->
  exists s',
    feature_body_in ReleaseBuild w aFeatures cI aBinnedData (S (length h0)) i
      (mkState (h0 ++ Some outer :: (Some <$> cols)) pl tr lg) = Ret true s'.
Proof.
  intros Hlen Hi HcI Hg (f & Hf & Hpresent). unfold feature_body_in.
  assert (Hlen' : length (Some <$> cols) = i) by by rewrite length_fmap.
  rewrite run_bind, (run_EbmMalloc_granted _ _ _ _ _ Hg). cbv beta iota.
  rewrite (heap_building_length _ _ _ _ Hlen'), is_null_S.
  rewrite <- app_assoc. cbn [app].
  rewrite run_bind, (run_store _ _ _ _ _ _ _ _ (heap_lookup_0 _ _ _) Hi).
  cbv beta iota. rewrite heap_insert_0.
  rewrite run_bind. unfold read. rewrite Hf.
  change (ret f ?s) with (Ret f s). cbv beta iota.
  rewrite run_bind.
  edestruct (copy_loop_release_progress f (length h0 + S i)
               (Z.to_nat cI - 1) 0%nat)
    as [s' Hs']; [by apply heap_col_lookup | | | rewrite Hs'; eauto].
  - rewrite length_replicate. lia.
  - intros k Hk. unfold present_run in Hpresent.
    rewrite forallb_forall in Hpresent.
    specialize (Hpresent k). rewrite in_seq in Hpresent.
    specialize (Hpresent ltac:(lia)).
    destruct (aBinnedData !! _) as [d|]; [eauto | discriminate].
Qed.

Lemma feature_loop_release_progress N more : forall i cols pl tr lg,
  length cols = i -> (i + more < N)%nat -> 0 < cI ->
  (forall k, (k <= more)%nat -> grants (drop k pl) = true) ->
  (forall k, (i <= k <= i + more)%nat -> exists f,
      aFeatures !! k = Some f /\ present_run cI aBinnedData f = true) ->
  exists n s',
    feature_loop_in ReleaseBuild w more aFeatures cI aBinnedData
      (S (length h0)) i
      (mkState (h0 ++ Some (outer_array (length h0) N i) :: (Some <$> cols))
               pl tr lg)
    = Ret (true, n) s'.
Proof.
  induction more as [|more IH];
    intros i cols pl tr lg Hlen Hi HcI Hgrants Hpresent;
    cbn [feature_loop_in]; rewrite run_bind;
    (destruct (feature_body_release_progress i
                 (outer_array (length h0) N i) cols pl tr lg)
       as (s1 & Hb);
     [done | rewrite outer_array_length; lia | done
     | by rewrite <- (Hgrants 0%nat ltac:(lia)), drop_0
     | apply Hpresent; lia |]);
    rewrite Hb; cbv beta iota.
  - eauto.
  - apply feature_body_in_inv in Hb as (_ & _ & f & col & _ & _ & ->);
      [| done].
    rewrite outer_array_S by lia.
    apply IH; [rewrite length_app; cbn [length]; lia | lia | done | |].
    + intros k Hk. rewrite drop_tail. apply Hgrants. lia.
    + intros k Hk. apply Hpresent. lia.
Qed.

Lemma ConstructInputData_release_progress cF pl tr lg :
  0 < cF -> 0 < cI ->
  present_inputs cF aFeatures cI aBinnedData = true ->
  (forall k, (k <= Z.to_nat cF)%nat -> grants (drop k pl) = true) ->
  exists s',
    ConstructInputData_in ReleaseBuild w cF aFeatures cI aBinnedData
      (mkState h0 pl tr lg)
    = Ret (S (length h0)) s'.
Proof.
  intros HcF HcI Hpresent Hgrants. unfold ConstructInputData_in.
  rewrite run_bind, run_LOG_0. cbv beta iota.
  cbn [EBM_ASSERT_in]. mstep. mstep.
  assert (Hg : grants pl = true)
    by by rewrite <- (Hgrants 0%nat ltac:(lia)), drop_0.
  rewrite run_bind, (run_EbmMalloc_granted _ _ _ _ _ Hg).
  cbv beta iota. rewrite is_null_S.
  change (h0 ++ [Some (replicate (Z.to_nat cF) Uninit)])
    with (h0 ++ Some (replicate (Z.to_nat cF) Uninit) :: (Some <$> [])).
  replace (replicate (Z.to_nat cF) Uninit)
    with (outer_array (length h0) (Z.to_nat cF) 0)
    by (unfold outer_array; cbn; by rewrite Nat.sub_0_r).
  rewrite run_bind.
  destruct (feature_loop_release_progress (Z.to_nat cF) (Z.to_nat cF - 1)
              0%nat [] (tail pl)
              (EvMalloc cF (S (length h0)) :: tr)
              ((TraceLevelInfo,
                "Entered DataSetByFeature::ConstructInputData"%string) :: lg))
    as (n & s1 & Hloop); [done | lia | done | | |].
  { intros k Hk. rewrite drop_tail. apply Hgrants. lia. }
  { intros k Hk. unfold present_inputs in Hpresent.
    rewrite forallb_forall in Hpresent. specialize (Hpresent k).
    rewrite in_seq in Hpresent. specialize (Hpresent ltac:(lia)).
    destruct (aFeatures !! k) as [f|]; [eauto | discriminate]. }
  rewrite Hloop. cbv beta iota. cbn [fst].
  destruct s1 as [h1 pl1 tr1 lg1]. rewrite run_bind, run_LOG_0. eauto.
Qed.

End InputReleaseBuild.

(** X2.  A release build of [ConstructInputData] checks nothing about the
    raw codes: with at least one feature and one instance, an entry of
    [aFeatures] for each feature, the run of each feature inside
    [aBinnedData] and no request refused, it returns the outer array
    whatever the codes are, negative, beyond the bin count or beyond the
    storage width, and every cell holds its raw code narrowed to the
    storage width. *)
Theorem ConstructInputData_release_stores_any_code (w cF : Z)
    (aFeatures : list Feature) (cI : Z) (aBinnedData : list Z) (s : State)
    (HcF : 0 < cF) (HcI : 0 < cI)
    (Hpresent : present_inputs cF aFeatures cI aBinnedData = true)
    (Hplan : no_refusal (plan s) = true) :
  exists s',
    ConstructInputData_in ReleaseBuild w cF aFeatures cI aBinnedData s
    = Ret (S (length (heap s))) s'
    /\ forall (i j : nat) (f : Feature),
         (i < Z.to_nat cF)%nat -> (j < Z.to_nat cI)%nat ->
         aFeatures !! i = Some f ->
         exists c,
           aBinnedData !! (Z.to_nat (size_mul (GetIndexFeatureData f) cI) + j)%nat
           = Some c
           /\ columns_at s' (S (length (heap s))) i j
              = Some (static_cast_StorageDataType w c).
Proof.
  destruct s as [h pl tr lg]. cbn [plan heap] in *.
  destruct (ConstructInputData_release_progress w aFeatures cI aBinnedData h
              cF pl tr lg HcF HcI Hpresent) as (s' & Hrun).
  { intros k _. by apply no_refusal_grants. }
  exists s'. split; [exact Hrun |].
  apply ConstructInputData_in_inv in Hrun
    as (_ & cols & pl' & tr' & lg' & Hlen & -> & Hcols); [| lia | done].
  intros i j f Hi Hj Hf.
  destruct (Hcols i Hi) as (f' & col & Hf' & Hcol & _ & Hcells).
  rewrite Hf in Hf'. injection Hf' as <-.
  destruct (Hcells j Hj) as (c & Hc & Hcell).
  exists c. split; [exact Hc |].
  by eapply columns_at_built.
Qed.

Lemma ConstructInputData_release_stores_any_code_witness :
  exists s',
    ConstructInputData_in ReleaseBuild 8 1 [mkFeature 0 4] 4 [1; 5; -1; 300]
      (initial_State []) = Ret 1%nat s'
    /\ columns_at s' 1%nat 0 1 = Some 5
    /\ columns_at s' 1%nat 0 2 = Some 255
    /\ columns_at s' 1%nat 0 3 = Some 44.
Proof.
  destruct (ConstructInputData_release_stores_any_code 8 1 [mkFeature 0 4] 4
              [1; 5; -1; 300] (initial_State []))
    as (s' & Hrun & Hcells); [lia | lia | reflexivity | reflexivity |].
  exists s'. split; [exact Hrun |].
  split_and!.
  - destruct (Hcells 0%nat 1%nat (mkFeature 0 4)) as (c & Hc & Hcol);
      [vm_compute; lia | vm_compute; lia | reflexivity |].
    vm_compute in Hc. injection Hc as <-. exact Hcol.
  - destruct (Hcells 0%nat 2%nat (mkFeature 0 4)) as (c & Hc & Hcol);
      [vm_compute; lia | vm_compute; lia | reflexivity |].
    vm_compute in Hc. injection Hc as <-. exact Hcol.
  - destruct (Hcells 0%nat 3%nat (mkFeature 0 4)) as (c & Hc & Hcol);
      [vm_compute; lia | vm_compute; lia | reflexivity |].
    vm_compute in Hc. injection Hc as <-. exact Hcol.
Defined.

(** ** More on the residual array *)

(** X3.  With the assertions satisfied and a product that fits [size_t],
    whenever the allocator refuses the residual array and the run reaches
    a kernel (always for regression and binary classification; for
    multiclass classification when the scratch is granted), the kernel of
    the task is dispatched with [nullptr] as its output array and the run
    does not return; no warning is logged. *)
Theorem ConstructResidualErrors_refused_output_never_returns (cI : Z)
    (tgt sc : ptr) (t : LearningType) (s : State)
    (HcI : 1 <= cI) (Htgt : tgt <> nullptr) (Hsc : sc <> nullptr)
    (Hv : 1 <= GetVectorLength t) (Hfit : cI * GetVectorLength t <= SIZE_MAX)
    (Hrefused : grants (plan s) = false)
    (Hscratch : is_multiclass t = true -> grants (tail (plan s)) = true) :
  exists s' tmp,
    ConstructResidualErrors cI tgt sc t s = Fault NullDereference s'
    /\ head (trace s') = Some (EvKernel (kernel_of t) cI nullptr t tmp)
    /\ log s' = residuals_entered :: log s
    /\ frees (trace s') = frees (trace s).
Proof.
  destruct s as [h pl tr lg]. cbn [plan trace log] in *.
  destruct (is_multiclass t) eqn:Ht.
  - rewrite ConstructResidualErrors_multi_output_refused by auto.
    eexists _, _. split; [reflexivity |]. by destruct t.
  - rewrite ConstructResidualErrors_single_refused by auto.
    eexists _, _. split; [reflexivity |]. done.
Qed.

Lemma ConstructResidualErrors_refused_output_never_returns_witness :
  exists s' tmp,
    ConstructResidualErrors 5 1%nat 2%nat BinaryClassification
      (initial_State [false]) = Fault NullDereference s'
    /\ head (trace s')
       = Some (EvKernel Kernel_2 5 nullptr BinaryClassification tmp).
Proof.
  destruct (ConstructResidualErrors_refused_output_never_returns 5 1%nat 2%nat
              BinaryClassification (initial_State [false]))
    as (s' & tmp & Hrun & Hhead & _);
    [lia | done | done | vm_compute; discriminate | vm_compute; discriminate
    | reflexivity | discriminate |].
  exists s', tmp. split; [exact Hrun | exact Hhead].
Defined.

(** What [ConstructResidualErrors] leaves in the heap when it returns: the
    heap it was given, then the returned array if there is one, then
    released blocks only. *)
Lemma ConstructResidualErrors_shape cI tgt sc t h pl tr lg p s1 :
  ConstructResidualErrors cI tgt sc t (mkState h pl tr lg) = Ret p s1 ->
  (p = nullptr /\ exists m, heap s1 = h ++ replicate m None
     /\ (allocations (trace s1) + frees tr
         = allocations tr + frees (trace s1))%nat)
  \/ (p = S (length h) /\ exists b m,
        heap s1 = h ++ Some b :: replicate m None
        /\ Z.of_nat (length b) = cI * GetVectorLength t
        /\ (exists n, plan s1 = drop n pl)
        /\ (allocations (trace s1) + frees tr
            = allocations tr + frees (trace s1) + 1)%nat).
Proof.
  intros Hrun.
  destruct (ConstructResidualErrors_asserted _ _ _ _ _ _ _ Hrun)
    as (HcI & _ & _ & Hv).
  apply ConstructResidualErrors_inv in Hrun
    as [(_ & -> & ->) | (Hfit & [H | [H | [H | H]]])].
  - left. split; [done |]. exists 0%nat. cbn. by rewrite app_nil_r.
  - destruct H as (_ & _ & -> & ->). right. split; [done |].
    eexists _, 0%nat. cbn [heap plan trace replicate].
    split_and!; [done | rewrite length_replicate; nia | by exists 1%nat; rewrite tail_drop |].
    cbn. lia.
  - destruct H as (_ & _ & _ & -> & ->). right. split; [done |].
    eexists _, 1%nat. cbn [heap plan trace replicate].
    split_and!; [done | rewrite length_replicate; nia | | cbn; lia].
    exists 2%nat. by rewrite !tail_drop, drop_drop.
  - destruct H as (_ & _ & _ & -> & ->). left. split; [done |].
    exists 1%nat. cbn. split; [done | lia].
  - destruct H as (_ & _ & _ & -> & ->). left. split; [done |].
    exists 0%nat. cbn. by rewrite app_nil_r.
Qed.

(** ** More on Initialize *)

(** X4.  A run of [Initialize] that returns, with either status, has kept
    every block that existed before the call: the heap it was given is a
    prefix of the heap it leaves, so no earlier block is released or
    written. *)
Theorem Initialize_keeps_earlier_blocks (w : Z) (this : DataSetByFeature)
    (cF : Z) (aFeatures : list Feature) (cI : Z) (aBinnedData : list Z)
    (tgt sc : ptr) (t : LearningType) (s : State) (b : bool)
    (this' : DataSetByFeature) (s' : State)
    (Hrun : Initialize w this cF aFeatures cI aBinnedData tgt sc t s
            = Ret (b, this') s') :
  (exists l, heap s' = heap s ++ l)
  /\ forall q, (q <= length (heap s))%nat -> deref s' q = deref s q.
Proof.
  assert (Hprefix : exists l, heap s' = heap s ++ l).
  { destruct s as [h pl tr lg].
    apply Initialize_inv in Hrun as (_ & H).
    unfold logged in H. cbn [heap plan trace log] in H.
    destruct H as [(_ & _ & _ & ->) | [(_ & s1 & Hres & _ & _ & ->)
      | [(_ & _ & p & s1 & Hres & _ & _ & _ & ->)
        | [(_ & _ & p & s1 & s2 & s3 & Hres & Hp & Hcols & Hfree & _ & _ & ->)
          | (_ & _ & p & s1 & aa & s2 & Hres & Hp & Hcols & _ & _ & _ & ->)]]]];
      cbn [heap].
    - exists []. by rewrite app_nil_r.
    - apply ConstructResidualErrors_shape in Hres
        as [(_ & m & -> & _) | ([=] & _)]. eauto.
    - apply ConstructResidualErrors_shape in Hres
        as [(_ & m & -> & _) | (_ & ? & m & -> & _)]; eauto.
    - apply ConstructResidualErrors_shape in Hres
        as [(-> & _) | (-> & b0 & m & Hh & _)]; [done |].
      destruct s1 as [h1 pl1 tr1 lg1]. cbn [heap] in Hh. subst h1.
      apply ConstructInputData_inv in Hcols
        as (_ & _ & [(_ & n & tr2 & _ & -> & _) | ([=] & _)]).
      rewrite <- app_assoc in Hfree. cbn [app] in Hfree.
      erewrite run_free_live in Hfree by apply heap_lookup_0.
      injection Hfree as <-. cbn [heap]. rewrite heap_insert_0. eauto.
    - apply ConstructResidualErrors_shape in Hres
        as [(-> & _) | (-> & b0 & m & Hh & _)]; [done |].
      destruct s1 as [h1 pl1 tr1 lg1]. cbn [heap] in Hh. subst h1.
      apply ConstructInputData_inv in Hcols
        as (_ & _ & [(_ & n & tr2 & _ & -> & _)
                    | (_ & cols & tr2 & _ & -> & _)]);
        cbn [heap]; rewrite <- app_assoc; eauto. }
  split; [done |]. destruct Hprefix as [l Hl]. intros q Hq.
  unfold deref. rewrite Hl. by apply block_at_prefix.
Qed.

Lemma Initialize_keeps_earlier_blocks_witness :
  exists s',
    Initialize 8 zero_DataSetByFeature 1 [mkFeature 0 4] 3 [0; 3; 1] 1%nat
      2%nat Regression (mkState [Some [VStorage 7]] [] [] [])
    = Ret (false, mkDataSetByFeature 2 3 3 1) s'
    /\ deref s' 1%nat = Some [VStorage 7].
Proof.
  set (s := mkState [Some [VStorage 7]] [] [] []).
  set (o := Initialize 8 zero_DataSetByFeature 1 [mkFeature 0 4] 3 [0; 3; 1]
              1%nat 2%nat Regression s).
  assert (Ho : o = Ret (false, mkDataSetByFeature 2 3 3 1) (final o))
    by (vm_compute; reflexivity).
  exists (final o). split; [exact Ho |].
  destruct (Initialize_keeps_earlier_blocks 8 zero_DataSetByFeature 1
              [mkFeature 0 4] 3 [0; 3; 1] 1%nat 2%nat Regression s false
              (mkDataSetByFeature 2 3 3 1) (final o) Ho) as [_ Hkeep].
  rewrite (Hkeep 1%nat); [reflexivity | vm_compute; lia].
Defined.

(** ** Initialize on an object that is already built *)

(** X5.  Only the assertions at the head of [Initialize] keep the function
    from an object that is already built.  On an object that holds a live
    residual array, a checked build stops at the first assertion.  A
    release build goes on: here with no feature, a task that is not
    multiclass and the request granted, the call returns [false], stores a
    fresh residual array in the object and frees nothing, so that the
    earlier array stays live and unchanged in the heap while the object no
    longer points to it. *)
Theorem Initialize_again_leaks_in_release (w : Z) (this : DataSetByFeature)
    (aFeatures : list Feature) (cI : Z) (aBinnedData : list Z) (tgt sc : ptr)
    (t : LearningType) (s : State) (a : nat) (old : block)
    (Hown : m_aResidualErrors this = S a)
    (Hlive : heap s !! a = Some (Some old))
    (HcI : 1 <= cI) (Htgt : tgt <> nullptr) (Hsc : sc <> nullptr)
    (Hfit : cI * GetVectorLength t <= SIZE_MAX)
    (Ht : is_multiclass t = false)
    (Hg : grants (plan s) = true) :
  Initialize_in CheckedBuild w this 0 aFeatures cI aBinnedData tgt sc t s
  = Fault AssertionFailure s
  /\ exists s',
       Initialize_in ReleaseBuild w this 0 aFeatures cI aBinnedData tgt sc t s
       = Ret (false,
              mkDataSetByFeature (S (length (heap s))) (m_aaInputData this)
                                 cI 0) s'
       /\ S (length (heap s)) <> m_aResidualErrors this
       /\ block_at (heap s') (m_aResidualErrors this) = Some old
       /\ block_at (heap s') (S (length (heap s)))
          = Some (replicate (Z.to_nat (cI * GetVectorLength t)) VResidual)
       /\ allocations (trace s') = S (allocations (trace s))
       /\ frees (trace s') = frees (trace s).
Proof.
  assert (Hv : 1 <= GetVectorLength t) by (destruct t; [cbn; lia.. | done]).
  assert (Ha : (a < length (heap s))%nat) by (eapply lookup_lt_Some; eauto).
  split.
  { unfold Initialize_in. rewrite Hown. cbn [EBM_ASSERT_in].
    by rewrite run_bind. }
  destruct s as [h pl tr lg]. cbn [heap plan trace] in *.
  unfold Initialize_in. cbn [EBM_ASSERT_in]. mstep. mstep. mstep. mstep.
  replace (0 =? cI) with false by (symmetry; apply Z.eqb_neq; lia).
  cbn [negb]. rewrite !run_bind.
  rewrite ConstructResidualErrors_in_asserted by done.
  rewrite ConstructResidualErrors_single_granted by done.
  cbv beta iota. rewrite is_null_S. change (0 =? 0) with true. cbn [negb].
  msteps. eexists. split; [reflexivity |].
  cbn [heap trace]. rewrite Hown. split_and!.
  - lia.
  - cbn [block_at]. by rewrite lookup_app_l, Hlive by done.
  - cbn [block_at]. by rewrite heap_lookup_0.
  - by destruct t.
  - by destruct t.
Qed.

Lemma Initialize_again_leaks_in_release_witness :
  exists s',
    Initialize_in ReleaseBuild 8 (mkDataSetByFeature 1 0 2 0) 0 [] 2 []
      1%nat 2%nat Regression
      (mkState [Some [VResidual; VResidual]] [] [] [])
    = Ret (false, mkDataSetByFeature 2 0 2 0) s'
    /\ block_at (heap s') 1%nat = Some [VResidual; VResidual]
    /\ block_at (heap s') 2%nat = Some [VResidual; VResidual]
    /\ frees (trace s') = 0%nat.
Proof.
  destruct (Initialize_again_leaks_in_release 8 (mkDataSetByFeature 1 0 2 0)
              [] 2 [] 1%nat 2%nat Regression
              (mkState [Some [VResidual; VResidual]] [] [] []) 0%nat
              [VResidual; VResidual])
    as (_ & s' & Hrun & _ & Hold & Hnew & _ & Hfrees);
    [reflexivity | reflexivity | lia | done | done | vm_compute; discriminate
    | reflexivity | reflexivity |].
  exists s'. split; [exact Hrun |]. split; [exact Hold |].
  split; [exact Hnew | exact Hfrees].
Defined.

(** ** The heap of a built data set *)

Section BuiltHeap.

Variables (h : list (option block)) (b : block) (m N : nat) (cols : list block).
Hypothesis Hcols : length cols = N.

Local Abbreviation h1 := (h ++ Some b :: replicate m None).
Local Abbreviation subs := (column_addresses (length h1) N).
Local Abbreviation built :=
  (h1 ++ Some (VPtr <$> subs) :: (Some <$> cols)).

Lemma built_length_h1 : length h1 = (length h + S m)%nat.
Proof. rewrite length_app. cbn. by rewrite length_replicate. Qed.

Lemma built_residuals_live : built !! length h = Some (Some b).
Proof. rewrite <- app_assoc. cbn [app]. apply heap_lookup_0. Qed.

Lemma built_outer_live : built !! length h1 = Some (Some (VPtr <$> subs)).
Proof. apply heap_lookup_0. Qed.

Lemma built_subs_live p :
  p ∈ subs -> exists col, block_at built p = Some col /\ col ∈ cols.
Proof.
  intros Hp.
  destruct (built_columns_live h1 (Some (VPtr <$> subs)) cols N p Hcols Hp)
    as (k & col & _ & Hk & Hb).
  exists col. split; [done |]. by eapply list_elem_of_lookup_2.
Qed.

Lemma built_NoDup : NoDup (S (length h) :: S (length h1) :: subs).
Proof.
  pose proof built_length_h1 as Hl.
  apply NoDup_cons. split.
  - intros Hin. apply elem_of_cons in Hin as [Heq | Hin]; [lia |].
    apply elem_of_column_addresses in Hin as (k & _ & Hk). lia.
  - apply NoDup_cons. split; [| apply NoDup_column_addresses].
    intros Hin. apply elem_of_column_addresses in Hin as (k & _ & Hk). lia.
Qed.


End BuiltHeap.

(** ** The life of a data set *)



(** X7.  In a multiclass task, when the allocator refuses the scratch
    vector and the assertions and the overflow test are passed,
    [Initialize] returns [true] and leaves the object unchanged whether the
    residual array had been granted or not: no kernel is dispatched, the
    residual array, if granted, is released, and the refusal is logged. *)
Theorem Initialize_scratch_refused (w : Z) (this : DataSetByFeature) (cF : Z)
    (aFeatures : list Feature) (cI : Z) (aBinnedData : list Z) (tgt sc : ptr)
    (K : Z) (s : State)
    (Hzero : zero_state this) (HcI : 1 <= cI) (Htgt : tgt <> nullptr)
    (Hsc : sc <> nullptr) (HK : 1 <= K) (Hfit : cI * K <= SIZE_MAX)
    (Hscratch : grants (tail (plan s)) = false) :
  exists s',
    Initialize w this cF aFeatures cI aBinnedData tgt sc
      (MulticlassClassification K) s = Ret (true, this) s'
    /\ heap s' = heap s ++ (if grants (plan s) then [None] else [])
    /\ plan s' = tail (tail (plan s))
    /\ requests (trace s') = (requests (trace s) + 2)%nat
    /\ (allocations (trace s') + frees (trace s)
        = allocations (trace s) + frees (trace s'))%nat
    /\ dispatches (trace s') = dispatches (trace s)
    /\ log s' =
       Initialize_failed :: residuals_no_scratch :: residuals_entered
       :: Initialize_entered :: log s.
Proof.
  destruct s as [h pl tr lg]. cbn [heap plan trace log] in *.
  destruct (grants pl) eqn:Hg.
  - eexists. split.
    + apply Initialize_residuals_fail; [done | lia |].
      unfold logged. cbn [heap plan trace log].
      by apply ConstructResidualErrors_multi_scratch_refused.
    + unfold logged. cbn [heap plan trace log]. split_and!; try done; cbn; lia.
  - eexists. split.
    + apply Initialize_residuals_fail; [done | lia |].
      unfold logged. cbn [heap plan trace log].
      by apply ConstructResidualErrors_multi_both_refused.
    + unfold logged. cbn [heap plan trace log]. rewrite app_nil_r.
      split_and!; try done; cbn; lia.
Qed.

Lemma Initialize_scratch_refused_witness :
  exists s',
    Initialize 8 zero_DataSetByFeature 1 [mkFeature 0 4] 2 [0; 3] 1%nat 2%nat
      (MulticlassClassification 3) (initial_State [true; false])
    = Ret (true, zero_DataSetByFeature) s'
    /\ heap s' = [None]
    /\ dispatches (trace s') = [].
Proof.
  destruct (Initialize_scratch_refused 8 zero_DataSetByFeature 1 [mkFeature 0 4]
              2 [0; 3] 1%nat 2%nat 3 (initial_State [true; false]))
    as (s' & Hrun & Hheap & _ & _ & _ & Hd & _);
    [done | lia | done | done | lia | vm_compute; discriminate | reflexivity |].
  exists s'. split; [exact Hrun |]. split; [exact Hheap | exact Hd].
Defined.

Lemma run_free_released a h pl tr lg :
  h !! a = Some None ->
  free (S a) (mkState h pl tr lg) = Fault InvalidFree (mkState h pl tr lg).
Proof. intros H. unfold free. cbn [heap]. by rewrite H. Qed.

Lemma release_block_at_notin ps h q :
  q ∉ ps -> block_at (release ps h) q = block_at h q.
Proof.
  destruct q as [|a]; [done |]. intros H. cbn.
  by rewrite release_lookup_notin.
Qed.

(** X8.  [Destruct] does not reset the members.  On an object that owns a
    residual array (and, when [m_aaInputData] is not null, its columns, as
    in C9), a first [Destruct] returns and a second [Destruct] on the same
    object stops in [free] on the residual array already released. *)
Theorem Destruct_twice_invalid_free (this : DataSetByFeature)
    (subs : list ptr) (s : State)
    (Hres : is_Some (deref s (m_aResidualErrors this)))
    (Hcols : m_aaInputData this <> nullptr ->
             deref s (m_aaInputData this) = Some (VPtr <$> subs)
             /\ Z.of_nat (length subs) = m_cFeatures this
             /\ 1 <= m_cFeatures this
             /\ (forall p, p ∈ subs -> is_Some (deref s p))
             /\ NoDup (m_aResidualErrors this :: m_aaInputData this :: subs)) :
  exists s',
    Destruct this s = Ret tt s'
    /\ Destruct this s' = Fault InvalidFree (logged Destruct_entered s').
Proof.
  destruct this as [r aa cI cF], s as [h pl tr lg].
  cbn [m_aResidualErrors m_aaInputData m_cFeatures deref heap] in *.
  destruct (block_at_live _ _ Hres) as (a0 & b0 & -> & Hb0).
  destruct aa as [|a].
  - rewrite run_Destruct_residuals_only by by right.
    eexists. split; [reflexivity |].
    unfold Destruct. cbn [m_aResidualErrors]. rewrite run_bind, run_LOG_0.
    cbv beta iota. rewrite run_bind, run_free_released; [done |].
    cbn [release_one]. apply list_lookup_insert_eq. by eapply lookup_lt_Some.
  - destruct (Hcols ltac:(done)) as (Hout & Hlen & HcF & Hlive & Hdup).
    rewrite (run_Destruct_owned _ _ _ _ subs); try done.
    + eexists. split; [reflexivity |].
      unfold Destruct. cbn [m_aResidualErrors]. rewrite run_bind, run_LOG_0.
      cbv beta iota. rewrite run_bind, run_free_released; [done |].
      apply release_lookup_in; [apply elem_of_cons; by left | by eexists].
    + by right.
    + cbn in Hout. destruct (h !! a) as [[b|]|]; cbn in Hout; congruence.
Qed.

Lemma Destruct_twice_invalid_free_witness :
  exists s',
    Destruct (mkDataSetByFeature 1 0 2 0)
      (mkState [Some [VResidual; VResidual]] [] [] []) = Ret tt s'
    /\ Destruct (mkDataSetByFeature 1 0 2 0) s'
       = Fault InvalidFree (logged Destruct_entered s').
Proof.
  apply (Destruct_twice_invalid_free (mkDataSetByFeature 1 0 2 0) []
           (mkState [Some [VResidual; VResidual]] [] [] [])).
  - by eexists.
  - intros H. by contradict H.
Defined.

(** X9.  [Destruct] touches only what the object owns: under the ownership
    assumptions of C9, every block other than the residual array, the outer
    array and the sub-arrays is after the call what it was before. *)
Theorem Destruct_touches_owned_only (this : DataSetByFeature)
    (subs : list ptr) (s : State)
    (Hres : m_aResidualErrors this = nullptr
            \/ is_Some (deref s (m_aResidualErrors this)))
    (Hcols : m_aaInputData this <> nullptr ->
             deref s (m_aaInputData this) = Some (VPtr <$> subs)
             /\ Z.of_nat (length subs) = m_cFeatures this
             /\ 1 <= m_cFeatures this
             /\ (forall p, p ∈ subs -> is_Some (deref s p))
             /\ NoDup (m_aResidualErrors this :: m_aaInputData this :: subs)) :
  exists s',
    Destruct this s = Ret tt s'
    /\ forall q,
         q <> m_aResidualErrors this ->
         (m_aaInputData this <> nullptr ->
          q <> m_aaInputData this /\ q ∉ subs) ->
         deref s' q = deref s q.
Proof.
  destruct this as [r aa cI cF], s as [h pl tr lg].
  cbn [m_aResidualErrors m_aaInputData m_cFeatures deref heap] in *.
  destruct aa as [|a].
  - rewrite run_Destruct_residuals_only by done.
    eexists. split; [reflexivity |]. intros q Hq _. unfold deref. cbn [heap].
    by apply release_one_block_at_ne.
  - destruct (Hcols ltac:(done)) as (Hout & Hlen & HcF & Hlive & Hdup).
    rewrite (run_Destruct_owned _ _ _ _ subs); try done.
    + eexists. split; [reflexivity |]. intros q Hq Hq'.
      destruct (Hq' ltac:(done)) as [Hqa Hqs]. unfold deref. cbn [heap].
      apply release_block_at_notin.
      rewrite not_elem_of_cons, not_elem_of_app, not_elem_of_cons.
      split_and!; try done. apply not_elem_of_nil.
    + cbn in Hout. destruct (h !! a) as [[b|]|]; cbn in Hout; congruence.
Qed.

Lemma Destruct_touches_owned_only_witness :
  exists s',
    Destruct (mkDataSetByFeature 2 0 1 0)
      (mkState [Some [VStorage 7]; Some [VResidual]] [] [] []) = Ret tt s'
    /\ deref s' 1%nat = Some [VStorage 7].
Proof.
  destruct (Destruct_touches_owned_only (mkDataSetByFeature 2 0 1 0) []
              (mkState [Some [VStorage 7]; Some [VResidual]] [] [] []))
    as (s' & Hrun & Hkeep).
  - right. by eexists.
  - intros H. by contradict H.
  - exists s'. split; [exact Hrun |]. rewrite (Hkeep 1%nat); [reflexivity | | ].
    + discriminate.
    + intros H. by contradict H.
Defined.

(** The two ways in which [Initialize] succeeds with instances. *)
Lemma Initialize_no_features w this cF aFeatures cI aBinnedData tgt sc t s p s1 :
  zero_state this -> cI <> 0 -> cF = 0 ->
  ConstructResidualErrors cI tgt sc t (logged Initialize_entered s) = Ret p s1 ->
  p <> nullptr ->
  Initialize w this cF aFeatures cI aBinnedData tgt sc t s
  = Ret (false, mkDataSetByFeature p (m_aaInputData this) cI cF)
      (logged Initialize_exited s1).
Proof.
  intros Hzero HcI -> Hres Hp. rewrite Initialize_start by done.
  apply Z.eqb_neq in HcI. rewrite Z.eqb_sym in HcI. rewrite HcI. cbn [negb].
  rewrite !run_bind, Hres. cbv beta iota.
  destruct p as [|a]; [done |]. rewrite is_null_S.
  change (0 =? 0) with true. cbn [negb]. by msteps.
Qed.

Lemma Initialize_built w this cF aFeatures cI aBinnedData tgt sc t s p s1 aa s2 :
  zero_state this -> cI <> 0 -> cF <> 0 ->
  ConstructResidualErrors cI tgt sc t (logged Initialize_entered s) = Ret p s1 ->
  p <> nullptr ->
  ConstructInputData w cF aFeatures cI aBinnedData s1 = Ret aa s2 ->
  aa <> nullptr ->
  Initialize w this cF aFeatures cI aBinnedData tgt sc t s
  = Ret (false, mkDataSetByFeature p aa cI cF) (logged Initialize_exited s2).
Proof.
  intros Hzero HcI HcF Hres Hp Hcols Haa. rewrite Initialize_start by done.
  apply Z.eqb_neq in HcI, HcF. rewrite Z.eqb_sym in HcI, HcF.
  rewrite HcI, HcF. cbn [negb].
  rewrite !run_bind, Hres. cbv beta iota.
  destruct p as [|a]; [done |]. rewrite is_null_S.
  rewrite !run_bind, Hcols. cbv beta iota.
  destruct aa as [|a']; [done |]. rewrite is_null_S. by msteps.
Qed.

(** [ConstructResidualErrors] with no request refused. *)
Lemma ConstructResidualErrors_success cI tgt sc t h pl tr lg :
  1 <= cI -> tgt <> nullptr -> sc <> nullptr ->
  1 <= GetVectorLength t -> cI * GetVectorLength t <= SIZE_MAX ->
  no_refusal pl = true ->
  exists s1 m n,
    ConstructResidualErrors cI tgt sc t (mkState h pl tr lg)
    = Ret (S (length h)) s1
    /\ heap s1 =
       h ++ Some (replicate (Z.to_nat (cI * GetVectorLength t)) VResidual)
         :: replicate m None
    /\ plan s1 = drop n pl.
Proof.
  intros HcI Htgt Hsc Hv Hfit Hplan.
  pose proof (no_refusal_grants pl 0 Hplan) as Hg. rewrite drop_0 in Hg.
  pose proof (no_refusal_grants pl 1 Hplan) as Hg2. rewrite <- tail_drop in Hg2.
  destruct (is_multiclass t) eqn:Ht.
  - rewrite ConstructResidualErrors_multi_granted by done.
    eexists _, 1%nat, 2%nat. split; [reflexivity |]. cbn [heap plan].
    split; [done |]. by rewrite !tail_drop, drop_drop.
  - rewrite ConstructResidualErrors_single_granted by done.
    eexists _, 0%nat, 1%nat. split; [reflexivity |]. cbn [heap plan].
    split; [done |]. by rewrite tail_drop.
Qed.

(** X10.  From an object in its zero state, with at least one instance,
    non-null target and score buffers, a vector length of at least one, a
    product that fits [size_t], legal feature data when there are
    features, and an allocator that refuses nothing, [Initialize] returns
    [false] and the object it leaves satisfies the invariants of the data
    set: the counts are recorded; [m_aResidualErrors] is a live array of
    [cInstances * cVectorLength] cells; with no feature [m_aaInputData]
    stays null; with features it is a live array of [cFeatures] pointers
    to live arrays of [cInstances] cells, all blocks being distinct. *)
Theorem Initialize_succeeds (w : Z) (this : DataSetByFeature) (cF : Z)
    (aFeatures : list Feature) (cI : Z) (aBinnedData : list Z) (tgt sc : ptr)
    (t : LearningType) (s : State)
    (Hzero : zero_state this) (HcI : 1 <= cI) (Htgt : tgt <> nullptr)
    (Hsc : sc <> nullptr) (Hv : 1 <= GetVectorLength t)
    (Hfit : cI * GetVectorLength t <= SIZE_MAX) (HcF : 0 <= cF)
    (Hlegal : cF <> 0 -> legal_inputs w cF aFeatures cI aBinnedData = true)
    (Hplan : no_refusal (plan s) = true) :
  exists this' s',
    Initialize w this cF aFeatures cI aBinnedData tgt sc t s
    = Ret (false, this') s'
    /\ m_cInstances this' = cI /\ m_cFeatures this' = cF
    /\ m_aResidualErrors this' = S (length (heap s))
    /\ (exists b, deref s' (m_aResidualErrors this') = Some b
                  /\ Z.of_nat (length b) = cI * GetVectorLength t)
    /\ (cF = 0 -> m_aaInputData this' = nullptr)
    /\ (cF <> 0 ->
        exists subs,
          deref s' (m_aaInputData this') = Some (VPtr <$> subs)
          /\ Z.of_nat (length subs) = cF
          /\ NoDup (m_aResidualErrors this' :: m_aaInputData this' :: subs)
          /\ forall p, p ∈ subs ->
               exists col, deref s' p = Some col
                           /\ Z.of_nat (length col) = cI).
Proof.
  destruct s as [h pl tr lg]. cbn [heap plan] in *.
  destruct (ConstructResidualErrors_success cI tgt sc t h pl tr
              (Initialize_entered :: lg) HcI Htgt Hsc Hv Hfit Hplan)
    as (s1 & m & n & Hres & Hh1 & Hpl1).
  destruct s1 as [h1 pl1 tr1 lg1]. cbn [heap plan] in Hh1, Hpl1. subst h1 pl1.
  destruct (decide (cF = 0)) as [HcF0 | HcF0].
  - eexists _, _. split.
    + apply (Initialize_no_features w this cF aFeatures cI aBinnedData tgt sc t
               (mkState h pl tr lg) _ _ Hzero ltac:(lia) HcF0 Hres ltac:(done)).
    + cbn [m_cInstances m_cFeatures m_aResidualErrors m_aaInputData].
      unfold logged, deref. cbn [heap]. split_and!; try done.
      * cbn [block_at]. rewrite heap_lookup_0. eexists. split; [reflexivity |].
        rewrite length_replicate. nia.
      * intros _. by destruct Hzero as (_ & -> & _).
  - destruct (ConstructInputData_success w aFeatures cI aBinnedData
                (h ++ Some (replicate (Z.to_nat (cI * GetVectorLength t)) VResidual)
                   :: replicate m None)
                cF (drop n pl) tr1 lg1 ltac:(lia) ltac:(lia) (Hlegal HcF0))
      as (cols & tr2 & Hcols & Hlen & Hcells & _).
    { intros k _. rewrite drop_drop. by apply no_refusal_grants. }
    eexists _, _. split.
    + apply (Initialize_built w this cF aFeatures cI aBinnedData tgt sc t
               (mkState h pl tr lg) _ _ _ _ Hzero ltac:(lia) HcF0 Hres
               ltac:(done) Hcols ltac:(done)).
    + cbn [m_cInstances m_cFeatures m_aResidualErrors m_aaInputData].
      unfold logged, deref. cbn [heap]. split_and!; try done.
      * cbn [block_at]. rewrite built_residuals_live. eexists.
        split; [reflexivity |]. rewrite length_replicate. nia.
      * intros _. eexists. split_and!.
        -- cbn [block_at]. by rewrite built_outer_live.
        -- rewrite column_addresses_length. lia.
        -- exact (built_NoDup h _ m (Z.to_nat cF) cols Hlen).
        -- intros p Hp.
           destruct (built_subs_live h _ m _ cols Hlen p Hp) as (col & Hb & Hin).
           exists col. split; [done |].
           apply list_elem_of_lookup in Hin as (k & Hk).
           destruct (Hcells k) as (f & col' & _ & Hk' & Hcol & _).
           { apply lookup_lt_Some in Hk. lia. }
           assert (col' = col) as -> by congruence. lia.
Qed.

Lemma Initialize_succeeds_witness :
  exists this' s',
    Initialize 8 zero_DataSetByFeature 2 [mkFeature 0 4; mkFeature 1 4] 2
      [0; 3; 1; 2] 1%nat 2%nat (MulticlassClassification 3) (initial_State [])
    = Ret (false, this') s'
    /\ m_cInstances this' = 2 /\ m_cFeatures this' = 2
    /\ m_aResidualErrors this' = 1%nat.
Proof.
  destruct (Initialize_succeeds 8 zero_DataSetByFeature 2
              [mkFeature 0 4; mkFeature 1 4] 2 [0; 3; 1; 2] 1%nat 2%nat
              (MulticlassClassification 3) (initial_State []))
    as (this' & s' & Hrun & HcI & HcF & Hr & _);
    [done | lia | done | done | vm_compute; discriminate
    | vm_compute; discriminate | lia | reflexivity | reflexivity |].
  exists this', s'. split; [exact Hrun |]. split; [exact HcI |].
  split; [exact HcF | exact Hr].
Defined.

(** X11.  [Initialize] returns [true] for two reasons only: the product
    [cInstances * cVectorLength] overflows [size_t], or the allocator has
    refused a request of this call, and then the refused request is the
    last one the call has made: the call has made [k + 1] requests and
    the allocator's answer to the one at position [k] was a refusal.
    Feature data never make it return [true]. *)
Theorem Initialize_failure_cause (w : Z) (this : DataSetByFeature) (cF : Z)
    (aFeatures : list Feature) (cI : Z) (aBinnedData : list Z) (tgt sc : ptr)
    (t : LearningType) (s : State) (this' : DataSetByFeature) (s' : State)
    (Hrun : Initialize w this cF aFeatures cI aBinnedData tgt sc t s
            = Ret (true, this') s') :
  SIZE_MAX < cI * GetVectorLength t
  \/ exists k : nat,
       requests (trace s') = (requests (trace s) + S k)%nat
       /\ grants (drop k (plan s)) = false.
Proof.
  destruct s as [h pl tr lg]. cbn [plan trace].
  apply Initialize_inv in Hrun as (_ & H).
  unfold logged in H. cbn [heap plan trace log] in H.
  destruct H as [(_ & [=] & _) | [(_ & s1 & Hres & _ & _ & ->)
    | [(_ & _ & p & s1 & _ & _ & [=] & _)
      | [(_ & _ & p & s1 & s2 & s3 & Hres & Hp & Hcols & Hfree & _ & _ & ->)
        | (_ & _ & p & s1 & aa & s2 & _ & _ & _ & _ & [=] & _)]]]].
  - apply ConstructResidualErrors_inv in Hres
      as [(Hov & _) | (_ & [H | [H | [H | H]]])].
    + by left.
    + by destruct H as (_ & _ & [=] & _).
    + by destruct H as (_ & _ & _ & [=] & _).
    + destruct H as (_ & _ & Hg & _ & ->). right. exists 1%nat.
      cbn [trace requests]. split; [lia | by rewrite <- tail_drop].
    + destruct H as (_ & _ & Hg & _ & ->). right. exists 1%nat.
      cbn [trace requests]. split; [lia | by rewrite <- tail_drop].
  - right.
    apply ConstructResidualErrors_inv in Hres
      as [(_ & -> & _) | (_ & [H | [H | [H | H]]])]; [done | | | |].
    + destruct H as (_ & _ & _ & ->).
      apply ConstructInputData_inv in Hcols
        as (_ & _ & [(_ & n & tr2 & _ & -> & _ & Hgf & _ & _ & _ & Hreq)
                    | ([=] & _)]).
      rewrite drop_tail in Hgf. cbn [requests] in Hreq.
      exists (S n). split; [| exact Hgf].
      apply free_Ret_inv in Hfree as [(_ & ->) | (a & b & _ & _ & ->)];
        cbn [trace requests]; lia.
    + destruct H as (_ & _ & _ & _ & ->).
      apply ConstructInputData_inv in Hcols
        as (_ & _ & [(_ & n & tr2 & _ & -> & _ & Hgf & _ & _ & _ & Hreq)
                    | ([=] & _)]).
      rewrite !drop_tail in Hgf. cbn [requests] in Hreq.
      exists (S (S n)). split; [| exact Hgf].
      apply free_Ret_inv in Hfree as [(_ & ->) | (a & b & _ & _ & ->)];
        cbn [trace requests]; lia.
    + by destruct H as (_ & _ & _ & -> & _).
    + by destruct H as (_ & _ & _ & -> & _).
Qed.

Lemma Initialize_failure_cause_witness :
  exists s',
    Initialize 8 zero_DataSetByFeature 2 [mkFeature 0 4; mkFeature 1 4]
      2 [0; 3; 1; 2] 1%nat 2%nat Regression
      (initial_State [true; true; true; false])
    = Ret (true, zero_DataSetByFeature) s'
    /\ (SIZE_MAX < 2 * GetVectorLength Regression
        \/ exists k : nat,
             requests (trace s')
             = (requests (trace (initial_State [true; true; true; false]))
                + S k)%nat
             /\ grants (drop k (plan (initial_State [true; true; true; false])))
                = false).
Proof.
  set (s := initial_State [true; true; true; false]).
  set (o := Initialize 8 zero_DataSetByFeature 2 [mkFeature 0 4; mkFeature 1 4]
              2 [0; 3; 1; 2] 1%nat 2%nat Regression s).
  assert (Ho : o = Ret (true, zero_DataSetByFeature) (final o))
    by (vm_compute; reflexivity).
  exists (final o). split; [exact Ho |].
  exact (Initialize_failure_cause 8 zero_DataSetByFeature 2
           [mkFeature 0 4; mkFeature 1 4] 2 [0; 3; 1; 2] 1%nat 2%nat Regression
           s zero_DataSetByFeature (final o) Ho).
Defined.
